(** * KM-Eval: record reconciliation and state-transition validation

    A shallow embedding of [src/eval_utils/validate_utils.py] and
    [src/eval_utils/file_utils.py], of the metrics of
    [src/eval_utils/metrics_utils.py], of [directory_summary] of
    [src/eval_utils/summary_utils.py] and of
    [generate_bounded_normal_dist_samples] of
    [src/eval_utils/statistics_utils.py], and the properties of the loaders,
    of the transition state machine, of the directory reconciler, of the
    metrics and of the summary.

    Modelling conventions.
    - A raised Python exception is a value of [error]; a function that may
      raise returns a [result].  Every [raise] site of the source has a
      constructor of its own, carrying what its message names.
    - A Python [dict] is an association list in insertion order (Python
      iterates a dict in that order, and which error a loop raises first
      depends on it); [lookup] reads the first binding of a key.
    - A [datetime] is its position on the time line, in microseconds (its
      resolution), together with its kind, offset-aware or offset-naive:
      comparing or subtracting two datetimes of different kinds raises
      [TypeError], and they are never equal.
    - A Python [float] is the rational number it stands for.  Where the
      loader computes with floats ([timedelta.total_seconds()] and the [+=]
      on the totals) the result is the float nearest to the exact one,
      [nearest]; which float that is stays a parameter, and the properties
      that need to know take what they need of it as a premise
      ([rounds_to_nearest]).  Infinities and NaN are outside the model: the
      differences of datetimes and their sums stay far inside the range of
      a float.
    - The tolerance test of [load_directory] and the metrics compare and
      combine numbers as exact rationals, and an int converts to a float
      whatever its size; the properties about them either do not depend on
      a rounded digit or an [OverflowError], or exclude them by a premise
      ([float_safe]).
    - The input of a loader is the list of the file's lines after
      [json.loads]: each line a JSON object.  What is nested inside a JSON
      list or object is never inspected by the program, only compared, and is
      an abstract [payload].  [datetime.fromisoformat], [float(str)] and
      [int(str)] are library functions and stay abstract too.
    - The metrics, the summary and the sampler raise exceptions of their own
      next to those of the loaders: they return an [outcome], which raises
      an [exception].
    - What [directory_summary] asks the file system ([os.path.exists],
      [os.path.isdir]) is an argument of its model, and the rows it hands to
      [csv.writer] are its result.
    - What [np.random.normal] returns is an argument of the model of
      [generate_bounded_normal_dist_samples]; its [while] loop runs on fuel,
      and a run that has not ended when the fuel is spent returns [None]. *)

From Stdlib Require Import List String Ascii ZArith QArith Qabs Bool Lia DecimalString.
From Stdlib Require Import Permutation Lqa.
Import ListNotations.
Open Scope string_scope.
Open Scope Z_scope.

(* ================================================================= *)
(** ** Exceptions and results *)

Inductive error : Type :=
  (* validate_utils.py *)
| NotIsoTimestamp (iso_str : string)                        (* iso_str_as_datetime: ValueError *)
| IsoArgumentNotStr                                         (* fromisoformat on a non-str: TypeError *)
| AttributeNotFound (attr : string) (line_no : nat) (filename : string)
| NotOneOf (attr : string) (line_no : nat) (filename : string)
| NotOfType (attr : string) (line_no : nat) (filename : string)
| OutOfOrderError (line_1 line_2 : nat) (filename : string)
| InvalidTransitionError (line_1 line_2 : nat) (filename : string)
| InvalidInitialStateError (identifier : string) (line_no : nat) (filename : string)
| InvalidFinalStateError (identifier : string) (line_no : nat) (filename : string)
| MissingColumns (columns : list string)
| ExtraColumns (columns : list string)
| CsvValueError (row_no : nat)
  (* file_utils.py *)
| ConflictingStateTransitions (entry recorded_file new_file : string)
| ConflictingSubjectTask (entry recorded_file new_file : string)
| UnrecognizedFileFormat (filename : string) (err1 err2 : error)
  (* raised by the interpreter itself *)
| PyKeyError (key : string)
| PyIndexError
| PyTypeError
| JSONDecodeError.

Inductive result (A : Type) : Type :=
| OK (a : A)
| Err (e : error).
Arguments OK {A} a.
Arguments Err {A} e.

Definition bind {A B : Type} (r : result A) (k : A -> result B) : result B :=
  match r with
  | OK a => k a
  | Err e => Err e
  end.

Notation "x <- r ;; k" := (bind r (fun x => k))
  (at level 61, r at next level, right associativity).
Notation "r ;;; k" := (bind r (fun _ => k))
  (at level 61, right associativity).

(** [if c: raise e] *)
Definition raise_if (c : bool) (e : error) : result unit :=
  if c then Err e else OK tt.

Definition is_ok {A : Type} (r : result A) : bool :=
  match r with OK _ => true | Err _ => false end.

(* ================================================================= *)
(** ** Python dictionaries, in insertion order *)

Abbreviation dict V := (list (string * V)%type).

Section Dict.
Context {V : Type}.

Fixpoint lookup (k : string) (d : dict V) : option V :=
  match d with
  | [] => None
  | (k', v) :: d' => if String.eqb k k' then Some v else lookup k d'
  end.

(** [k in d] *)
Definition mem (k : string) (d : dict V) : bool :=
  match lookup k d with Some _ => true | None => false end.

(** [d[k]] *)
Definition getitem (k : string) (d : dict V) : result V :=
  match lookup k d with Some v => OK v | None => Err (PyKeyError k) end.

(** [d[k] = v]: a bound key keeps its place, a new one goes last. *)
Fixpoint insert (k : string) (v : V) (d : dict V) : dict V :=
  match d with
  | [] => [(k, v)]
  | (k', v') :: d' =>
      if String.eqb k k' then (k', v) :: d' else (k', v') :: insert k v d'
  end.

Definition remove (k : string) (d : dict V) : dict V :=
  filter (fun kv => negb (String.eqb k (fst kv))) d.

(** [del d[k]] *)
Definition delitem (k : string) (d : dict V) : result (dict V) :=
  if mem k d then OK (remove k d) else Err (PyKeyError k).

Definition keys (d : dict V) : list string := map fst d.

(** [d1 == d2], given [==] on the values: the same keys, bound to equal
    values. *)
Definition dict_eqb (veq : V -> V -> bool) (d1 d2 : dict V) : bool :=
  forallb
    (fun k =>
       match lookup k d1, lookup k d2 with
       | Some a, Some b => veq a b
       | None, None => true
       | _, _ => false
       end)
    (keys d1 ++ keys d2).
End Dict.

(** [x in l] for a list of strings. *)
Definition str_in (x : string) (l : list string) : bool :=
  existsb (String.eqb x) l.

(* ================================================================= *)
(** ** Values *)

(** A [datetime]: whether it is offset-aware, and its position on the time
    line in microseconds (for an offset-aware one, that of its UTC instant). *)
Record datetime : Type := {
  offset_aware : bool;
  instant : Z
}.

(** A value of a parsed line.  [VList] and [VDict] carry what the JSON list
    or object holds; [VDatetime] is what [iso_str_as_datetime] returns. *)
Inductive value (payload : Type) : Type :=
| VNone
| VBool (b : bool)
| VInt (z : Z)
| VFloat (q : Q)
| VStr (s : string)
| VList (p : payload)
| VDict (p : payload)
| VDatetime (t : datetime).
Arguments VNone {payload}.
Arguments VBool {payload} b.
Arguments VInt {payload} z.
Arguments VFloat {payload} q.
Arguments VStr {payload} s.
Arguments VList {payload} p.
Arguments VDict {payload} p.
Arguments VDatetime {payload} t.

(** A line of a JSONL file after [json.loads]. *)
Definition json_object (payload : Type) : Type := dict (value payload).

(** A field of an entry of the loaders' results: a value of the line, or the
    list of lines that [load_state_transitions_file] collects under
    ["state_transitions"]. *)
Inductive field (payload : Type) : Type :=
| FVal (v : value payload)
| FTransitions (l : list (json_object payload)).
Arguments FVal {payload} v.
Arguments FTransitions {payload} l.

(** An entry of [jsonl_contents]: the canonical per-session record. *)
Definition record (payload : Type) : Type := dict (field payload).

(** A file of the directory as its two readers see it: the JSON objects of
    its lines, and the rows [csv.reader] yields. *)
Record file (payload : Type) : Type := {
  file_lines : list (json_object payload);
  file_rows : list (list string)
}.
Arguments file_lines {payload} f.
Arguments file_rows {payload} f.

(** The classes the schemas name. *)
Inductive pytype : Type :=
| TStr | TInt | TFloat | TBool | TList | TDict | TDatetime.

(** The right-hand side of a schema entry: a union of classes, or (for
    [condition] and [state_id]) a list of admitted strings. *)
Inductive schema_entry : Type :=
| Classes (ts : list pytype)
| Enumerated (vals : list string).

(** A cell of a row of the task-metadata table, before and after
    [verify_row_types]. *)
Inductive cell : Type :=
| CStr (s : string)
| CFloat (q : Q)
| CInt (z : Z).

(** A non-fatal consistency warning printed by [load_directory]. *)
Inductive warning : Type :=
| ConflictingTotalTime (entry : string) (recorded : Q) (recorded_file : string)
                       (new : Q) (new_file : string)
| ConflictingKmPullTime (entry : string) (recorded : Q) (recorded_file : string)
                        (new : Q) (new_file : string).

(* ================================================================= *)
(** ** Exceptions and outcomes of the metrics and of the summary *)

(** What the functions of [metrics_utils.py], [summary_utils.py] and
    [statistics_utils.py] raise: an exception of the loaders, of a look-up
    or of an operation on a value, or one of their own. *)
Inductive exception : Type :=
| Raised (e : error)                  (* KeyError, TypeError *)
| ZeroDivisionError
| StopIteration                       (* next(iter(d)) on an empty dict *)
| NoPrototypeData (task : string)     (* ValueError *)
| NoBaselineData (task : string)      (* ValueError *)
| NotSubjectTaskFormat                (* TypeError *)
| PassingScoreNotNumeric              (* ValueError *)
| NoTaskMetadata (dir_name : string)  (* summary_utils: Exception *)
| OutputPathExists                    (* summary_utils: ValueError *)
| OutputDirectoryMissing (directory : string)   (* summary_utils: Exception *)
| UpperBoundTooLow                    (* statistics_utils: AssertionError *)
| LowerBoundTooHigh.                  (* statistics_utils: AssertionError *)

Inductive outcome (A : Type) : Type :=
| Returns (a : A)
| Raises (e : exception).
Arguments Returns {A} a.
Arguments Raises {A} e.

Definition and_then {A B : Type} (r : outcome A) (k : A -> outcome B) : outcome B :=
  match r with
  | Returns a => k a
  | Raises e => Raises e
  end.

Notation "x <~ r ;; k" := (and_then r (fun x => k))
  (at level 61, r at next level, right associativity).
Notation "r ~;; k" := (and_then r (fun _ => k))
  (at level 61, right associativity).

(** A look-up or an operation of the loaders' kind, inside a metric. *)
Definition lift {A : Type} (r : result A) : outcome A :=
  match r with
  | OK a => Returns a
  | Err e => Raises (Raised e)
  end.

(** [if c: raise e] *)
Definition raise_when (c : bool) (e : exception) : outcome unit :=
  if c then Raises e else Returns tt.


(* ================================================================= *)
(** ** Sample inputs *)

(** Instances of the library functions, on the few strings the samples use,
    and of [==] on payloads, for payloads that hold nothing. *)
Definition sample_payload_eqb (p q : unit) : bool := true.

(** The offset-aware datetime [t] microseconds after 1970-01-01T00:00:00+00:00,
    and the offset-naive one [t] microseconds after 1970-01-01T00:00:00. *)
Definition utc_instant (t : Z) : datetime := {| offset_aware := true; instant := t |}.
Definition naive_instant (t : Z) : datetime := {| offset_aware := false; instant := t |}.

Definition sample_fromisoformat (iso_str : string) : option datetime :=
  if String.eqb iso_str "1970-01-01T00:00:00+00:00" then Some (utc_instant 0)
  else if String.eqb iso_str "1970-01-01T00:00:10+00:00" then Some (utc_instant 10000000)
  else if String.eqb iso_str "1970-01-01T00:00:30+00:00" then Some (utc_instant 30000000)
  else if String.eqb iso_str "1970-01-01T00:01:30+00:00" then Some (utc_instant 90000000)
  else if String.eqb iso_str "1970-01-01T00:01:40.400000+00:00"
  then Some (utc_instant 100400000)
  else if String.eqb iso_str "1970-01-01T00:00:30" then Some (naive_instant 30000000)
  else None.

(** The rounding on the samples: their deltas and sums are whole numbers of
    seconds, which are floats, and the 100.4 seconds of Scenario B, which
    stand for the float nearest to them; each is left as it is. *)
Definition sample_nearest (q : Q) : Q := q.

Definition sample_float_of_string (s : string) : option Q :=
  if String.eqb s "3.5" then Some (7 # 2)
  else if String.eqb s "120.0" then Some (120 # 1)
  else None.

Definition sample_int_of_string (s : string) : option Z :=
  if String.eqb s "7" then Some 7 else None.

(** A line of a State-Transition file, for the condition [prototype]. *)
Definition transition_line {payload : Type} (content : payload)
    (subject task utc_timestamp state_id : string) : json_object payload :=
  [ ("subject_id", VStr subject); ("condition", VStr "prototype"); ("task_id", VStr task);
    ("utc_timestamp", VStr utc_timestamp); ("state_id", VStr state_id);
    ("optional_content", VDict content) ].

(** A line of a Subject-Task file, for the condition [prototype]. *)
Definition subject_task_line (subject task : string) (total pull push : Q)
    : json_object unit :=
  [ ("subject_id", VStr subject); ("condition", VStr "prototype"); ("task_id", VStr task);
    ("task_start_time", VStr "1970-01-01T00:00:00+00:00");
    ("task_total_time", VFloat total); ("km_pull_total_time", VFloat pull);
    ("km_push_total_time", VFloat push); ("task_grade", VInt 3);
    ("corpus_knowledge_nugget_count", VInt 2);
    ("expert_captured_knowledge_nugget_count", VInt 1);
    ("nugget_content", VList tt); ("task_timeout", VBool false) ].

(** Scenario A of the specification. *)
Definition scenario_A_lines : list (json_object unit) :=
  [ transition_line tt "U1" "Task1" "1970-01-01T00:00:00+00:00" "task_initialized";
    transition_line tt "U1" "Task1" "1970-01-01T00:00:00+00:00" "km_pull_activity";
    transition_line tt "U1" "Task1" "1970-01-01T00:00:30+00:00" "task_execution";
    transition_line tt "U1" "Task1" "1970-01-01T00:01:30+00:00" "task_conclusion" ].

(** A session with strictly increasing timestamps. *)
Definition increasing_lines : list (json_object unit) :=
  [ transition_line tt "U1" "Task1" "1970-01-01T00:00:00+00:00" "task_initialized";
    transition_line tt "U1" "Task1" "1970-01-01T00:00:10+00:00" "km_push_activity";
    transition_line tt "U1" "Task1" "1970-01-01T00:00:30+00:00" "task_execution";
    transition_line tt "U1" "Task1" "1970-01-01T00:01:30+00:00" "task_conclusion" ].

(** A session whose second line is stamped before its first. *)
Definition backwards_lines : list (json_object unit) :=
  [ transition_line tt "U1" "Task1" "1970-01-01T00:00:10+00:00" "task_initialized";
    transition_line tt "U1" "Task1" "1970-01-01T00:00:00+00:00" "task_conclusion" ].

(** A session that lasts 100.4 seconds. *)
Definition long_lines : list (json_object unit) :=
  [ transition_line tt "U1" "Task1" "1970-01-01T00:00:00+00:00" "task_initialized";
    transition_line tt "U1" "Task1" "1970-01-01T00:01:40.400000+00:00" "task_conclusion" ].

(** Two sessions in one file, their lines interleaved. *)
Definition interleaved_lines : list (json_object unit) :=
  [ transition_line tt "U1" "Task1" "1970-01-01T00:00:00+00:00" "task_initialized";
    transition_line tt "U2" "Task1" "1970-01-01T00:00:00+00:00" "task_initialized";
    transition_line tt "U1" "Task1" "1970-01-01T00:00:10+00:00" "km_pull_activity";
    transition_line tt "U2" "Task1" "1970-01-01T00:00:30+00:00" "task_conclusion";
    transition_line tt "U1" "Task1" "1970-01-01T00:01:30+00:00" "task_conclusion" ].

Definition jsonl_file (lines : list (json_object unit)) : file unit :=
  {| file_lines := lines; file_rows := [] |}.

(** Scenario B of the specification: two files that define the session
    [U1]/[prototype]/[Task1], with task totals of 100.0 and 100.4 seconds. *)
Definition scenario_B : list (string * file unit) :=
  [ ("a.jsonl", jsonl_file [subject_task_line "U1" "Task1" (100 # 1) 0 0]);
    ("b.jsonl", jsonl_file [subject_task_line "U1" "Task1" (1004 # 10) 0 0]) ].

(** The same totals, the second one from a State-Transition file. *)
Definition scenario_B_mixed : list (string * file unit) :=
  [ ("a.jsonl", jsonl_file [subject_task_line "U1" "Task1" (100 # 1) 0 0]);
    ("b.jsonl", jsonl_file long_lines) ].

(** The transitions of Scenario A and a pre-aggregated record of the same
    session, whose totals agree within a second. *)
Definition complementary_transitions : file unit := jsonl_file scenario_A_lines.
Definition complementary_aggregate : file unit :=
  jsonl_file [subject_task_line "U1" "Task1" (181 # 2) (30 # 1) 0].

(** A Subject-Task file that reports one session twice. *)
Definition repeated_report_lines : list (json_object unit) :=
  [ subject_task_line "U1" "Task1" (100 # 1) 0 0;
    subject_task_line "U1" "Task1" (200 # 1) 0 0 ].

(** A session of another subject. *)
Definition other_session_lines : list (json_object unit) :=
  [ transition_line tt "U2" "Task1" "1970-01-01T00:00:00+00:00" "task_initialized";
    transition_line tt "U2" "Task1" "1970-01-01T00:00:30+00:00" "task_conclusion" ].

(** A session that ends at the time it starts. *)
Definition instant_lines : list (json_object unit) :=
  [ transition_line tt "U1" "Task1" "1970-01-01T00:00:00+00:00" "task_initialized";
    transition_line tt "U1" "Task1" "1970-01-01T00:00:00+00:00" "task_conclusion" ].

(** A metadata table of one task. *)
Definition metadata_rows : list (list string) :=
  [ ["task_id"; "task_optimal_time_in_seconds"; "task_maximum_score"];
    ["Task1"; "120.0"; "7"] ].

Definition metadata_file : file unit :=
  {| file_lines := []; file_rows := metadata_rows |}.

(** A directory with a Subject-Task file and the metadata table. *)
Definition summarized_directory : list (string * file unit) :=
  [ ("s.jsonl", jsonl_file [subject_task_line "U1" "Task1" (100 # 1) 0 0]);
    ("task_metadata.csv", metadata_file) ].

(** Entries as the metrics read them: a total, a KM pull total and a grade. *)
Definition graded_entry (total pull grade : Q) : record unit :=
  [ ("task_total_time", FVal (VFloat total));
    ("km_pull_total_time", FVal (VFloat pull));
    ("task_grade", FVal (VFloat grade)) ].

Definition graded_entries : dict (record unit) :=
  [ ("U1_prototype_Task1", graded_entry (90 # 1) (30 # 1) (3 # 1));
    ("U2_prototype_Task1", graded_entry (110 # 1) (10 # 1) (5 # 1));
    ("U1_baseline_Task1", graded_entry (200 # 1) (80 # 1) (2 # 1));
    ("U1_prototype_Task2", graded_entry (50 # 1) (5 # 1) (4 # 1)) ].

(* ================================================================= *)
(** ** validate_utils.py *)

Section KMEval.

Set Default Proof Using "Type".
Set Proof Using Clear Unused.

Variable payload : Type.
(** [==] on what JSON lists and objects hold. *)
Variable payload_eqb : payload -> payload -> bool.
(** [datetime.fromisoformat]: [None] where it raises [ValueError]. *)
Variable fromisoformat : string -> option datetime.
(** The float an operation on floats returns for the exact result [q]: the
    float nearest to it. *)
Variable nearest : Q -> Q.
(** [float(str)] and [int(str)]: [None] where they raise [ValueError]. *)
Variable float_of_string : string -> option Q.
Variable int_of_string : string -> option Z.

Local Abbreviation value := (value payload).
Local Abbreviation json_object := (json_object payload).
Local Abbreviation field := (field payload).
Local Abbreviation record := (record payload).
Local Abbreviation file := (file payload).

(** [a == b], [a >= b] and [a - b] on datetimes: an offset-naive and an
    offset-aware one are different, and comparing or subtracting them is a
    [TypeError].  The difference is a [timedelta], in microseconds. *)
Definition datetime_eqb (a b : datetime) : bool :=
  Bool.eqb (offset_aware a) (offset_aware b) && (instant a =? instant b).

Definition datetime_ge (a b : datetime) : result bool :=
  if Bool.eqb (offset_aware a) (offset_aware b) then OK (instant a >=? instant b)
  else Err PyTypeError.

Definition datetime_sub (a b : datetime) : result Z :=
  if Bool.eqb (offset_aware a) (offset_aware b) then OK (instant a - instant b)
  else Err PyTypeError.

(** The number a value is, for arithmetic and [==] ([bool] is a subclass of
    [int]). *)
Definition num_of (v : value) : option Q :=
  match v with
  | VBool b => Some (if b then 1%Q else 0%Q)
  | VInt z => Some (inject_Z z)
  | VFloat q => Some q
  | _ => None
  end.

(** [a == b] *)
Definition value_eqb (a b : value) : bool :=
  match num_of a, num_of b with
  | Some x, Some y => Qeq_bool x y
  | None, None =>
      match a, b with
      | VNone, VNone => true
      | VStr s, VStr t => String.eqb s t
      | VList p, VList q => payload_eqb p q
      | VDict p, VDict q => payload_eqb p q
      | VDatetime s, VDatetime t => datetime_eqb s t
      | _, _ => false
      end
  | _, _ => false
  end.

(** [v in l] for a list of strings [l]. *)
Definition value_in (v : value) (l : list string) : bool :=
  existsb (fun s => value_eqb v (VStr s)) l.

(** [isinstance(v, t)] for one class. *)
Definition instance_of (v : value) (t : pytype) : bool :=
  match v, t with
  | VStr _, TStr => true
  | VInt _, TInt => true
  | VBool _, TInt => true
  | VBool _, TBool => true
  | VFloat _, TFloat => true
  | VList _, TList => true
  | VDict _, TDict => true
  | VDatetime _, TDatetime => true
  | _, _ => false
  end.

(** [isinstance(v, schema[attr])]; a list as second argument is a
    [TypeError]. *)
Definition isinstance (v : value) (e : schema_entry) : result bool :=
  match e with
  | Classes ts => OK (existsb (instance_of v) ts)
  | Enumerated _ => Err PyTypeError
  end.

(** The text an f-string puts for a value.  Both loaders build the session
    key after the type check, which leaves [str], [int] and [bool] for the
    identifiers and a string for the condition; the other classes are not
    reached. *)
Definition format_value (v : value) : string :=
  match v with
  | VStr s => s
  | VInt z => NilZero.string_of_int (Z.to_int z)
  | VBool true => "True"
  | VBool false => "False"
  | VNone => "None"
  | _ => ""
  end.

Definition conditions : list string := ["prototype"; "baseline"].

Definition iso_str_as_datetime (iso_str : value) : result datetime :=
  match iso_str with
  | VStr s =>
      match fromisoformat s with
      | Some datetime_obj => OK datetime_obj
      | None => Err (NotIsoTimestamp s)
      end
  | _ => Err IsoArgumentNotStr
  end.

(** *** Subject/Task JSON validation *)

Definition subject_task_schema : dict schema_entry :=
  [ ("subject_id", Classes [TStr; TInt]);
    ("condition", Enumerated conditions);
    ("task_id", Classes [TStr; TInt]);
    ("task_start_time", Classes [TDatetime]);
    ("task_total_time", Classes [TFloat; TInt]);
    ("km_pull_total_time", Classes [TFloat; TInt]);
    ("km_push_total_time", Classes [TFloat; TInt]);
    ("task_grade", Classes [TStr; TInt; TFloat]);
    ("corpus_knowledge_nugget_count", Classes [TInt]);
    ("expert_captured_knowledge_nugget_count", Classes [TInt]);
    ("nugget_content", Classes [TList]);
    ("task_timeout", Classes [TBool]);
    ("optional_content", Classes [TDict]) ].

(** The loop shared by the two presence checks:
    [for attr in schema: if attr not in input and attr != "optional_content": raise]. *)
Fixpoint fields_present (attrs : list string) (input : json_object)
    (line_no : nat) (filename : string) : result unit :=
  match attrs with
  | [] => OK tt
  | attr :: rest =>
      raise_if (negb (mem attr input) && negb (String.eqb attr "optional_content"))
               (AttributeNotFound attr line_no filename) ;;;
      fields_present rest input line_no filename
  end.

Definition verify_all_subject_task_fields_present (subject_task_input : json_object)
    (line_no : nat) (filename : string) : result unit :=
  fields_present (keys subject_task_schema) subject_task_input line_no filename.

Fixpoint type_check_subject_task_loop (attrs : list string) (subject_task_input : json_object)
    (line_no : nat) (filename : string) : result unit :=
  match attrs with
  | [] => OK tt
  | attr :: rest =>
      value <- getitem attr subject_task_input ;;
      (if String.eqb attr "condition" then
         raise_if (negb (value_in value conditions)) (NotOneOf attr line_no filename)
       else
         match lookup attr subject_task_schema with
         | Some ty =>
             ok <- isinstance value ty ;;
             raise_if (negb ok) (NotOfType attr line_no filename)
         | None => OK tt (* except KeyError: continue *)
         end) ;;;
      type_check_subject_task_loop rest subject_task_input line_no filename
  end.

Definition type_check_subject_task_fields (subject_task_input : json_object)
    (line_no : nat) (filename : string) : result unit :=
  type_check_subject_task_loop (keys subject_task_input) subject_task_input line_no filename.

(** *** State transitions JSONL validation *)

Definition state_ids : list string :=
  ["task_initialized"; "task_execution"; "km_push_activity"; "km_pull_activity";
   "task_conclusion"].

Definition state_transition_schema : dict schema_entry :=
  [ ("subject_id", Classes [TStr; TInt]);
    ("condition", Enumerated conditions);
    ("task_id", Classes [TStr; TInt]);
    ("utc_timestamp", Classes [TDatetime]);
    ("state_id", Enumerated state_ids);
    ("optional_content", Classes [TDict]) ].

Definition valid_state_transitions : list (string * string) :=
  [ ("task_initialized", "task_execution");
    ("task_initialized", "km_pull_activity");
    ("task_initialized", "km_push_activity");
    ("task_initialized", "task_conclusion");
    ("task_execution", "task_execution");
    ("task_execution", "km_push_activity");
    ("km_push_activity", "task_execution");
    ("km_push_activity", "km_pull_activity");
    ("km_push_activity", "task_conclusion");
    ("km_pull_activity", "km_push_activity");
    ("km_pull_activity", "task_execution");
    ("km_pull_activity", "task_conclusion");
    ("task_execution", "km_pull_activity");
    ("task_execution", "task_conclusion") ].

Definition initial_state_id : string := "task_initialized".

Definition verify_all_state_transition_fields_present (state_transition_input : json_object)
    (line_no : nat) (filename : string) : result unit :=
  fields_present (keys state_transition_schema) state_transition_input line_no filename.

Fixpoint type_check_state_transition_loop (attrs : list string)
    (state_transition_input : json_object) (line_no : nat) (filename : string) : result unit :=
  match attrs with
  | [] => OK tt
  | attr :: rest =>
      value <- getitem attr state_transition_input ;;
      (if String.eqb attr "state_id" then
         raise_if (negb (value_in value state_ids)) (NotOneOf attr line_no filename)
       else if String.eqb attr "condition" then
         raise_if (negb (value_in value conditions)) (NotOneOf attr line_no filename)
       else
         match lookup attr state_transition_schema with
         | Some ty =>
             ok <- isinstance value ty ;;
             raise_if (negb ok) (NotOfType attr line_no filename)
         | None => OK tt (* except KeyError: continue *)
         end) ;;;
      type_check_state_transition_loop rest state_transition_input line_no filename
  end.

Definition type_check_state_transition_fields (state_transition_input : json_object)
    (line_no : nat) (filename : string) : result unit :=
  type_check_state_transition_loop (keys state_transition_input) state_transition_input
    line_no filename.

(** [if timestamp_1 >= timestamp_2 and previous_state_id != initial_state_id: raise] *)
Definition verify_timestamps_inorder (timestamp_1 timestamp_2 : datetime)
    (timestamp_1_line_no timestamp_2_line_no : nat) (previous_state_id : value)
    (filename : string) : result unit :=
  not_before <- datetime_ge timestamp_1 timestamp_2 ;;
  raise_if (not_before && negb (value_eqb previous_state_id (VStr initial_state_id)))
           (OutOfOrderError timestamp_1_line_no timestamp_2_line_no filename).

(** [if (state_id_1, state_id_2) not in valid_state_transitions: raise] *)
Definition verify_state_transition_valid (state_id_1 state_id_2 : value)
    (state_id_1_line_no state_id_2_line_no : nat) (filename : string) : result unit :=
  raise_if (negb (existsb
                    (fun edge => value_eqb state_id_1 (VStr (fst edge))
                                 && value_eqb state_id_2 (VStr (snd edge)))
                    valid_state_transitions))
           (InvalidTransitionError state_id_1_line_no state_id_2_line_no filename).

(** [if state_transitions[0]["state_id"] != "task_initialized": raise] *)
Definition verify_first_state_is_task_initialized (state_transitions : list json_object)
    (subject_task_identifier : string) (line_no : nat) (filename : string) : result unit :=
  match state_transitions with
  | [] => Err PyIndexError
  | first :: _ =>
      state_id <- getitem "state_id" first ;;
      raise_if (negb (value_eqb state_id (VStr "task_initialized")))
               (InvalidInitialStateError subject_task_identifier line_no filename)
  end.

(** [if state_transitions[-1]["state_id"] != "task_conclusion": raise] *)
Definition verify_last_state_is_task_conclusion (state_transitions : list json_object)
    (subject_task_identifier : string) (line_no : nat) (filename : string) : result unit :=
  match rev state_transitions with
  | [] => Err PyIndexError
  | last :: _ =>
      state_id <- getitem "state_id" last ;;
      raise_if (negb (value_eqb state_id (VStr "task_conclusion")))
               (InvalidFinalStateError subject_task_identifier line_no filename)
  end.
(** *** CSV validation *)

Definition required_column_names : list string :=
  ["task_id"; "task_optimal_time_in_seconds"; "task_maximum_score"].
Definition optional_column_names : list string := ["task_passing_score"].

(** [list(set(xs).difference(ys))].  The order in which Python lists a set is
    not specified; the one taken here is an arbitrary one, and
    [drop_optional_spec] below holds for every duplicate-free order. *)
Definition set_difference (xs ys : list string) : list string :=
  filter (fun x => negb (str_in x ys)) (nodup string_dec xs).

(** [l.remove(x)]: the first occurrence goes. *)
Fixpoint list_remove (x : string) (l : list string) : list string :=
  match l with
  | [] => []
  | y :: l' => if String.eqb x y then l' else y :: list_remove x l'
  end.

(** [for column in extra_columns: if column in optional_column_names:
    extra_columns.remove(column)], as Python runs it: the iterator holds an
    index into the list that the body shortens. *)
Fixpoint drop_optional_loop (fuel index : nat) (extra_columns : list string) : list string :=
  match fuel with
  | O => extra_columns
  | S fuel' =>
      match nth_error extra_columns index with
      | None => extra_columns
      | Some column =>
          if str_in column optional_column_names
          then drop_optional_loop fuel' (S index) (list_remove column extra_columns)
          else drop_optional_loop fuel' (S index) extra_columns
      end
  end.

Definition verify_column_names (column_names : list string) : result unit :=
  let missing_columns := set_difference required_column_names column_names in
  let extra_columns := set_difference column_names required_column_names in
  let extra_columns := drop_optional_loop (List.length extra_columns) 0 extra_columns in
  raise_if (negb (List.length missing_columns =? 0)%nat) (MissingColumns missing_columns) ;;;
  raise_if (negb (List.length extra_columns =? 0)%nat) (ExtraColumns extra_columns).

(** [row[i]] on the row as [csv.reader] gives it. *)
Definition row_get (row : list string) (i : nat) : result string :=
  match nth_error row i with Some c => OK c | None => Err PyIndexError end.

(** [row[i] = c], for [i] in range. *)
Fixpoint row_set (row : list cell) (i : nat) (c : cell) : list cell :=
  match row, i with
  | [], _ => []
  | _ :: row', O => c :: row'
  | x :: row', S i' => x :: row_set row' i' c
  end.

(** [float(s)] and [int(s)] inside the [try] blocks, which turn a
    [ValueError] into the row's error. *)
Definition to_float (s : string) (row_no : nat) : result cell :=
  match float_of_string s with
  | Some q => OK (CFloat q)
  | None => Err (CsvValueError row_no)
  end.

Definition to_int (s : string) (row_no : nat) : result cell :=
  match int_of_string s with
  | Some z => OK (CInt z)
  | None => Err (CsvValueError row_no)
  end.

Definition verify_row_types (row : list string) (row_no : nat) : result (list cell) :=
  let converted := map CStr row in
  (* task_optimal_time_in_seconds *)
  s1 <- row_get row 1 ;;
  f1 <- to_float s1 row_no ;;
  let converted := row_set converted 1 f1 in
  (* task_maximum_score *)
  s2 <- row_get row 2 ;;
  i2 <- to_int s2 row_no ;;
  let converted := row_set converted 2 i2 in
  (* task_passing_score (optional, so can be null) *)
  if (3 <? List.length row)%nat then
    s3 <- row_get row 3 ;;
    if negb (String.eqb s3 "") then
      f3 <- to_float s3 row_no ;;
      OK (row_set converted 3 f3)
    else OK converted
  else OK converted.

(* ================================================================= *)
(** ** file_utils.py *)

(** The acceptable time difference between calculated and reported KM time. *)
Definition TIME_DIFFERENCE_THRESHOLD : Q := 1.

(** *** load_subject_task_file *)

(** [f"{json_in['subject_id']}_{json_in['condition']}_{json_in['task_id']}"] *)
Definition session_identifier (json_in : json_object) : result string :=
  subject <- getitem "subject_id" json_in ;;
  cond <- getitem "condition" json_in ;;
  task <- getitem "task_id" json_in ;;
  OK (format_value subject ++ "_" ++ format_value cond ++ "_" ++ format_value task).

(** A line stored as an entry of the result. *)
Definition record_of_line (json_in : json_object) : record :=
  map (fun kv => (fst kv, FVal (snd kv))) json_in.

Definition subject_task_step (jsonl_filename : string) (subject_tasks : dict record)
    (line_no : nat) (json_in : json_object) : result (dict record) :=
  verify_all_subject_task_fields_present json_in line_no jsonl_filename ;;;
  start <- getitem "task_start_time" json_in ;;
  start <- iso_str_as_datetime start ;;
  let json_in := insert "task_start_time" (VDatetime start) json_in in
  type_check_subject_task_fields json_in line_no jsonl_filename ;;;
  subject_condition_task_identifier <- session_identifier json_in ;;
  OK (insert subject_condition_task_identifier (record_of_line json_in) subject_tasks).

Fixpoint subject_task_loop (jsonl_filename : string) (lines : list json_object)
    (line_no : nat) (subject_tasks : dict record) : result (dict record) :=
  match lines with
  | [] => OK subject_tasks
  | json_in :: rest =>
      subject_tasks <- subject_task_step jsonl_filename subject_tasks line_no json_in ;;
      subject_task_loop jsonl_filename rest (S line_no) subject_tasks
  end.

Definition load_subject_task_file (jsonl_filename : string) (lines : list json_object)
    : result (dict record) :=
  subject_task_loop jsonl_filename lines 1%nat [].

(** *** load_state_transitions_file *)

(** An entry of [subject_task_state]: the most recently seen line of a
    session. *)
Record previous_state : Type := {
  prev_utc_timestamp : datetime;
  prev_state_id : value;
  prev_line_no : nat
}.

(** An entry of the loader's [state_transitions] dictionary, which the source
    builds as a dict literal with exactly these keys ([session_record] is the
    dict). *)
Record session : Type := {
  subject_id : value;
  condition : value;
  task_id : value;
  task_start_time : datetime;
  task_total_time : Q;
  km_pull_total_time : Q;
  km_push_total_time : Q;
  state_transitions : list json_object
}.

Definition session_record (s : session) : record :=
  [ ("subject_id", FVal (subject_id s));
    ("condition", FVal (condition s));
    ("task_id", FVal (task_id s));
    ("task_start_time", FVal (VDatetime (task_start_time s)));
    ("task_total_time", FVal (VFloat (task_total_time s)));
    ("km_pull_total_time", FVal (VFloat (km_pull_total_time s)));
    ("km_push_total_time", FVal (VFloat (km_push_total_time s)));
    ("state_transitions", FTransitions (state_transitions s)) ].

(** [timedelta.total_seconds()]: the microseconds over [10**6], a true
    division of two ints, which yields the nearest float. *)
Definition total_seconds (microseconds : Z) : Q := nearest (microseconds # 1000000).

(** [total += elapsed_time] on floats. *)
Definition float_add (total elapsed_time : Q) : Q := nearest (total + elapsed_time).

(** The two [+=] on the activity totals and the one on the task total. *)
Definition add_elapsed (previous : previous_state) (elapsed_time : Q) (s : session) : session :=
  {| subject_id := subject_id s;
     condition := condition s;
     task_id := task_id s;
     task_start_time := task_start_time s;
     task_total_time := float_add (task_total_time s) elapsed_time;
     km_pull_total_time :=
       if value_eqb (prev_state_id previous) (VStr "km_pull_activity")
       then float_add (km_pull_total_time s) elapsed_time else km_pull_total_time s;
     km_push_total_time :=
       if value_eqb (prev_state_id previous) (VStr "km_push_activity")
       then float_add (km_push_total_time s) elapsed_time else km_push_total_time s;
     state_transitions := state_transitions s |}.

(** [s["state_transitions"].append(json_in)] *)
Definition append_transition (json_in : json_object) (s : session) : session :=
  {| subject_id := subject_id s;
     condition := condition s;
     task_id := task_id s;
     task_start_time := task_start_time s;
     task_total_time := task_total_time s;
     km_pull_total_time := km_pull_total_time s;
     km_push_total_time := km_push_total_time s;
     state_transitions := (state_transitions s ++ [json_in])%list |}.

(** The loader's two dictionaries. *)
Definition reducer_state : Type := (dict previous_state * dict session)%type.

(** The first half of the body of the [while line:] loop: the checks on the
    line itself.  It yields the line with its timestamp parsed, the session
    identifier, [json_in["utc_timestamp"]] and [json_in["state_id"]]. *)
Definition validated_line (jsonl_filename : string) (line_no : nat) (json_in : json_object)
    : result (json_object * string * datetime * value) :=
  (* Run validation checks on each line *)
  verify_all_state_transition_fields_present json_in line_no jsonl_filename ;;;
  iso_str <- getitem "utc_timestamp" json_in ;;
  utc_timestamp <- iso_str_as_datetime iso_str ;;
  let json_in := insert "utc_timestamp" (VDatetime utc_timestamp) json_in in
  type_check_state_transition_fields json_in line_no jsonl_filename ;;;
  subject_task_identifier <- session_identifier json_in ;;
  state_id <- getitem "state_id" json_in ;;
  OK (json_in, subject_task_identifier, utc_timestamp, state_id).

(** The second half: the checks against the previous line of the session,
    and the update of the two dictionaries. *)
Definition track_session (jsonl_filename : string) (st : reducer_state) (line_no : nat)
    (line : json_object * string * datetime * value) : result reducer_state :=
  let '(subject_task_state, sessions) := st in
  let '(json_in, subject_task_identifier, utc_timestamp, state_id) := line in
  (* Run validation checks between sequential JSONs *)
  sessions <-
    match lookup subject_task_identifier subject_task_state with
    | Some previous =>
        verify_timestamps_inorder (prev_utc_timestamp previous) utc_timestamp
          (prev_line_no previous) line_no (prev_state_id previous) jsonl_filename ;;;
        verify_state_transition_valid (prev_state_id previous) state_id
          (prev_line_no previous) line_no jsonl_filename ;;;
        OK sessions
    | None =>
        subject <- getitem "subject_id" json_in ;;
        cond <- getitem "condition" json_in ;;
        task <- getitem "task_id" json_in ;;
        let sessions :=
          insert subject_task_identifier
            {| subject_id := subject; condition := cond; task_id := task;
               task_start_time := utc_timestamp;
               task_total_time := 0; km_pull_total_time := 0; km_push_total_time := 0;
               state_transitions := [] |}
            sessions in
        verify_first_state_is_task_initialized [json_in] subject_task_identifier
          line_no jsonl_filename ;;;
        OK sessions
    end ;;
  (* If no errors, record output and state *)
  sessions <-
    match lookup subject_task_identifier subject_task_state with
    | Some previous =>
        difference <- datetime_sub utc_timestamp (prev_utc_timestamp previous) ;;
        let elapsed_time := total_seconds difference in
        s <- getitem subject_task_identifier sessions ;;
        OK (insert subject_task_identifier (add_elapsed previous elapsed_time s) sessions)
    | None => OK sessions
    end ;;
  s <- getitem subject_task_identifier sessions ;;
  let sessions := insert subject_task_identifier (append_transition json_in s) sessions in
  let subject_task_state :=
    insert subject_task_identifier
      {| prev_utc_timestamp := utc_timestamp; prev_state_id := state_id;
         prev_line_no := line_no |}
      subject_task_state in
  OK (subject_task_state, sessions).

(** The body of the [while line:] loop. *)
Definition state_transitions_step (jsonl_filename : string) (st : reducer_state)
    (line_no : nat) (json_in : json_object) : result reducer_state :=
  line <- validated_line jsonl_filename line_no json_in ;;
  track_session jsonl_filename st line_no line.

Fixpoint state_transitions_loop (jsonl_filename : string) (lines : list json_object)
    (line_no : nat) (st : reducer_state) : result reducer_state :=
  match lines with
  | [] => OK st
  | json_in :: rest =>
      st <- state_transitions_step jsonl_filename st line_no json_in ;;
      state_transitions_loop jsonl_filename rest (S line_no) st
  end.

(** [for subject_task_identifier in state_transitions:
    verify_last_state_is_task_conclusion(...)] *)
Fixpoint verify_last_states (jsonl_filename : string)
    (subject_task_state : dict previous_state) (entries : list (string * session))
    : result unit :=
  match entries with
  | [] => OK tt
  | (subject_task_identifier, s) :: rest =>
      previous <- getitem subject_task_identifier subject_task_state ;;
      verify_last_state_is_task_conclusion (state_transitions s) subject_task_identifier
        (prev_line_no previous) jsonl_filename ;;;
      verify_last_states jsonl_filename subject_task_state rest
  end.

(** The loader before its entries are read as dicts. *)
Definition reduce_state_transitions (jsonl_filename : string) (lines : list json_object)
    : result (dict session) :=
  st <- state_transitions_loop jsonl_filename lines 1%nat ([], []) ;;
  (* Run validation check on last states *)
  verify_last_states jsonl_filename (fst st) (snd st) ;;;
  OK (snd st).

Definition load_state_transitions_file (jsonl_filename : string) (lines : list json_object)
    : result (dict record) :=
  sessions <- reduce_state_transitions jsonl_filename lines ;;
  OK (map (fun ks => (fst ks, session_record (snd ks))) sessions).

(** *** load_jsonl_file *)

Definition load_jsonl_file (jsonl_filename : string) (lines : list json_object)
    : result (dict record) :=
  match lines with
  | [] => Err JSONDecodeError (* json.loads of the empty first line *)
  | first_line_json :: _ =>
      match verify_all_subject_task_fields_present first_line_json 1%nat jsonl_filename with
      | OK _ => load_subject_task_file jsonl_filename lines
      | Err err1 =>
          match verify_all_state_transition_fields_present first_line_json 1%nat
                  jsonl_filename with
          | OK _ => load_state_transitions_file jsonl_filename lines
          | Err err2 => Err (UnrecognizedFileFormat jsonl_filename err1 err2)
          end
      end
  end.

(** *** load_csv_file *)

(** [for j, col in enumerate(row): if j == 0: continue
    else: attributes[column_names[j]] = col], from index [j] on. *)
Fixpoint row_attributes (column_names : list string) (j : nat) (cols : list cell)
    (attributes : dict cell) : result (dict cell) :=
  match cols with
  | [] => OK attributes
  | col :: rest =>
      match j with
      | O => row_attributes column_names 1%nat rest attributes
      | _ =>
          match nth_error column_names j with
          | Some name => row_attributes column_names (S j) rest (insert name col attributes)
          | None => Err PyIndexError
          end
      end
  end.

Fixpoint csv_loop (column_names : list string) (rows : list (list string)) (i : nat)
    (tasks : dict (dict cell)) : result (dict (dict cell)) :=
  match rows with
  | [] => OK tasks
  | row :: rest =>
      converted <- verify_row_types row (S i) ;;
      attributes <- row_attributes column_names 0%nat converted [] ;;
      task <- row_get row 0 ;;
      csv_loop column_names rest (S i) (insert task attributes tasks)
  end.

Definition load_csv_file (rows : list (list string)) : result (dict (dict cell)) :=
  match rows with
  | [] => OK []
  | column_names :: rest =>
      verify_column_names column_names ;;;
      csv_loop column_names rest 1%nat []
  end.

(** *** load_directory *)

(** [p.rfind(c)], counting from [i]. *)
Fixpoint rfind_from (c : ascii) (p : string) (i : nat) (found : option nat) : option nat :=
  match p with
  | EmptyString => found
  | String a p' => rfind_from c p' (S i) (if Ascii.eqb a c then Some i else found)
  end.

Definition rfind (c : ascii) (p : string) : option nat := rfind_from c p 0%nat None.

(** Whether [p[i:j]] holds a character other than [c]. *)
Definition holds_other_than (c : ascii) (p : string) (i j : nat) : bool :=
  existsb (fun a => negb (Ascii.eqb a c)) (list_ascii_of_string (substring i (j - i) p)).

(** [os.path.splitext(p)[-1]] (posixpath): the text from the last dot of the
    last path component on, unless only dots come before it there. *)
Definition splitext_ext (p : string) : string :=
  let filenameIndex := match rfind "/" p with Some sepIndex => S sepIndex | None => 0%nat end in
  match rfind "." p with
  | Some dotIndex =>
      if (filenameIndex <=? dotIndex)%nat && holds_other_than "." p filenameIndex dotIndex
      then substring dotIndex (String.length p - dotIndex) p
      else ""
  | None => ""
  end.

(** [os.path.join(dir_name, filename)] for a file name of a listing. *)
Definition path_join (dir_name filename : string) : string :=
  match rfind "/" dir_name with
  | Some i =>
      if (S i =? String.length dir_name)%nat then dir_name ++ filename
      else dir_name ++ "/" ++ filename
  | None => if String.eqb dir_name "" then filename else dir_name ++ "/" ++ filename
  end.

(** [==] on the fields of two entries.  A list of collected lines against the
    payload of a JSON list is taken as different. *)
Definition field_eqb (a b : field) : bool :=
  match a, b with
  | FVal x, FVal y => value_eqb x y
  | FTransitions l1, FTransitions l2 =>
      (List.length l1 =? List.length l2)%nat
      && forallb (fun xy => dict_eqb value_eqb (fst xy) (snd xy)) (combine l1 l2)
  | _, _ => false
  end.

Definition record_eqb (a b : record) : bool := dict_eqb field_eqb a b.

(** The number a field is, for [recorded - new]. *)
Definition field_number (f : field) : result Q :=
  match f with
  | FVal v => match num_of v with Some q => OK q | None => Err PyTypeError end
  | FTransitions _ => Err PyTypeError
  end.

(** The text an f-string puts for a field ([recorded_file]). *)
Definition format_field (f : field) : string :=
  match f with
  | FVal v => format_value v
  | FTransitions _ => ""
  end.

(** What [load_directory] has built so far: [jsonl_contents] and the warnings
    printed. *)
Definition reconciled : Type := (dict record * list warning)%type.

(** The body of [for entry in file_contents:], for the entry [new_entry] of
    the file [filename]. *)
Definition merge_entry (filename : string) (st : reconciled) (entry : string)
    (new_entry : record) : result reconciled :=
  let '(jsonl_contents, warnings) := st in
  match lookup entry jsonl_contents with
  | None =>
      (* New subject/condition/task, add to list *)
      OK (insert entry (insert "file_source" (FVal (VStr filename)) new_entry) jsonl_contents,
          warnings)
  | Some recorded =>
      (* This subject/condition/task has been seen before *)
      recorded_total_time <- getitem "task_total_time" recorded ;;
      recorded_km_time <- getitem "km_pull_total_time" recorded ;;
      recorded_file <- getitem "file_source" recorded ;;
      new_total_time <- getitem "task_total_time" new_entry ;;
      new_km_time <- getitem "km_pull_total_time" new_entry ;;
      let new_file := filename in
      rt <- field_number recorded_total_time ;;
      nt <- field_number new_total_time ;;
      let warnings :=
        if negb (Qle_bool (Qabs (rt - nt)) TIME_DIFFERENCE_THRESHOLD)
        then (warnings ++ [ConflictingTotalTime entry rt (format_field recorded_file) nt new_file])%list
        else warnings in
      rk <- field_number recorded_km_time ;;
      nk <- field_number new_km_time ;;
      let warnings :=
        if negb (Qle_bool (Qabs (rk - nk)) TIME_DIFFERENCE_THRESHOLD)
        then (warnings ++ [ConflictingKmPullTime entry rk (format_field recorded_file) nk new_file])%list
        else warnings in
      (* If math matches, record the subject-task version and add state_transitions to it *)
      if mem "state_transitions" recorded && negb (mem "state_transitions" new_entry) then
        transitions <- getitem "state_transitions" recorded ;;
        let new_jsonl := insert "state_transitions" transitions new_entry in
        OK (insert entry (insert "file_source" (FVal (VStr filename)) new_jsonl) jsonl_contents,
            warnings)
      else if mem "state_transitions" new_entry && negb (mem "state_transitions" recorded) then
        transitions <- getitem "state_transitions" new_entry ;;
        OK (insert entry (insert "state_transitions" transitions recorded) jsonl_contents,
            warnings)
      (* If the entries are the same type, raise error if they do not contain the same data *)
      else if mem "state_transitions" new_entry && mem "state_transitions" recorded then
        comparable_contents <- delitem "file_source" recorded ;;
        raise_if (negb (record_eqb new_entry comparable_contents))
                 (ConflictingStateTransitions entry (format_field recorded_file) new_file) ;;;
        OK (jsonl_contents, warnings)
      else if negb (mem "state_transitions" new_entry)
              && negb (mem "state_transitions" recorded) then
        comparable_contents <- delitem "file_source" recorded ;;
        raise_if (negb (record_eqb new_entry comparable_contents))
                 (ConflictingSubjectTask entry (format_field recorded_file) new_file) ;;;
        OK (jsonl_contents, warnings)
      else OK (jsonl_contents, warnings)
  end.

(** [for entry in file_contents: ...] *)
Fixpoint merge_file (filename : string) (file_contents : list (string * record))
    (st : reconciled) : result reconciled :=
  match file_contents with
  | [] => OK st
  | (entry, new_entry) :: rest =>
      st <- merge_entry filename st entry new_entry ;;
      merge_file filename rest st
  end.

(** [for entry in file_contents: csv_metadata[entry] = file_contents[entry]] *)
Definition update_metadata (file_contents csv_metadata : dict (dict cell)) : dict (dict cell) :=
  fold_left (fun acc kv => insert (fst kv) (snd kv) acc) file_contents csv_metadata.

(** The state of [load_directory]'s loop over the listing. *)
Record directory_state : Type := {
  jsonl_contents : dict record;
  printed : list warning;
  csv_metadata : dict (dict cell)
}.

(** The body of [for filename in dir_contents:]. *)
Definition load_directory_step (dir_name : string) (st : directory_state)
    (filename : string) (f : file) : result directory_state :=
  let file_relative_path := path_join dir_name filename in
  let file_ext := splitext_ext filename in
  if String.eqb file_ext ".jsonl" then
    file_contents <- load_jsonl_file file_relative_path (file_lines f) ;;
    merged <- merge_file filename file_contents (jsonl_contents st, printed st) ;;
    OK {| jsonl_contents := fst merged; printed := snd merged;
          csv_metadata := csv_metadata st |}
  else if String.eqb filename "task_metadata.csv" then
    file_contents <- load_csv_file (file_rows f) ;;
    OK {| jsonl_contents := jsonl_contents st; printed := printed st;
          csv_metadata := update_metadata file_contents (csv_metadata st) |}
  else OK st.

Fixpoint load_directory_loop (dir_name : string) (dir_contents : list (string * file))
    (st : directory_state) : result directory_state :=
  match dir_contents with
  | [] => OK st
  | (filename, f) :: rest =>
      st <- load_directory_step dir_name st filename f ;;
      load_directory_loop dir_name rest st
  end.

(** [load_directory(dir_name)], where [dir_contents] is [os.listdir(dir_name)]
    with each name's file.  The result holds the two returned dictionaries
    and the warnings printed on the way. *)
Definition load_directory (dir_name : string) (dir_contents : list (string * file))
    : result directory_state :=
  load_directory_loop dir_name dir_contents
    {| jsonl_contents := []; printed := []; csv_metadata := [] |}.

(* ================================================================= *)
(** ** metrics_utils.py *)

(** [s.startswith(p)], [p in s] and [s.endswith(p)]. *)
Definition startswith (s p : string) : bool := String.prefix p s.

Fixpoint contains (s p : string) : bool :=
  String.prefix p s
  || match s with
     | EmptyString => false
     | String _ s' => contains s' p
     end.

Fixpoint endswith (s p : string) : bool :=
  String.eqb s p
  || match s with
     | EmptyString => false
     | String _ s' => endswith s' p
     end.

(** [{key: value for key, value in jsonl_input.items() if keep(key)}] under
    [if parameter:], which [None] and the empty string do not pass. *)
Definition filter_by (parameter : option string) (keep : string -> string -> bool)
    (jsonl_input : dict record) : dict record :=
  match parameter with
  | Some p =>
      if negb (String.eqb p "") then filter (fun kv => keep (fst kv) p) jsonl_input
      else jsonl_input
  | None => jsonl_input
  end.

Definition filter_jsonl_input (jsonl_input : dict record) (subject condition task : option string)
    : dict record :=
  let jsonl_input :=
    filter_by subject (fun key subject => startswith key (subject ++ "_")) jsonl_input in
  let jsonl_input :=
    filter_by condition (fun key condition => contains key ("_" ++ condition ++ "_"))
      jsonl_input in
  let jsonl_input :=
    filter_by task (fun key task => endswith key ("_" ++ task)) jsonl_input in
  jsonl_input.

Open Scope Q_scope.

(** [a / b] on numbers. *)
Definition divide (a b : Q) : outcome Q :=
  if Qeq_bool b 0 then Raises ZeroDivisionError else Returns (a / b).

(** [sum(xs)] and [len(xs)]. *)
Definition sum (xs : list Q) : Q := fold_left Qplus xs 0.
Definition len {A : Type} (xs : list A) : Q := inject_Z (Z.of_nat (List.length xs)).

(** The values of a list as the numbers [sum] adds up. *)
Fixpoint numbers (fs : list field) : outcome (list Q) :=
  match fs with
  | [] => Returns []
  | f :: rest =>
      x <~ lift (field_number f) ;;
      xs <~ numbers rest ;;
      Returns (x :: xs)
  end.

(** [for key, value in filtered_jsonl.items():
       fraction = value["km_pull_total_time"] / value["task_total_time"]
       km_time_fractions.append(fraction)] *)
Fixpoint km_time_fractions (items : list (string * record)) : outcome (list Q) :=
  match items with
  | [] => Returns []
  | (key, value) :: rest =>
      km <~ lift (getitem "km_pull_total_time" value) ;;
      total <~ lift (getitem "task_total_time" value) ;;
      km <~ lift (field_number km) ;;
      total <~ lift (field_number total) ;;
      fraction <~ divide km total ;;
      fractions <~ km_time_fractions rest ;;
      Returns (fraction :: fractions)
  end.

Definition get_average_km_fraction (filtered_jsonl : dict record) : outcome Q :=
  km_time_fractions <~ km_time_fractions filtered_jsonl ;;
  divide (sum km_time_fractions) (len km_time_fractions).

(** [for key, value in filtered_jsonl.items(): times.append(value[attr])] *)
Fixpoint collected (attr : string) (items : list (string * record)) : outcome (list field) :=
  match items with
  | [] => Returns []
  | (key, value) :: rest =>
      x <~ lift (getitem attr value) ;;
      xs <~ collected attr rest ;;
      Returns (x :: xs)
  end.

Definition get_average_total_time (filtered_jsonl : dict record) : outcome Q :=
  times <~ collected "task_total_time" filtered_jsonl ;;
  times <~ numbers times ;;
  divide (sum times) (len times).

Definition get_km_time_proportional_reduction (jsonl_input : dict record) (task : string)
    : outcome Q :=
  let filtered_jsonl := filter_jsonl_input jsonl_input None (Some "prototype") (Some task) in
  raise_when (List.length filtered_jsonl <=? 0)%nat (NoPrototypeData task) ~;;
  prototype_average_km_fraction <~ get_average_km_fraction filtered_jsonl ;;
  let filtered_jsonl := filter_jsonl_input jsonl_input None (Some "baseline") (Some task) in
  raise_when (List.length filtered_jsonl <=? 0)%nat (NoBaselineData task) ~;;
  baseline_average_km_fraction <~ get_average_km_fraction filtered_jsonl ;;
  (* both Baseline and Prototype systems have zero KM time *)
  if Qeq_bool baseline_average_km_fraction 0 && Qeq_bool prototype_average_km_fraction 0
  then Returns 0%Q
  (* Baseline has zero KM time, or Prototype has more than twice the KM time *)
  else if Qeq_bool baseline_average_km_fraction 0
          || negb (Qle_bool prototype_average_km_fraction (2 * baseline_average_km_fraction))
  then Returns (- (1))%Q
  else Returns (1 - prototype_average_km_fraction / baseline_average_km_fraction)%Q.

(** [max(a, b)] *)
Definition max (a b : Q) : Q := if Qle_bool b a then a else b.

Definition get_prototype_time_relative_to_baseline_and_optimal (jsonl_input : dict record)
    (task : string) (optimal_time : Q) : outcome Q :=
  let filtered_jsonl := filter_jsonl_input jsonl_input None (Some "prototype") (Some task) in
  raise_when (List.length filtered_jsonl <=? 0)%nat (NoPrototypeData task) ~;;
  prototype_average_time <~ get_average_total_time filtered_jsonl ;;
  let filtered_jsonl := filter_jsonl_input jsonl_input None (Some "baseline") (Some task) in
  raise_when (List.length filtered_jsonl <=? 0)%nat (NoBaselineData task) ~;;
  baseline_average_time <~ get_average_total_time filtered_jsonl ;;
  if Qle_bool prototype_average_time baseline_average_time then
    ratio <~ divide (prototype_average_time - optimal_time)
                    (baseline_average_time - optimal_time) ;;
    Returns (1 - ratio)%Q
  else
    ratio <~ divide prototype_average_time baseline_average_time ;;
    Returns (max (1 - ratio) (- (1)))%Q.

(** [for key, value in filtered_jsonl.items():
       if "task_grade" in value: success_scores.append(value["task_grade"])] *)
Fixpoint success_scores (items : list (string * record)) : list field :=
  match items with
  | [] => []
  | (key, value) :: rest =>
      match lookup "task_grade" value with
      | Some grade => grade :: success_scores rest
      | None => success_scores rest
      end
  end.

Definition get_average_failure_rate (filtered_jsonl : dict record) (max_score : Q) : outcome Q :=
  let success_scores := success_scores filtered_jsonl in
  scores <~ numbers success_scores ;;
  average_success_score <~ divide (sum scores) (len success_scores) ;;
  let average_failure_score := (max_score - average_success_score)%Q in
  divide average_failure_score max_score.

Definition get_proportional_task_failure_rate_reduction (jsonl_input : dict record)
    (task : string) (max_score : Q) : outcome Q :=
  match jsonl_input with
  | [] => Raises StopIteration
  | (random_key, first) :: _ =>
      raise_when (negb (mem "task_grade" first)) NotSubjectTaskFormat ~;;
      let filtered_jsonl := filter_jsonl_input jsonl_input None (Some "prototype") (Some task) in
      raise_when (List.length filtered_jsonl <=? 0)%nat (NoPrototypeData task) ~;;
      prototype_average_failure_rate <~ get_average_failure_rate filtered_jsonl max_score ;;
      let filtered_jsonl := filter_jsonl_input jsonl_input None (Some "baseline") (Some task) in
      raise_when (List.length filtered_jsonl <=? 0)%nat (NoBaselineData task) ~;;
      baseline_average_failure_rate <~ get_average_failure_rate filtered_jsonl max_score ;;
      if Qeq_bool baseline_average_failure_rate 0 && Qeq_bool prototype_average_failure_rate 0
      then Returns 0%Q
      else if Qeq_bool baseline_average_failure_rate 0
              || negb (Qle_bool prototype_average_failure_rate
                                (2 * baseline_average_failure_rate))
      then Returns (- (1))%Q
      else Returns (1 - prototype_average_failure_rate / baseline_average_failure_rate)%Q
  end.

(** The truth value of a passing score, and [passing_score == ""]. *)
Definition cell_is_true (c : cell) : bool :=
  match c with
  | CStr s => negb (String.eqb s "")
  | CFloat q => negb (Qeq_bool q 0)
  | CInt z => negb (z =? 0)
  end.

Definition cell_is_empty_string (c : cell) : bool :=
  match c with
  | CStr s => String.eqb s ""
  | _ => false
  end.

(** [grade >= passing_score]: numbers with numbers, strings with strings. *)
Definition at_least (grade : field) (passing_score : cell) : result bool :=
  match passing_score with
  | CStr p =>
      match grade with
      | FVal (VStr s) => OK (String.leb p s)
      | _ => Err PyTypeError
      end
  | CFloat q => x <- field_number grade ;; OK (Qle_bool q x)
  | CInt z => x <- field_number grade ;; OK (Qle_bool (inject_Z z) x)
  end.

(** [for key, value in jsonl_input_copy.items():
       if "task_grade" in value and passing_score:
         value["task_grade"] = max_score if value["task_grade"] >= passing_score else 0],
    on the deep copy. *)
Fixpoint binarized (items : list (string * record)) (max_score : Q) (passing_score : cell)
    : outcome (dict record) :=
  match items with
  | [] => Returns []
  | (key, value) :: rest =>
      value <~ (if mem "task_grade" value && cell_is_true passing_score then
                  grade <~ lift (getitem "task_grade" value) ;;
                  passed <~ lift (at_least grade passing_score) ;;
                  Returns (insert "task_grade"
                             (FVal (if passed then VFloat max_score else VInt 0)) value)
                else Returns value) ;;
      rest <~ binarized rest max_score passing_score ;;
      Returns ((key, value) :: rest)
  end.

Definition get_binarized_proportional_task_failure_rate_reduction (jsonl_input : dict record)
    (task : string) (max_score : Q) (passing_score : cell) : outcome Q :=
  raise_when (cell_is_empty_string passing_score) PassingScoreNotNumeric ~;;
  jsonl_input_copy <~ binarized jsonl_input max_score passing_score ;;
  get_proportional_task_failure_rate_reduction jsonl_input_copy task max_score.

(* ================================================================= *)
(** ** statistics_utils.py *)




Open Scope Z_scope.

(* ================================================================= *)
(** ** summary_utils.py *)

(** A cell of the summary table: a column name, a field of an entry, an
    attribute of the entry's task, or the empty string. *)
Inductive summary_cell : Type :=
| SName (column : string)
| SField (f : field)
| SMetadata (c : cell)
| SEmpty.

(** [csv_metadata[task]], the task being a field of an entry: a string finds
    its binding, another hashable value finds none, a list or a dict is not
    hashable. *)
Definition metadata_of (csv_metadata : dict (dict cell)) (task : field) : result (dict cell) :=
  match task with
  | FVal (VStr s) => getitem s csv_metadata
  | FVal (VList _) | FVal (VDict _) | FTransitions _ => Err PyTypeError
  | FVal v => Err (PyKeyError (format_value v))
  end.

(** [for column in column_names: ...] for one entry. *)
Fixpoint summary_row (entry : record) (csv_metadata : dict (dict cell))
    (task_metadata_column_names column_names : list string) : outcome (list summary_cell) :=
  match column_names with
  | [] => Returns []
  | column :: rest =>
      c <~ match lookup column entry with
           | Some f => Returns (SField f)
           | None =>
               if str_in column task_metadata_column_names then
                 task <~ lift (getitem "task_id" entry) ;;
                 attributes <~ lift (metadata_of csv_metadata task) ;;
                 attribute <~ lift (getitem column attributes) ;;
                 Returns (SMetadata attribute)
               else Returns SEmpty
           end ;;
      csv_row <~ summary_row entry csv_metadata task_metadata_column_names rest ;;
      Returns (c :: csv_row)
  end.

(** [for entry in dict_summary: ... csv_writer.writerow(csv_row)] *)
Fixpoint summary_rows (dict_summary : list (string * record)) (csv_metadata : dict (dict cell))
    (task_metadata_column_names column_names : list string)
    : outcome (list (list summary_cell)) :=
  match dict_summary with
  | [] => Returns []
  | (key, entry) :: rest =>
      csv_row <~ summary_row entry csv_metadata task_metadata_column_names column_names ;;
      rows <~ summary_rows rest csv_metadata task_metadata_column_names column_names ;;
      Returns (csv_row :: rows)
  end.

(** [directory_summary(dir_name, output_filename)], where [dir_contents] is
    the listing of [dir_name], [output_exists] is
    [os.path.exists(output_filename)], [output_directory] is
    [os.path.dirname(output_filename)] and [output_directory_is_dir] is
    [os.path.isdir] of it.  The result holds the rows written to the output
    file. *)
Definition directory_summary (dir_name : string) (dir_contents : list (string * file))
    (output_exists : bool) (output_directory : string) (output_directory_is_dir : bool)
    : outcome (list (list summary_cell)) :=
  loaded <~ lift (load_directory dir_name dir_contents) ;;
  let dict_summary := jsonl_contents loaded in
  let csv_metadata := csv_metadata loaded in
  match csv_metadata with
  | [] => Raises (NoTaskMetadata dir_name)
  | (_, first_task) :: _ =>
      match dict_summary with
      | [] => Raises StopIteration
      | (_, first_entry) :: _ =>
          let column_names := keys first_entry in
          let task_metadata_column_names := keys first_task in
          let column_names :=
            if str_in "state_transitions" column_names
            then list_remove "state_transitions" column_names
            else column_names in
          let column_names := (column_names ++ task_metadata_column_names)%list in
          raise_when output_exists OutputPathExists ~;;
          raise_when (negb output_directory_is_dir) (OutputDirectoryMissing output_directory) ~;;
          rows <~ summary_rows dict_summary csv_metadata task_metadata_column_names
                    column_names ;;
          Returns (map SName column_names :: rows)
      end
  end.

(* ================================================================= *)
(** ** Notions the properties are stated with *)

(** The edge set as the specification groups it, by source state. *)
Definition specified_edges : list (string * string) :=
  [ ("task_initialized", "task_execution"); ("task_initialized", "km_pull_activity");
    ("task_initialized", "km_push_activity"); ("task_initialized", "task_conclusion");
    ("task_execution", "task_execution"); ("task_execution", "km_push_activity");
    ("task_execution", "km_pull_activity"); ("task_execution", "task_conclusion");
    ("km_push_activity", "task_execution"); ("km_push_activity", "km_pull_activity");
    ("km_push_activity", "task_conclusion");
    ("km_pull_activity", "km_push_activity"); ("km_pull_activity", "task_execution");
    ("km_pull_activity", "task_conclusion") ].

(** What an accepted row looks like after the conversion. *)
Definition converted_by_position (row : list string) (out : list cell) : Prop :=
  List.length out = List.length row
  /\ (exists s q, nth_error row 1 = Some s /\ float_of_string s = Some q
                  /\ nth_error out 1 = Some (CFloat q))
  /\ (exists s z, nth_error row 2 = Some s /\ int_of_string s = Some z
                  /\ nth_error out 2 = Some (CInt z))
  /\ (forall s, nth_error row 3 = Some s ->
                (s <> "" -> exists q, float_of_string s = Some q
                                      /\ nth_error out 3 = Some (CFloat q))
                /\ (s = "" -> nth_error out 3 = Some (CStr "")))
  /\ (forall i, i <> 1%nat -> i <> 2%nat -> i <> 3%nat ->
                nth_error out i = option_map CStr (nth_error row i)).

(** An event of a session: its timestamp and its state. *)
Definition event : Type := (datetime * string)%type.

(** The line with its timestamp parsed, as the loader stores it. *)
Definition typed_line (utc_timestamp : datetime) (json_in : json_object) : json_object :=
  insert "utc_timestamp" (VDatetime utc_timestamp) json_in.

(** The line [json_in] passes the checks on single lines, belongs to the
    session [k] and carries the event [e]. *)
Definition represents (k : string) (json_in : json_object) (e : event) : Prop :=
  forall fn l,
    validated_line fn l json_in = OK (typed_line (fst e) json_in, k, fst e, VStr (snd e)).

(** Two timestamps that can be compared: both offset-aware, or both
    offset-naive. *)
Definition comparable (a b : datetime) : Prop := offset_aware a = offset_aware b.

(** The float a delta is: the seconds from [a] to [b]. *)
Definition delta (a b : datetime) : Q := total_seconds (instant b - instant a).

(** The deltas between consecutive events, over those whose preceding
    event's state satisfies [sel], added to [total] one after the other as
    floats are. *)
Fixpoint deltas_added (sel : string -> bool) (total : Q) (prev : event) (evs : list event)
    : Q :=
  match evs with
  | [] => total
  | e :: rest =>
      deltas_added sel
        (if sel (snd prev) then float_add total (delta (fst prev) (fst e)) else total)
        e rest
  end.

Definition float_sum_deltas (sel : string -> bool) (evs : list event) : Q :=
  match evs with
  | [] => 0
  | e :: rest => deltas_added sel 0 e rest
  end.

(** The same sum in exact arithmetic, on the deltas as exact numbers of
    seconds. *)
Fixpoint deltas_after (sel : string -> bool) (prev : event) (evs : list event) : Q :=
  match evs with
  | [] => 0
  | e :: rest =>
      (if sel (snd prev) then (instant (fst e) - instant (fst prev)) # 1000000 else 0)
      + deltas_after sel e rest
  end.

Definition sum_deltas (sel : string -> bool) (evs : list event) : Q :=
  match evs with
  | [] => 0
  | e :: rest => deltas_after sel e rest
  end.

(** What the proofs take of the rounding of floats: a whole number up to
    [2^53] is a float, and the nearest float of a larger number is no
    smaller. *)
Definition rounds_to_nearest : Prop :=
  (forall (q : Q) (z : Z), q == inject_Z z -> Z.abs z <= 2 ^ 53 -> nearest q == inject_Z z)
  /\ (forall a b : Q, (a <= b)%Q -> (nearest a <= nearest b)%Q).

(** The timestamps of the events are whole seconds. *)
Definition whole_seconds (evs : list event) : Prop :=
  Forall (fun e : event => exists n, instant (fst e) = n * 1000000) evs.

(** Events whose timestamps never go back. *)
Fixpoint in_order (prev : event) (evs : list event) : Prop :=
  match evs with
  | [] => True
  | e :: rest => instant (fst prev) <= instant (fst e) /\ in_order e rest
  end.

(** Consecutive events as the specification wants them: timestamps of one
    kind and strictly increasing, specified edges only. *)
Fixpoint legal_steps (prev : event) (evs : list event) : Prop :=
  match evs with
  | [] => True
  | e :: rest =>
      comparable (fst prev) (fst e) /\ instant (fst prev) < instant (fst e)
      /\ In (snd prev, snd e) specified_edges /\ legal_steps e rest
  end.

Definition legal_sequence (evs : list event) : Prop :=
  match evs with
  | [] => False
  | e :: rest =>
      snd e = "task_initialized" /\ legal_steps e rest
      /\ snd (last rest e) = "task_conclusion"
  end.

(** Consecutive events as the two checks between lines accept them. *)
Fixpoint accepted_steps (prev : event) (evs : list event) : Prop :=
  match evs with
  | [] => True
  | e :: rest =>
      comparable (fst prev) (fst e)
      /\ (instant (fst prev) < instant (fst e) \/ snd prev = "task_initialized")
      /\ In (snd prev, snd e) valid_state_transitions /\ accepted_steps e rest
  end.

Definition scenario_A : list event :=
  [ (utc_instant 0, "task_initialized"); (utc_instant 0, "km_pull_activity");
    (utc_instant 30000000, "task_execution"); (utc_instant 90000000, "task_conclusion") ].

(** A fresh entry of the loader's [state_transitions] dictionary. *)
Definition fresh_session (subject cond task : value) (utc : datetime) : session :=
  {| subject_id := subject; condition := cond; task_id := task;
     task_start_time := utc; task_total_time := 0;
     km_pull_total_time := 0; km_push_total_time := 0;
     state_transitions := [] |}.

Definition seen (utc : datetime) (state_id : value) (l : nat) : previous_state :=
  {| prev_utc_timestamp := utc; prev_state_id := state_id; prev_line_no := l |}.

(** What the loader's entry of a session holds after the events [evs]. *)
Definition reports (s : session) (lines : list json_object) (evs : list event) : Prop :=
  task_total_time s = float_sum_deltas (fun _ => true) evs
  /\ km_pull_total_time s = float_sum_deltas (fun st => String.eqb st "km_pull_activity") evs
  /\ km_push_total_time s = float_sum_deltas (fun st => String.eqb st "km_push_activity") evs
  /\ Some (task_start_time s) = option_map fst (hd_error evs)
  /\ state_transitions s
     = map (fun je => typed_line (fst (snd je)) (fst je)) (combine lines evs).

(** The totals and the start time that the returned entry [r] binds. *)
Definition entry_totals (r : record) (start : datetime) (total pull push : Q) : Prop :=
  lookup "task_start_time" r = Some (FVal (VDatetime start))
  /\ lookup "task_total_time" r = Some (FVal (VFloat total))
  /\ lookup "km_pull_total_time" r = Some (FVal (VFloat pull))
  /\ lookup "km_push_total_time" r = Some (FVal (VFloat push)).

(** What the checks on a single line yield. *)
Definition validated : Type := (json_object * string * datetime * value)%type.

Definition identifier_of (v : validated) : string := snd (fst (fst v)).
Definition state_of (v : validated) : value := snd v.

(** The lines of a file, numbered from [l], pass the checks on single lines
    and yield [vs]. *)
Fixpoint validated_lines (fn : string) (l : nat) (lines : list json_object)
    (vs : list validated) : Prop :=
  match lines, vs with
  | [], [] => True
  | json_in :: lines', v :: vs' =>
      validated_line fn l json_in = OK v /\ validated_lines fn (S l) lines' vs'
  | _, _ => False
  end.

(** The last line of the session [k] among [vs], numbered from [l]; [acc] is
    the one seen before them. *)
Fixpoint last_seen (k : string) (l : nat) (vs : list validated)
    (acc : option previous_state) : option previous_state :=
  match vs with
  | [] => acc
  | v :: rest =>
      last_seen k (S l) rest
        (if String.eqb k (identifier_of v)
         then Some (seen (snd (fst v)) (state_of v) l)
         else acc)
  end.

(** What the loop keeps true of its two dictionaries: they hold the same
    keys, once each, and the last line collected for a session is the one
    remembered as its previous state. *)
Definition reducer_inv (st : reducer_state) : Prop :=
  NoDup (keys (snd st))
  /\ (forall k, lookup k (fst st) = None <-> lookup k (snd st) = None)
  /\ (forall k p s, lookup k (fst st) = Some p -> lookup k (snd st) = Some s ->
                    exists j tl, rev (state_transitions s) = j :: tl
                                 /\ getitem "state_id" j = OK (prev_state_id p)).

(** Two runs end alike: with the same value, or both with an error. *)
Definition same_outcome {A : Type} (r r' : result A) : Prop :=
  match r, r' with
  | OK a, OK b => a = b
  | Err _, Err _ => True
  | _, _ => False
  end.

(** The entries of a file as [load_directory] first stores them: with their
    provenance. *)
Definition stamped (filename : string) (file_contents : dict record) : dict record :=
  map (fun kr => (fst kr, insert "file_source" (FVal (VStr filename)) (snd kr))) file_contents.

(** An entry without its provenance. *)
Definition strip_provenance (r : record) : record := remove "file_source" r.

(** The entry [r] reports the task total [t] and the KM pull total [k]. *)
Definition reports_times (r : record) (t k : Q) : Prop :=
  exists ft fk,
    getitem "task_total_time" r = OK ft /\ field_number ft = OK t
    /\ getitem "km_pull_total_time" r = OK fk /\ field_number fk = OK k.

(** A number that arithmetic takes to a float as it is: a float, or an int
    of at most 53 bits.  Subtracting or dividing such numbers raises no
    [OverflowError], which an int beyond the range of a float raises next
    to a float. *)
Definition float_safe (v : value) : Prop :=
  match v with
  | VInt z => Z.abs z <= 2 ^ 53
  | _ => True
  end.

Definition float_safe_at (attr : string) (r : record) : Prop :=
  forall v, lookup attr r = Some (FVal v) -> float_safe v.

(** The totals of the entries of a dictionary are such numbers. *)
Definition float_safe_entries (d : dict record) : Prop :=
  forall k r, lookup k d = Some r ->
              float_safe_at "task_total_time" r /\ float_safe_at "km_pull_total_time" r.

(** The totals that the JSONL files of a listing report, and that
    [load_directory] subtracts, are such numbers. *)
Definition float_safe_totals (dir_name : string) (dir : list (string * file)) : Prop :=
  forall n f fc k r,
    In (n, f) dir -> splitext_ext n = ".jsonl" ->
    load_jsonl_file (path_join dir_name n) (file_lines f) = OK fc ->
    lookup k fc = Some r ->
    float_safe_at "task_total_time" r /\ float_safe_at "km_pull_total_time" r.

(** The warnings one comparison of a recorded and a new entry prints. *)
Definition consistency_warnings (entry : string) (rt nt rk nk : Q)
    (recorded_file new_file : string) : list warning :=
  ((if negb (Qle_bool (Qabs (rt - nt)) TIME_DIFFERENCE_THRESHOLD)
    then [ConflictingTotalTime entry rt recorded_file nt new_file] else [])
   ++ (if negb (Qle_bool (Qabs (rk - nk)) TIME_DIFFERENCE_THRESHOLD)
       then [ConflictingKmPullTime entry rk recorded_file nk new_file] else []))%list.

(** The state a validated line names. *)
Definition state_name (v : value) : string :=
  match v with VStr s => s | _ => "" end.

(** The event a validated line carries, and the line as it is collected. *)
Definition event_of (v : validated) : event := (snd (fst v), state_name (state_of v)).
Definition line_of (v : validated) : json_object := fst (fst (fst v)).

(** The validated lines of the session [k], in the order of the file, and
    their events. *)
Definition session_lines (k : string) (vs : list validated) : list validated :=
  filter (fun v => String.eqb (identifier_of v) k) vs.

Definition timeline (k : string) (vs : list validated) : list event :=
  map event_of (session_lines k vs).

(** A session as the loop accepts it: it starts at [task_initialized], and
    every step passes the two checks between lines. *)
Definition accepted_timeline (evs : list event) : Prop :=
  match evs with
  | [] => True
  | e0 :: rest => snd e0 = "task_initialized" /\ accepted_steps e0 rest
  end.

(** What the entry [s] of a session says of the lines [ls] read for it. *)
Definition summarizes (s : session) (ls : list validated) : Prop :=
  task_total_time s = float_sum_deltas (fun _ => true) (map event_of ls)
  /\ km_pull_total_time s
     = float_sum_deltas (fun st => String.eqb st "km_pull_activity") (map event_of ls)
  /\ km_push_total_time s
     = float_sum_deltas (fun st => String.eqb st "km_push_activity") (map event_of ls)
  /\ Some (task_start_time s) = option_map fst (hd_error (map event_of ls))
  /\ state_transitions s = map line_of ls.

(** What the loop keeps true of its state after the validated lines [vs]:
    a session without lines has no entry; a session with lines was accepted
    so far, its last line is remembered and its entry summarizes its
    lines. *)
Definition tracks_session (st : reducer_state) (vs : list validated) (k : string) : Prop :=
  match session_lines k vs with
  | [] => lookup k (fst st) = None /\ lookup k (snd st) = None
  | v0 :: tl =>
      accepted_timeline (timeline k vs)
      /\ exists l s,
           lookup k (fst st)
           = Some (seen (fst (last (map event_of tl) (event_of v0)))
                        (VStr (snd (last (map event_of tl) (event_of v0)))) l)
           /\ lookup k (snd st) = Some s
           /\ summarizes s (v0 :: tl)
  end.

Definition tracks (st : reducer_state) (vs : list validated) : Prop :=
  forall k, tracks_session st vs k.

(** *** What the loaders store *)

(** [entries] stored one after the other into [d], a later binding of a key
    replacing the earlier one. *)
Definition stored {V : Type} (entries : list (string * V)) (d : dict V) : dict V :=
  fold_left (fun acc kv => insert (fst kv) (snd kv) acc) entries d.

(** The last binding of [k] among [entries]. *)
Definition last_binding {V : Type} (k : string) (entries : list (string * V)) : option V :=
  lookup k (rev entries).

(** The classes of [subject_id] and [task_id]. *)
Definition identifier_class (v : value) : bool :=
  instance_of v TStr || instance_of v TInt.

(** The field [attr] of the entry [r] is a number. *)
Definition numeric_field (attr : string) (r : record) : Prop :=
  exists v q, lookup attr r = Some (FVal v) /\ num_of v = Some q.

(** What the loaders and the directory reconciler keep true of an entry [r]
    stored under the key [k]: the key is built from the entry's own
    identifiers, the condition is one of the two, the start time is a
    datetime and the three totals are numbers. *)
Definition loaded_entry (k : string) (r : record) : Prop :=
  (exists subject cond task,
      lookup "subject_id" r = Some (FVal subject)
      /\ lookup "condition" r = Some (FVal (VStr cond))
      /\ lookup "task_id" r = Some (FVal task)
      /\ identifier_class subject = true
      /\ In cond conditions
      /\ identifier_class task = true
      /\ k = format_value subject ++ "_" ++ cond ++ "_" ++ format_value task)
  /\ (exists start, lookup "task_start_time" r = Some (FVal (VDatetime start)))
  /\ numeric_field "task_total_time" r
  /\ numeric_field "km_pull_total_time" r
  /\ numeric_field "km_push_total_time" r.

(** The same of an entry of the transition loader's dictionary. *)
Definition keyed (k : string) (s : session) : Prop :=
  exists cond,
    condition s = VStr cond /\ In cond conditions
    /\ identifier_class (subject_id s) = true
    /\ identifier_class (task_id s) = true
    /\ k = format_value (subject_id s) ++ "_" ++ cond ++ "_" ++ format_value (task_id s).

(** The key and the entry a line of a Subject-Task file is stored as. *)
Definition subject_task_entry (json_in : json_object) : result (string * record) :=
  start <- getitem "task_start_time" json_in ;;
  start <- iso_str_as_datetime start ;;
  let json_in := insert "task_start_time" (VDatetime start) json_in in
  k <- session_identifier json_in ;;
  OK (k, record_of_line json_in).

(** The task and the attributes a row of the metadata table is stored as,
    under the header [column_names]: the cells after the first, converted,
    each under the name at its position. *)
Definition metadata_entry (column_names : list string) (row : list string)
    (e : string * dict cell) : Prop :=
  exists row_no converted,
    verify_row_types row row_no = OK converted
    /\ (List.length row <= List.length column_names)%nat
    /\ nth_error row 0 = Some (fst e)
    /\ snd e = stored (combine (tl column_names) (tl converted)) [].

(** The files [load_directory] reads. *)
Definition is_read (filename : string) : bool :=
  String.eqb (splitext_ext filename) ".jsonl" || String.eqb filename "task_metadata.csv".

(** What the reconciler keeps true of [jsonl_contents]: every entry is as the
    loaders left it, and names one of the files [names] as its source. *)
Definition reconciled_entries (names : list string) (c : dict record) : Prop :=
  forall k r, lookup k c = Some r ->
    loaded_entry k r
    /\ exists n, In n names /\ lookup "file_source" r = Some (FVal (VStr n)).

(** Where an error of [load_directory] on the listing [dir] comes from: the
    loader of one of the listing's JSONL files, the loader of its metadata
    table, or two of its files that define a session differently. *)
Definition explained (dir_name : string) (dir : list (string * file)) (e : error) : Prop :=
  (exists n f, In (n, f) dir /\ splitext_ext n = ".jsonl"
               /\ load_jsonl_file (path_join dir_name n) (file_lines f) = Err e)
  \/ (exists f, In ("task_metadata.csv", f) dir /\ load_csv_file (file_rows f) = Err e)
  \/ (exists k n1 n2, In n1 (keys dir) /\ In n2 (keys dir)
                      /\ (e = ConflictingStateTransitions k n1 n2
                          \/ e = ConflictingSubjectTask k n1 n2)).

(** *** Metrics *)

(** The string holds no underscore. *)
Fixpoint underscore_free (s : string) : bool :=
  match s with
  | EmptyString => true
  | String a s' => negb (Ascii.eqb a "_") && underscore_free s'
  end.

(** The parameter [p] of [filter_jsonl_input] lets the identifier [x] pass:
    it is not given ([None] or the empty string), or it is [x]. *)
Definition selects (p : option string) (x : string) : Prop :=
  match p with
  | Some y => y = "" \/ y = x
  | None => True
  end.

(** The field [attr] of the entry [r] is the number [q]. *)
Definition number_at (attr : string) (r : record) (q : Q) : Prop :=
  exists v, lookup attr r = Some (FVal v) /\ num_of v = Some q.

(** The selections of the two conditions for a task, as the metrics take
    them. *)
Definition prototype_entries (jsonl_input : dict record) (task : string) : dict record :=
  filter_jsonl_input jsonl_input None (Some "prototype") (Some task).

Definition baseline_entries (jsonl_input : dict record) (task : string) : dict record :=
  filter_jsonl_input jsonl_input None (Some "baseline") (Some task).

(** The entry [r] with its grade recast for the passing score [passing]: the
    maximum score when the grade reaches it, zero otherwise. *)
Definition recast (max_score passing : Q) (r : record) : record :=
  match lookup "task_grade" r with
  | Some (FVal v) =>
      match num_of v with
      | Some g =>
          insert "task_grade" (FVal (if Qle_bool passing g then VFloat max_score else VInt 0)) r
      | None => r
      end
  | _ => r
  end.

(** The entries with their grades recast. *)
Definition recast_all (max_score passing : Q) (d : dict record) : dict record :=
  map (fun kv => (fst kv, recast max_score passing (snd kv))) d.

(** *** Samples and summaries *)



(* ================================================================= *)
(** ** Properties *)

(** *** Results and dictionaries *)

Lemma bind_ok {A B : Type} (r : result A) (k : A -> result B) (b : B) :
  bind r k = OK b -> exists a, r = OK a /\ k a = OK b.
Proof. destruct r as [a|e]; simpl; intros H; [eauto | discriminate]. Qed.

Lemma raise_if_ok (c : bool) (e : error) (u : unit) :
  raise_if c e = OK u <-> c = false.
Proof. unfold raise_if; destruct c; split; intros H; try discriminate; destruct u; auto. Qed.

Lemma raise_if_err (c : bool) (e e' : error) :
  raise_if c e = Err e' -> c = true /\ e' = e.
Proof. unfold raise_if; destruct c; intros H; inversion H; auto. Qed.

Lemma mem_lookup {V : Type} (k : string) (d : dict V) :
  mem k d = true <-> exists v, lookup k d = Some v.
Proof.
  unfold mem; destruct (lookup k d) as [v|]; split; intros H; eauto; try discriminate.
  destruct H as [v H]; discriminate.
Qed.

Lemma mem_keys {V : Type} (k : string) (d : dict V) :
  mem k d = true <-> In k (keys d).
Proof.
  unfold mem; induction d as [|[k' v] d IH]; simpl.
  - split; [discriminate | tauto].
  - destruct (String.eqb_spec k k') as [->|Hne]; split; intros H; auto.
    + apply IH in H; auto.
    + destruct H as [H|H]; [congruence | apply IH; auto].
Qed.

Lemma lookup_insert_eq {V : Type} (k : string) (v : V) (d : dict V) :
  lookup k (insert k v d) = Some v.
Proof.
  induction d as [|[k' v'] d IH]; simpl.
  - now rewrite String.eqb_refl.
  - destruct (String.eqb_spec k k') as [->|Hne]; simpl.
    + now rewrite String.eqb_refl.
    + destruct (String.eqb_spec k k'); [congruence | exact IH].
Qed.

Lemma lookup_insert_ne {V : Type} (k k' : string) (v : V) (d : dict V) :
  k <> k' -> lookup k (insert k' v d) = lookup k d.
Proof.
  intros Hne; induction d as [|[k0 v0] d IH]; simpl.
  - destruct (String.eqb_spec k k'); [congruence | reflexivity].
  - destruct (String.eqb_spec k' k0) as [->|Hne0]; simpl.
    + destruct (String.eqb_spec k k0); [congruence | reflexivity].
    + destruct (String.eqb_spec k k0); [reflexivity | exact IH].
Qed.

Lemma lookup_remove_eq {V : Type} (k : string) (d : dict V) :
  lookup k (remove k d) = None.
Proof.
  induction d as [|[k' v'] d IH]; simpl; auto.
  destruct (String.eqb_spec k k') as [->|Hne]; simpl; auto.
  destruct (String.eqb_spec k k'); [congruence | exact IH].
Qed.

Lemma lookup_remove_ne {V : Type} (k k' : string) (d : dict V) :
  k <> k' -> lookup k (remove k' d) = lookup k d.
Proof.
  intros Hne; induction d as [|[k0 v0] d IH]; simpl; auto.
  destruct (String.eqb_spec k' k0) as [->|Hne0]; simpl.
  - destruct (String.eqb_spec k k0); [congruence | exact IH].
  - destruct (String.eqb_spec k k0); [reflexivity | exact IH].
Qed.

Lemma lookup_none_insert_app {V : Type} (k : string) (v : V) (d : dict V) :
  lookup k d = None -> insert k v d = (d ++ [(k, v)])%list.
Proof.
  induction d as [|[k' v'] d IH]; simpl; auto.
  destruct (String.eqb_spec k k'); [discriminate |].
  intros H; now rewrite IH.
Qed.

(** Two dictionaries with the same bindings are [==], when [==] on the values
    is reflexive. *)
Lemma dict_eqb_ext {V : Type} (veq : V -> V -> bool) (d1 d2 : dict V) :
  (forall v, veq v v = true) ->
  (forall k, lookup k d1 = lookup k d2) ->
  dict_eqb veq d1 d2 = true.
Proof.
  intros Hrefl Hext; unfold dict_eqb; apply forallb_forall; intros k _.
  rewrite Hext; destruct (lookup k d2); auto.
Qed.

(** *** Values *)

Lemma value_eqb_str (v : value) (s : string) :
  value_eqb v (VStr s) = true <-> v = VStr s.
Proof.
  unfold value_eqb; destruct v; simpl; split; intros H; try discriminate.
  - apply String.eqb_eq in H; now subst.
  - inversion H; apply String.eqb_refl.
Qed.

Lemma value_in_spec (v : value) (l : list string) :
  value_in v l = true <-> exists s, In s l /\ v = VStr s.
Proof.
  unfold value_in; rewrite existsb_exists; split; intros [s [Hin H]]; exists s; split; auto;
    now apply value_eqb_str.
Qed.

(** *** The transition state machine *)

Lemma valid_state_transitions_specified (e : string * string) :
  In e valid_state_transitions <-> In e specified_edges.
Proof. unfold valid_state_transitions, specified_edges; simpl; tauto. Qed.

Lemma verify_state_transition_valid_ok (s1 s2 : value) (l1 l2 : nat) (fn : string) :
  verify_state_transition_valid s1 s2 l1 l2 fn = OK tt
  <-> exists a b, s1 = VStr a /\ s2 = VStr b /\ In (a, b) valid_state_transitions.
Proof.
  unfold verify_state_transition_valid; rewrite raise_if_ok, negb_false_iff, existsb_exists.
  split.
  - intros [[a b] [Hin H]]; apply andb_true_iff in H as [H1 H2]; simpl in *.
    apply value_eqb_str in H1, H2; eauto.
  - intros (a & b & -> & -> & Hin); exists (a, b); split; auto; simpl.
    apply andb_true_iff; split; now apply value_eqb_str.
Qed.

Lemma verify_state_transition_valid_cases (s1 s2 : value) (l1 l2 : nat) (fn : string) :
  verify_state_transition_valid s1 s2 l1 l2 fn = OK tt
  \/ verify_state_transition_valid s1 s2 l1 l2 fn = Err (InvalidTransitionError l1 l2 fn).
Proof. unfold verify_state_transition_valid, raise_if; destruct (negb _); auto. Qed.

(** C4: the transition check between two consecutive state ids succeeds
    exactly when the ordered pair is one of the fourteen specified edges, and
    fails with the invalid-transition error otherwise; the only self-loop it
    accepts is [task_execution -> task_execution], and
    [km_pull_activity -> km_pull_activity] fails. *)
Theorem transition_check_accepts_exactly_the_specified_edges :
  List.length specified_edges = 14%nat
  /\ (forall (s1 s2 : value) (l1 l2 : nat) (fn : string),
        (verify_state_transition_valid s1 s2 l1 l2 fn = OK tt
         <-> exists a b, s1 = VStr a /\ s2 = VStr b /\ In (a, b) specified_edges)
        /\ (verify_state_transition_valid s1 s2 l1 l2 fn <> OK tt
            -> verify_state_transition_valid s1 s2 l1 l2 fn
               = Err (InvalidTransitionError l1 l2 fn)))
  /\ (forall (s : string) (l1 l2 : nat) (fn : string),
        verify_state_transition_valid (VStr s) (VStr s) l1 l2 fn = OK tt
        <-> s = "task_execution")
  /\ (forall (l1 l2 : nat) (fn : string),
        verify_state_transition_valid (VStr "km_pull_activity") (VStr "km_pull_activity")
          l1 l2 fn = Err (InvalidTransitionError l1 l2 fn)).
Proof.
  split; [reflexivity |].
  split; [| split].
  - intros s1 s2 l1 l2 fn; split.
    + rewrite verify_state_transition_valid_ok; split;
        intros (a & b & H1 & H2 & Hin); exists a, b; repeat split; auto;
        now apply valid_state_transitions_specified.
    + intros Hne; destruct (verify_state_transition_valid_cases s1 s2 l1 l2 fn); tauto.
  - intros s l1 l2 fn; rewrite verify_state_transition_valid_ok; split.
    + intros (a & b & Ha & Hb & Hin); inversion Ha; inversion Hb; subst a b.
      unfold valid_state_transitions in Hin; simpl in Hin.
      repeat (destruct Hin as [Hin|Hin]; [inversion Hin; subst; try discriminate; auto |]).
      contradiction.
    + intros ->; exists "task_execution", "task_execution"; repeat split.
      unfold valid_state_transitions; simpl; tauto.
  - intros; reflexivity.
Qed.

(** The ordering check as the source has it: it passes when the second
    timestamp is later, and whenever the first line is [task_initialized]. *)
Lemma verify_timestamps_inorder_ok (t1 t2 : datetime) (l1 l2 : nat) (prev : value)
    (fn : string) :
  verify_timestamps_inorder t1 t2 l1 l2 prev fn = OK tt
  <-> comparable t1 t2 /\ (instant t1 < instant t2 \/ prev = VStr initial_state_id).
Proof.
  unfold verify_timestamps_inorder, datetime_ge, comparable.
  destruct (Bool.eqb_spec (offset_aware t1) (offset_aware t2)) as [Hkind|Hkind]; cbn [bind].
  - rewrite raise_if_ok, andb_false_iff, negb_false_iff.
    rewrite value_eqb_str, Z.geb_leb, Z.leb_gt; tauto.
  - split; [discriminate | tauto].
Qed.

(** Between an offset-naive and an offset-aware timestamp the ordering check
    raises the [TypeError] of the comparison, whatever the previous state. *)
Lemma verify_timestamps_inorder_mixed (t1 t2 : datetime) (l1 l2 : nat) (prev : value)
    (fn : string) :
  offset_aware t1 <> offset_aware t2 ->
  verify_timestamps_inorder t1 t2 l1 l2 prev fn = Err PyTypeError.
Proof.
  intros Hkind; unfold verify_timestamps_inorder, datetime_ge.
  destruct (Bool.eqb_spec (offset_aware t1) (offset_aware t2)); [contradiction | reflexivity].
Qed.

(** C2 (the code's behaviour at the failing input): after a
    [task_initialized] line stamped 10 s, a line stamped 0 s passes the
    ordering check. *)
Theorem ordering_check_accepts_earlier_timestamp_after_task_initialized :
  verify_timestamps_inorder (utc_instant 10000000) (utc_instant 0) 1 2
    (VStr "task_initialized") "log.jsonl" = OK tt.
Proof. reflexivity. Qed.

(** *** The schema validator *)

Lemma fields_present_ok (attrs : list string) (input : json_object) (l : nat) (fn : string) :
  fields_present attrs input l fn = OK tt
  <-> forall attr, In attr attrs -> attr <> "optional_content" -> mem attr input = true.
Proof.
  induction attrs as [|a attrs IH]; simpl.
  - split; auto; intros _ attr [].
  - unfold raise_if.
    destruct (mem a input) eqn:Hm; simpl.
    + rewrite IH; split; intros H attr.
      * intros [<-|Hin] Hne; auto.
      * intros Hin; apply H; auto.
    + destruct (String.eqb_spec a "optional_content") as [->|Hne]; simpl.
      * rewrite IH; split; intros H attr.
        -- intros [<-|Hin] Hne; [congruence | auto].
        -- intros Hin; apply H; auto.
      * split; [discriminate |].
        intros H; specialize (H a (or_introl eq_refl) Hne); congruence.
Qed.

Lemma fields_present_err (attrs : list string) (input : json_object) (l : nat) (fn : string)
    (e : error) :
  fields_present attrs input l fn = Err e ->
  exists attr, e = AttributeNotFound attr l fn /\ In attr attrs
               /\ attr <> "optional_content" /\ mem attr input = false.
Proof.
  induction attrs as [|a attrs IH]; simpl; [discriminate |].
  unfold raise_if.
  destruct (mem a input) eqn:Hm; simpl.
  - intros H; destruct (IH H) as (attr & ? & ? & ? & ?); exists attr; auto.
  - destruct (String.eqb_spec a "optional_content") as [->|Hne]; simpl.
    + intros H; destruct (IH H) as (attr & ? & ? & ? & ?); exists attr; auto.
    + intros H; inversion H; exists a; auto.
Qed.

(** The presence check of either shape fails exactly when a field of the
    schema other than [optional_content] is absent, and then names one. *)
Lemma fields_present_fails (attrs : list string) (input : json_object) (l : nat) (fn : string) :
  (exists attr, fields_present attrs input l fn = Err (AttributeNotFound attr l fn))
  <-> exists attr, In attr attrs /\ attr <> "optional_content" /\ mem attr input = false.
Proof.
  split.
  - intros [attr H]; apply fields_present_err in H as (a & ? & ? & ? & ?); eauto.
  - intros (attr & Hin & Hne & Hm).
    destruct (fields_present attrs input l fn) as [[]|e] eqn:H.
    + apply fields_present_ok with (attr := attr) in H; auto; congruence.
    + apply fields_present_err in H as (a & -> & _); eauto.
Qed.

Lemma subject_task_enumerated (attr : string) (vals : list string) :
  lookup attr subject_task_schema = Some (Enumerated vals) -> attr = "condition".
Proof.
  unfold subject_task_schema; simpl.
  repeat match goal with
         | |- context [String.eqb attr ?k] => destruct (String.eqb_spec attr k); auto
         end; discriminate.
Qed.

Lemma state_transition_enumerated (attr : string) (vals : list string) :
  lookup attr state_transition_schema = Some (Enumerated vals) ->
  attr = "condition" \/ attr = "state_id".
Proof.
  unfold state_transition_schema; simpl.
  repeat match goal with
         | |- context [String.eqb attr ?k] => destruct (String.eqb_spec attr k); auto
         end; discriminate.
Qed.

Lemma type_check_subject_task_loop_err (attrs : list string) (input : json_object)
    (l : nat) (fn : string) (e : error) :
  (forall a, In a attrs -> mem a input = true) ->
  type_check_subject_task_loop attrs input l fn = Err e ->
  exists attr, In attr attrs /\ mem attr subject_task_schema = true
               /\ (e = NotOneOf attr l fn \/ e = NotOfType attr l fn).
Proof.
  induction attrs as [|a attrs IH]; [discriminate |].
  intros Hmem; cbn [type_check_subject_task_loop].
  assert (Ha : mem a input = true) by (apply Hmem; left; reflexivity).
  apply mem_lookup in Ha as [v Hv]; unfold getitem; rewrite Hv; cbn [bind].
  assert (Hrest : type_check_subject_task_loop attrs input l fn = Err e ->
                  exists attr, In attr (a :: attrs) /\ mem attr subject_task_schema = true
                               /\ (e = NotOneOf attr l fn \/ e = NotOfType attr l fn)).
  { intros H; destruct (IH (fun x Hx => Hmem x (or_intror Hx)) H) as (attr & ? & ? & ?).
    exists attr; split; [right |]; auto. }
  destruct (String.eqb_spec a "condition") as [->|Hne].
  - destruct (raise_if _ _) as [[]|e'] eqn:Hc; cbn [bind]; auto.
    intros H; inversion H; subst e'; apply raise_if_err in Hc as [_ ->].
    exists "condition"; split; [left |]; auto.
  - destruct (lookup a subject_task_schema) as [ty|] eqn:Hty; cbn [bind]; auto.
    destruct ty as [ts|vals]; cbn [isinstance bind].
    + destruct (raise_if _ _) as [[]|e'] eqn:Hc; cbn [bind]; auto.
      intros H; inversion H; subst e'; apply raise_if_err in Hc as [_ ->].
      exists a; split; [left; auto |]; split; auto.
      apply mem_lookup; eauto.
    + apply subject_task_enumerated in Hty; congruence.
Qed.

Lemma type_check_state_transition_loop_err (attrs : list string) (input : json_object)
    (l : nat) (fn : string) (e : error) :
  (forall a, In a attrs -> mem a input = true) ->
  type_check_state_transition_loop attrs input l fn = Err e ->
  exists attr, In attr attrs /\ mem attr state_transition_schema = true
               /\ (e = NotOneOf attr l fn \/ e = NotOfType attr l fn).
Proof.
  induction attrs as [|a attrs IH]; [discriminate |].
  intros Hmem; cbn [type_check_state_transition_loop].
  assert (Ha : mem a input = true) by (apply Hmem; left; reflexivity).
  apply mem_lookup in Ha as [v Hv]; unfold getitem; rewrite Hv; cbn [bind].
  assert (Hrest : type_check_state_transition_loop attrs input l fn = Err e ->
                  exists attr, In attr (a :: attrs)
                               /\ mem attr state_transition_schema = true
                               /\ (e = NotOneOf attr l fn \/ e = NotOfType attr l fn)).
  { intros H; destruct (IH (fun x Hx => Hmem x (or_intror Hx)) H) as (attr & ? & ? & ?).
    exists attr; split; [right |]; auto. }
  destruct (String.eqb_spec a "state_id") as [->|Hne1].
  { destruct (raise_if _ _) as [[]|e'] eqn:Hc; cbn [bind]; auto.
    intros H; inversion H; subst e'; apply raise_if_err in Hc as [_ ->].
    exists "state_id"; split; [left |]; auto. }
  destruct (String.eqb_spec a "condition") as [->|Hne2].
  { destruct (raise_if _ _) as [[]|e'] eqn:Hc; cbn [bind]; auto.
    intros H; inversion H; subst e'; apply raise_if_err in Hc as [_ ->].
    exists "condition"; split; [left |]; auto. }
  destruct (lookup a state_transition_schema) as [ty|] eqn:Hty; cbn [bind]; auto.
  destruct ty as [ts|vals]; cbn [isinstance bind].
  - destruct (raise_if _ _) as [[]|e'] eqn:Hc; cbn [bind]; auto.
    intros H; inversion H; subst e'; apply raise_if_err in Hc as [_ ->].
    exists a; split; [left; auto |]; split; auto.
    apply mem_lookup; eauto.
  - apply state_transition_enumerated in Hty; tauto.
Qed.

(** C9: for either record shape the presence check fails exactly when a
    field of that shape's schema other than [optional_content] is absent (so
    each of the twelve other Subject-Task fields is required), and a failure
    of the type check always names a field that the schema declares: a
    present field without a declared type never fails it. *)
Theorem schema_validator_presence_and_type_checks :
  forall (input : json_object) (line_no : nat) (filename : string),
    ((exists attr, verify_all_subject_task_fields_present input line_no filename
                   = Err (AttributeNotFound attr line_no filename))
     <-> exists attr, In attr (keys subject_task_schema)
                      /\ attr <> "optional_content" /\ mem attr input = false)
    /\ (verify_all_subject_task_fields_present input line_no filename = OK tt
        <-> forall attr,
              In attr ["subject_id"; "condition"; "task_id"; "task_start_time";
                       "task_total_time"; "km_pull_total_time"; "km_push_total_time";
                       "task_grade"; "corpus_knowledge_nugget_count";
                       "expert_captured_knowledge_nugget_count"; "nugget_content";
                       "task_timeout"] -> mem attr input = true)
    /\ ((exists attr, verify_all_state_transition_fields_present input line_no filename
                      = Err (AttributeNotFound attr line_no filename))
        <-> exists attr, In attr (keys state_transition_schema)
                         /\ attr <> "optional_content" /\ mem attr input = false)
    /\ (forall e, verify_all_subject_task_fields_present input line_no filename = Err e
                  -> exists attr, e = AttributeNotFound attr line_no filename)
    /\ (forall e, verify_all_state_transition_fields_present input line_no filename = Err e
                  -> exists attr, e = AttributeNotFound attr line_no filename)
    /\ (forall e, type_check_subject_task_fields input line_no filename = Err e
                  -> exists attr, mem attr input = true
                                  /\ mem attr subject_task_schema = true
                                  /\ (e = NotOneOf attr line_no filename
                                      \/ e = NotOfType attr line_no filename))
    /\ (forall e, type_check_state_transition_fields input line_no filename = Err e
                  -> exists attr, mem attr input = true
                                  /\ mem attr state_transition_schema = true
                                  /\ (e = NotOneOf attr line_no filename
                                      \/ e = NotOfType attr line_no filename)).
Proof.
  intros input l fn.
  split; [apply fields_present_fails |].
  split.
  { unfold verify_all_subject_task_fields_present; rewrite fields_present_ok.
    unfold subject_task_schema; simpl; split; intros H attr Hin.
    - apply H.
      + intuition.
      + intros ->; simpl in Hin; intuition discriminate.
    - intros Hne; apply H; intuition congruence. }
  split; [apply fields_present_fails |].
  split.
  { intros e H; apply fields_present_err in H as (attr & ? & _); eauto. }
  split.
  { intros e H; apply fields_present_err in H as (attr & ? & _); eauto. }
  split.
  - intros e H; apply type_check_subject_task_loop_err in H.
    + destruct H as (attr & Hin & ? & ?); exists attr; split; auto; now apply mem_keys.
    + intros a; apply mem_keys.
  - intros e H; apply type_check_state_transition_loop_err in H.
    + destruct H as (attr & Hin & ? & ?); exists attr; split; auto; now apply mem_keys.
    + intros a; apply mem_keys.
Qed.

(** *** The task-metadata table *)

Lemma str_in_spec (x : string) (l : list string) : str_in x l = true <-> In x l.
Proof.
  unfold str_in; rewrite existsb_exists; split.
  - intros [y [Hin H]]; apply String.eqb_eq in H; now subst.
  - intros H; exists x; split; auto; apply String.eqb_refl.
Qed.








Lemma row_set_length (row : list cell) (i : nat) (c : cell) :
  List.length (row_set row i c) = List.length row.
Proof. revert i; induction row as [|x row IH]; intros [|i]; simpl; auto. Qed.

Lemma row_set_same (row : list cell) (i : nat) (c : cell) :
  (i < List.length row)%nat -> nth_error (row_set row i c) i = Some c.
Proof.
  revert i; induction row as [|x row IH]; intros [|i]; simpl; intros H; auto; try lia.
  apply IH; lia.
Qed.

Lemma row_set_other (row : list cell) (i j : nat) (c : cell) :
  i <> j -> nth_error (row_set row i c) j = nth_error row j.
Proof.
  revert i j; induction row as [|x row IH]; intros [|i] [|j] H; simpl; auto; try congruence.
Qed.

Lemma row_get_ok (row : list string) (i : nat) (s : string) :
  row_get row i = OK s -> nth_error row i = Some s /\ (i < List.length row)%nat.
Proof.
  unfold row_get; destruct (nth_error row i) eqn:E; intros H; inversion H; subst.
  split; auto; apply nth_error_Some; congruence.
Qed.

Lemma to_float_ok (s : string) (row_no : nat) (c : cell) :
  to_float s row_no = OK c -> exists q, float_of_string s = Some q /\ c = CFloat q.
Proof. unfold to_float; destruct (float_of_string s); intros H; inversion H; eauto. Qed.

Lemma to_int_ok (s : string) (row_no : nat) (c : cell) :
  to_int s row_no = OK c -> exists z, int_of_string s = Some z /\ c = CInt z.
Proof. unfold to_int; destruct (int_of_string s); intros H; inversion H; eauto. Qed.

Lemma verify_row_types_ok (row : list string) (row_no : nat) (out : list cell) :
  verify_row_types row row_no = OK out -> converted_by_position row out.
Proof.
  unfold verify_row_types; intros H.
  apply bind_ok in H as (s1 & Hs1 & H); apply row_get_ok in Hs1 as [Hs1 Hl1].
  apply bind_ok in H as (f1 & Hf1 & H); apply to_float_ok in Hf1 as (q1 & Hq1 & ->).
  apply bind_ok in H as (s2 & Hs2 & H); apply row_get_ok in Hs2 as [Hs2 Hl2].
  apply bind_ok in H as (i2 & Hi2 & H); apply to_int_ok in Hi2 as (z2 & Hz2 & ->).
  set (base := row_set (row_set (map CStr row) 1 (CFloat q1)) 2 (CInt z2)) in *.
  assert (Hlen : List.length base = List.length row).
  { unfold base; now rewrite !row_set_length, length_map. }
  assert (H1 : nth_error base 1 = Some (CFloat q1)).
  { unfold base; rewrite row_set_other by lia; apply row_set_same.
    rewrite length_map; lia. }
  assert (H2 : nth_error base 2 = Some (CInt z2)).
  { unfold base; apply row_set_same; rewrite row_set_length, length_map; lia. }
  assert (Hother : forall i, i <> 1%nat -> i <> 2%nat ->
                             nth_error base i = option_map CStr (nth_error row i)).
  { intros i Hi1 Hi2; unfold base; rewrite !row_set_other by auto; apply nth_error_map. }
  unfold converted_by_position.
  destruct (3 <? List.length row)%nat eqn:E3.
  - apply Nat.ltb_lt in E3.
    apply bind_ok in H as (s3 & Hs3 & H); apply row_get_ok in Hs3 as [Hs3 _].
    destruct (String.eqb_spec s3 "") as [->|Hne]; cbn [negb] in H.
    + inversion H; subst out; split; [| split; [| split; [| split]]]; eauto.
      intros s Hs; rewrite Hs3 in Hs; inversion Hs; subst; split; [congruence |].
      intros _; rewrite Hother by lia; rewrite Hs3; reflexivity.
    + apply bind_ok in H as (f3 & Hf3 & H); apply to_float_ok in Hf3 as (q3 & Hq3 & ->).
      inversion H; subst out; split; [| split; [| split; [| split]]].
      * now rewrite row_set_length.
      * exists s1, q1; rewrite row_set_other by lia; auto.
      * exists s2, z2; rewrite row_set_other by lia; auto.
      * intros s Hs; rewrite Hs3 in Hs; inversion Hs; subst; split; [| congruence].
        intros _; exists q3; split; auto; apply row_set_same; lia.
      * intros i ? ? ?; rewrite row_set_other by auto; auto.
  - apply Nat.ltb_ge in E3.
    assert (Hn : nth_error row 3 = None) by (apply nth_error_None; lia).
    inversion H; subst out; split; [| split; [| split; [| split]]]; eauto.
    intros s Hs; rewrite Hn in Hs; discriminate.
Qed.


(** *** The stream reducer on one session *)

Lemma legal_steps_accepted (prev : event) (evs : list event) :
  legal_steps prev evs -> accepted_steps prev evs.
Proof.
  revert prev; induction evs as [|e evs IH]; simpl; auto.
  intros prev (Hkind & Hlt & Hedge & Hrest); repeat split; auto.
  now apply valid_state_transitions_specified.
Qed.

Lemma session_identifier_ok (json_in : json_object) (k : string) :
  session_identifier json_in = OK k ->
  exists subject cond task,
    getitem "subject_id" json_in = OK subject /\ getitem "condition" json_in = OK cond
    /\ getitem "task_id" json_in = OK task.
Proof.
  unfold session_identifier; intros H.
  apply bind_ok in H as (subject & ? & H).
  apply bind_ok in H as (cond & ? & H).
  apply bind_ok in H as (task & ? & H); eauto 6.
Qed.

Lemma validated_line_ok (fn : string) (l : nat) (json_in j : json_object) (k : string)
    (utc : datetime) (state_id : value) :
  validated_line fn l json_in = OK (j, k, utc, state_id) ->
  j = typed_line utc json_in /\ session_identifier j = OK k
  /\ getitem "state_id" j = OK state_id.
Proof.
  unfold validated_line; intros H.
  apply bind_ok in H as (_ & _ & H).
  apply bind_ok in H as (iso & _ & H).
  apply bind_ok in H as (utc' & _ & H).
  apply bind_ok in H as (_ & _ & H).
  apply bind_ok in H as (k' & Hk & H).
  apply bind_ok in H as (sid & Hsid & H).
  inversion H; subst; auto.
Qed.

Lemma insert_insert {V : Type} (k : string) (v v' : V) (d : dict V) :
  insert k v (insert k v' d) = insert k v d.
Proof.
  induction d as [|[k0 v0] d IH]; simpl.
  - now rewrite String.eqb_refl.
  - destruct (String.eqb_spec k k0) as [->|Hne]; simpl.
    + now rewrite String.eqb_refl.
    + destruct (String.eqb_spec k k0); [congruence | now rewrite IH].
Qed.

(** The first line of a session: it must be [task_initialized]. *)
Lemma track_session_new (fn : string) (l : nat) (j : json_object) (k : string)
    (utc : datetime) (state_id : value) (sts : dict previous_state)
    (sessions : dict session) :
  lookup k sts = None ->
  session_identifier j = OK k ->
  getitem "state_id" j = OK state_id ->
  exists subject cond task,
    getitem "subject_id" j = OK subject /\ getitem "condition" j = OK cond
    /\ getitem "task_id" j = OK task
    /\ track_session fn (sts, sessions) l (j, k, utc, state_id)
       = if value_eqb state_id (VStr "task_initialized")
         then OK (insert k (seen utc state_id l) sts,
                  insert k (append_transition j (fresh_session subject cond task utc)) sessions)
         else Err (InvalidInitialStateError k l fn).
Proof.
  intros Hnone Hk Hsid.
  destruct (session_identifier_ok _ _ Hk) as (subject & cond & task & Hs & Hc & Ht).
  exists subject, cond, task; repeat split; auto.
  unfold track_session; rewrite Hnone, Hs, Hc, Ht; cbn [bind].
  unfold verify_first_state_is_task_initialized; rewrite Hsid; cbn [bind].
  destruct (value_eqb state_id (VStr "task_initialized")); cbn [negb raise_if bind]; auto.
  unfold getitem; rewrite lookup_insert_eq; cbn [bind].
  now rewrite insert_insert.
Qed.

(** A later line of a session: checked against the previous one, then its
    delta is added.  The subtraction of the two timestamps cannot raise: the
    ordering check has compared them. *)
Lemma track_session_seen (fn : string) (l : nat) (j : json_object) (k : string)
    (utc : datetime) (state_id : value) (sts : dict previous_state)
    (sessions : dict session) (previous : previous_state) (s : session) :
  lookup k sts = Some previous ->
  lookup k sessions = Some s ->
  track_session fn (sts, sessions) l (j, k, utc, state_id)
  = verify_timestamps_inorder (prev_utc_timestamp previous) utc (prev_line_no previous) l
      (prev_state_id previous) fn ;;;
    verify_state_transition_valid (prev_state_id previous) state_id
      (prev_line_no previous) l fn ;;;
    OK (insert k (seen utc state_id l) sts,
        insert k (append_transition j
                    (add_elapsed previous (delta (prev_utc_timestamp previous) utc) s))
          sessions).
Proof.
  intros Hprev Hs.
  unfold track_session; rewrite Hprev.
  destruct (verify_timestamps_inorder _ _ _ _ _ _) as [[]|e] eqn:Horder; cbn [bind]; auto.
  destruct (verify_state_transition_valid _ _ _ _ _) as [[]|e]; cbn [bind]; auto.
  apply verify_timestamps_inorder_ok in Horder as [Hkind _].
  unfold datetime_sub; unfold comparable in Hkind.
  rewrite <- Hkind, Bool.eqb_reflx; cbn [bind].
  unfold getitem; rewrite Hs; cbn [bind]; rewrite lookup_insert_eq; cbn [bind].
  now rewrite insert_insert.
Qed.

Lemma last_cons_default {A : Type} (x d : A) (l : list A) :
  last (x :: l) d = last l x.
Proof.
  revert x d; induction l as [|y l IH]; intros x d; auto.
  change (last (x :: y :: l) d) with (last (y :: l) d); rewrite !IH; reflexivity.
Qed.

Lemma value_eqb_str_str (a b : string) :
  value_eqb (VStr a) (VStr b) = String.eqb a b.
Proof. reflexivity. Qed.

(** The lines of one session after its first, from the state the first
    leaves. *)
Lemma single_session_loop (fn : string) (k : string) :
  forall (lines : list json_object) (evs : list event) (l : nat) (e0 : event) (l0 : nat)
         (s : session),
    Forall2 (represents k) lines evs ->
    accepted_steps e0 evs ->
    (exists j rest, rev (state_transitions s) = j :: rest
                    /\ getitem "state_id" j = OK (VStr (snd e0))) ->
    exists l' s',
      state_transitions_loop fn lines l
        ([(k, seen (fst e0) (VStr (snd e0)) l0)], [(k, s)])
      = OK ([(k, seen (fst (last evs e0)) (VStr (snd (last evs e0))) l')], [(k, s')])
      /\ task_total_time s' = deltas_added (fun _ => true) (task_total_time s) e0 evs
      /\ km_pull_total_time s'
         = deltas_added (fun st => String.eqb st "km_pull_activity")
             (km_pull_total_time s) e0 evs
      /\ km_push_total_time s'
         = deltas_added (fun st => String.eqb st "km_push_activity")
             (km_push_total_time s) e0 evs
      /\ task_start_time s' = task_start_time s
      /\ subject_id s' = subject_id s /\ condition s' = condition s /\ task_id s' = task_id s
      /\ state_transitions s'
         = (state_transitions s ++ map (fun je => typed_line (fst (snd je)) (fst je))
                                       (combine lines evs))%list
      /\ (exists j rest, rev (state_transitions s') = j :: rest
                         /\ getitem "state_id" j = OK (VStr (snd (last evs e0)))).
Proof.
  intros lines evs l e0 l0 s Hrep; revert l e0 l0 s.
  induction Hrep as [|json_in e lines evs Hline Hrep IH]; intros l e0 l0 s Hacc Hlast.
  - exists l0, s; cbn; repeat split; auto.
    now rewrite app_nil_r.
  - destruct Hacc as (Hkind & Horder & Hedge & Hacc).
    cbn [state_transitions_loop]; unfold state_transitions_step.
    rewrite (Hline fn l); cbn [bind].
    destruct (validated_line_ok _ _ _ _ _ _ _ (Hline fn l)) as (_ & Hk & Hsid).
    rewrite (track_session_seen fn l _ k _ _ _ _ (seen (fst e0) (VStr (snd e0)) l0) s)
      by (cbn [lookup]; now rewrite String.eqb_refl).
    cbn [seen prev_utc_timestamp prev_state_id prev_line_no].
    replace (verify_timestamps_inorder _ _ _ _ _ _) with (OK tt).
    2:{ symmetry; apply verify_timestamps_inorder_ok; split; [exact Hkind |].
        destruct Horder as [?|Hinit]; [left | right]; auto.
        unfold initial_state_id; now rewrite Hinit. }
    replace (verify_state_transition_valid _ _ _ _ _) with (OK tt).
    2:{ symmetry; apply verify_state_transition_valid_ok; eauto. }
    cbn [bind insert]; rewrite String.eqb_refl.
    set (s1 := append_transition _ _).
    destruct (IH (S l) e l s1 Hacc) as (l' & s' & Hloop & Ht & Hpull & Hpush & Hstart
                                        & Hsub & Hcond & Htask & Htrans & Hlast').
    { exists (typed_line (fst e) json_in), (rev (state_transitions s)).
      unfold s1; cbn [append_transition state_transitions add_elapsed].
      rewrite rev_app_distr; split; auto. }
    exists l', s'.
    rewrite last_cons_default.
    split; [exact Hloop |].
    unfold s1 in Ht, Hpull, Hpush, Hstart, Hsub, Hcond, Htask, Htrans.
    cbn [append_transition add_elapsed task_total_time km_pull_total_time km_push_total_time
         task_start_time subject_id condition task_id state_transitions seen prev_state_id]
      in Ht, Hpull, Hpush, Hstart, Hsub, Hcond, Htask, Htrans.
    rewrite !value_eqb_str_str in Hpull, Hpush.
    cbn [deltas_added combine map fst snd].
    repeat split; auto.
    rewrite Htrans, <- app_assoc; reflexivity.
Qed.

(** The lines of the shape [transition_line] pass the checks on single
    lines, whatever their state and whenever their timestamp parses. *)
Lemma transition_line_represents (content : payload) (subject task iso_str state : string)
    (t : datetime) :
  fromisoformat iso_str = Some t ->
  In state state_ids ->
  represents (subject ++ "_" ++ "prototype" ++ "_" ++ task)
    (transition_line content subject task iso_str state) (t, state).
Proof.
  intros Hparse Hstate fn l.
  unfold validated_line, transition_line.
  cbn [verify_all_state_transition_fields_present fields_present keys map fst
       state_transition_schema mem lookup String.eqb Ascii.eqb Bool.eqb negb andb
       raise_if bind getitem iso_str_as_datetime].
  rewrite Hparse; cbn [bind].
  unfold state_ids in Hstate; cbn [In] in Hstate.
  destruct Hstate as [<-|[<-|[<-|[<-|[<-|[]]]]]]; reflexivity.
Qed.

(** A file that holds the lines of one session, in an order the checks
    between lines accept: the loop succeeds, and the final check decides. *)
Lemma single_session_reduce (fn : string) (k : string) (lines : list json_object)
    (e0 : event) (rest : list event) :
  Forall2 (represents k) lines (e0 :: rest) ->
  snd e0 = "task_initialized" ->
  accepted_steps e0 rest ->
  exists l' s,
    reports s lines (e0 :: rest)
    /\ reduce_state_transitions fn lines
       = if String.eqb (snd (last rest e0)) "task_conclusion"
         then OK [(k, s)]
         else Err (InvalidFinalStateError k l' fn).
Proof.
  intros Hrep Hinit Hacc.
  inversion Hrep as [|json_in e lines' evs Hline Hrep']; subst.
  unfold reduce_state_transitions.
  cbn [state_transitions_loop]; unfold state_transitions_step.
  rewrite (Hline fn 1%nat); cbn [bind].
  destruct (validated_line_ok _ _ _ _ _ _ _ (Hline fn 1%nat)) as (_ & Hk & Hsid).
  destruct (track_session_new fn 1 _ k (fst e0) _ [] [] eq_refl Hk Hsid)
    as (subject & cond & task & _ & _ & _ & Htrack).
  rewrite value_eqb_str_str, Hinit in Htrack; cbn [String.eqb Ascii.eqb Bool.eqb insert] in Htrack.
  set (s0 := append_transition _ _) in Htrack.
  destruct (single_session_loop fn k lines' rest 2 e0 1 s0 Hrep' Hacc)
    as (l' & s' & Hloop & Ht & Hpull & Hpush & Hstart & _ & _ & _ & Htrans & Hlast).
  { exists (typed_line (fst e0) json_in), []; split; auto. }
  rewrite Hinit in Hloop at 1.
  exists l', s'; split.
  - unfold s0 in *; cbn in Ht, Hpull, Hpush, Hstart, Htrans.
    unfold reports; cbn [float_sum_deltas hd_error option_map combine map fst snd].
    repeat split; auto.
    now rewrite Hstart.
  - replace (VStr (snd e0)) with (@VStr payload "task_initialized") by now rewrite Hinit.
    rewrite Htrack; cbn [bind]; rewrite Hloop;
      cbn [bind fst snd verify_last_states].
    unfold getitem at 1; cbn [lookup]; rewrite String.eqb_refl; cbn [bind prev_line_no seen].
    destruct Hlast as (j & tl & Hrev & Hj).
    unfold verify_last_state_is_task_conclusion; rewrite Hrev, Hj; cbn [bind].
    rewrite value_eqb_str_str.
    destruct (String.eqb _ "task_conclusion"); reflexivity.
Qed.

(** What the entry of a session binds, read off the returned dictionary. *)
Lemma session_record_totals (s : session) :
  entry_totals (session_record s) (task_start_time s) (task_total_time s)
    (km_pull_total_time s) (km_push_total_time s)
  /\ lookup "state_transitions" (session_record s)
     = Some (FTransitions (state_transitions s))
  /\ lookup "subject_id" (session_record s) = Some (FVal (subject_id s))
  /\ lookup "condition" (session_record s) = Some (FVal (condition s))
  /\ lookup "task_id" (session_record s) = Some (FVal (task_id s)).
Proof. unfold entry_totals; repeat split; reflexivity. Qed.

(** Events whose timestamps never go back. *)
Lemma legal_steps_in_order (prev : event) (evs : list event) :
  legal_steps prev evs -> in_order prev evs.
Proof.
  revert prev; induction evs as [|e evs IH]; simpl; auto.
  intros prev (_ & Hlt & _ & Hrest); split; [lia | auto].
Qed.

Lemma in_order_last (prev : event) (evs : list event) :
  in_order prev evs -> instant (fst prev) <= instant (fst (last evs prev)).
Proof.
  revert prev; induction evs as [|e evs IH]; intros prev H.
  - simpl; lia.
  - destruct H as [Hle Hrest]; rewrite last_cons_default.
    specialize (IH e Hrest); lia.
Qed.

(** The float of a delta between two whole seconds is the delta. *)
Lemma delta_whole (a b : datetime) (na nb : Z) :
  rounds_to_nearest ->
  instant a = na * 1000000 -> instant b = nb * 1000000 ->
  Z.abs (nb - na) <= 2 ^ 53 ->
  delta a b == inject_Z (nb - na).
Proof.
  intros [Hwhole _] Ha Hb Hbound.
  unfold delta, total_seconds; apply Hwhole; [| exact Hbound].
  rewrite Ha, Hb; unfold Qeq, inject_Z; cbn [Qnum Qden]; lia.
Qed.

(** On whole seconds that never go back the float sums are exact, as long
    as the sums stay below [2^53] seconds. *)
Lemma deltas_added_exact (sel : string -> bool) :
  rounds_to_nearest ->
  forall (evs : list event) (prev : event) (total : Q) (a : Z),
    in_order prev evs ->
    whole_seconds (prev :: evs) ->
    total == inject_Z a ->
    0 <= a ->
    a * 1000000 + (instant (fst (last evs prev)) - instant (fst prev)) <= 2 ^ 53 * 1000000 ->
    deltas_added sel total prev evs == total + deltas_after sel prev evs.
Proof.
  intros Hround; induction evs as [|e evs IH]; intros prev total a Horder Hwhole Htotal Ha Hbound.
  - cbn [deltas_added deltas_after]; ring.
  - destruct Horder as [Hle Horder].
    pose proof (in_order_last e evs Horder) as Hlast.
    rewrite last_cons_default in Hbound.
    inversion Hwhole as [|? ? [np Hp] Hwhole']; subst.
    inversion Hwhole' as [|? ? [ne He] _]; subst.
    assert (Hexact : (instant (fst e) - instant (fst prev)) # 1000000 == inject_Z (ne - np)).
    { rewrite Hp, He; unfold Qeq, inject_Z; cbn [Qnum Qden]; lia. }
    assert (Hdelta : delta (fst prev) (fst e) == inject_Z (ne - np)).
    { apply (delta_whole _ _ np ne Hround Hp He); lia. }
    cbn [deltas_added deltas_after].
    destruct (sel (snd prev)).
    + assert (Hsum : float_add total (delta (fst prev) (fst e)) == inject_Z (a + (ne - np))).
      { destruct Hround as [Hwhole_number _]; unfold float_add; apply Hwhole_number.
        - rewrite Htotal, Hdelta, inject_Z_plus; reflexivity.
        - lia. }
      rewrite (IH e _ (a + (ne - np)) Horder Hwhole' Hsum) by lia.
      rewrite Hsum, Hexact, Htotal, inject_Z_plus; ring.
    + rewrite (IH e _ a Horder Hwhole' Htotal) by lia.
      ring.
Qed.

Lemma float_sum_deltas_exact (sel : string -> bool) (e0 : event) (rest : list event) :
  rounds_to_nearest ->
  in_order e0 rest ->
  whole_seconds (e0 :: rest) ->
  instant (fst (last rest e0)) - instant (fst e0) <= 2 ^ 53 * 1000000 ->
  float_sum_deltas sel (e0 :: rest) == sum_deltas sel (e0 :: rest).
Proof.
  intros Hround Horder Hwhole Hbound.
  cbn [float_sum_deltas sum_deltas].
  rewrite (deltas_added_exact sel Hround rest e0 0 0 Horder Hwhole); [ring | reflexivity | lia | lia].
Qed.

(** C1: for every legal event sequence of one session (first event
    [task_initialized], last [task_conclusion], strictly increasing
    timestamps, specified edges only) the loader returns one record, which
    binds [task_start_time] to the first timestamp, [task_total_time] to the
    sum of all consecutive deltas, and [km_pull_total_time] and
    [km_push_total_time] to the sums of the deltas that follow a
    [km_pull_activity], respectively [km_push_activity], event; the sums are
    those of floats, each delta added to the total in the order of the
    lines.  Where the timestamps are whole seconds these are the exact sums;
    and the four events of Scenario A give 90, 30 and 0 seconds. *)
Theorem stream_reducer_totals_are_the_sums_of_deltas :
  (forall (fn k : string) (lines : list json_object) (e0 : event) (rest : list event),
      Forall2 (represents k) lines (e0 :: rest) ->
      legal_sequence (e0 :: rest) ->
      exists r,
        load_state_transitions_file fn lines = OK [(k, r)]
        /\ entry_totals r (fst e0)
             (float_sum_deltas (fun _ => true) (e0 :: rest))
             (float_sum_deltas (fun st => String.eqb st "km_pull_activity") (e0 :: rest))
             (float_sum_deltas (fun st => String.eqb st "km_push_activity") (e0 :: rest))
        /\ lookup "state_transitions" r
           = Some (FTransitions (map (fun je => typed_line (fst (snd je)) (fst je))
                                     (combine lines (e0 :: rest)))))
  /\ (rounds_to_nearest ->
      forall (e0 : event) (rest : list event) (sel : string -> bool),
        legal_sequence (e0 :: rest) ->
        whole_seconds (e0 :: rest) ->
        instant (fst (last rest e0)) - instant (fst e0) <= 2 ^ 53 * 1000000 ->
        float_sum_deltas sel (e0 :: rest) == sum_deltas sel (e0 :: rest))
  /\ (rounds_to_nearest ->
      forall (fn k : string) (lines : list json_object),
        Forall2 (represents k) lines scenario_A ->
        exists r total pull push,
          load_state_transitions_file fn lines = OK [(k, r)]
          /\ entry_totals r (utc_instant 0) total pull push
          /\ total == 90 /\ pull == 30 /\ push == 0).
Proof.
  split; [| split].
  - intros fn k lines e0 rest Hrep (Hinit & Hsteps & Hlast).
    destruct (single_session_reduce fn k lines e0 rest Hrep Hinit
                (legal_steps_accepted _ _ Hsteps)) as (l' & s & Hreports & Hreduce).
    rewrite Hlast in Hreduce; cbn in Hreduce.
    exists (session_record s); split.
    { unfold load_state_transitions_file; rewrite Hreduce; reflexivity. }
    destruct Hreports as (Ht & Hpull & Hpush & Hstart & Htrans).
    cbn [hd_error option_map] in Hstart; injection Hstart as Hstart.
    destruct (session_record_totals s) as (Htotals & Hlines & _).
    rewrite Ht, Hpull, Hpush, Hstart in Htotals; rewrite Htrans in Hlines; auto.
  - intros Hround e0 rest sel (_ & Hsteps & _) Hwhole Hbound.
    apply float_sum_deltas_exact; auto.
    now apply legal_steps_in_order.
  - intros Hround fn k lines Hrep.
    destruct (single_session_reduce fn k lines _ _ Hrep eq_refl) as (l' & s & Hreports & Hreduce).
    { unfold valid_state_transitions, comparable; cbn.
      repeat split; auto 20; left; lia. }
    cbn in Hreduce.
    destruct Hreports as (Ht & Hpull & Hpush & Hstart & _).
    cbn [hd_error option_map scenario_A fst] in Hstart; injection Hstart as Hstart.
    exists (session_record s), (task_total_time s), (km_pull_total_time s),
      (km_push_total_time s).
    split; [unfold load_state_transitions_file; rewrite Hreduce; reflexivity |].
    split; [rewrite <- Hstart; apply session_record_totals |].
    assert (Hexact : forall sel,
               float_sum_deltas sel scenario_A == sum_deltas sel scenario_A).
    { intros sel; apply float_sum_deltas_exact; auto.
      - cbn; lia.
      - unfold scenario_A; repeat constructor; cbn [fst instant utc_instant].
        + now exists 0.
        + now exists 0.
        + now exists 30.
        + now exists 90.
      - cbn; lia. }
    rewrite Ht, Hpull, Hpush, !Hexact.
    repeat split; reflexivity.
Qed.


(** *** The stream reducer on any file *)

Lemma keys_insert {V : Type} (k : string) (v : V) (d : dict V) :
  keys (insert k v d) = if mem k d then keys d else (keys d ++ [k])%list.
Proof.
  unfold mem; induction d as [|[k0 v0] d IH]; simpl; auto.
  destruct (String.eqb_spec k k0) as [->|Hne]; simpl; auto.
  rewrite IH; destruct (lookup k d); reflexivity.
Qed.

Lemma NoDup_keys_insert {V : Type} (k : string) (v : V) (d : dict V) :
  NoDup (keys d) -> NoDup (keys (insert k v d)).
Proof.
  intros Hnd; rewrite keys_insert; destruct (mem k d) eqn:Hm; auto.
  apply NoDup_app; repeat split; auto.
  - constructor; [intros [] | constructor].
  - intros x Hx [<-|[]]. apply mem_keys in Hx; congruence.
Qed.

Lemma NoDup_keys_lookup {V : Type} (k : string) (v : V) (d : dict V) :
  NoDup (keys d) -> In (k, v) d -> lookup k d = Some v.
Proof.
  induction d as [|[k0 v0] d IH]; simpl; [intros _ [] |].
  intros Hnd [Heq|Hin].
  - inversion Heq; subst; now rewrite String.eqb_refl.
  - inversion Hnd as [|? ? Hnotin Hnd']; subst.
    destruct (String.eqb_spec k k0) as [->|Hne]; auto.
    exfalso; apply Hnotin; change k0 with (fst (k0, v)); now apply in_map.
Qed.

Lemma reducer_inv_insert (sts : dict previous_state) (sessions : dict session) (k : string)
    (utc : datetime) (state_id : value) (l : nat) (s1 : session) (j : json_object)
    (tl : list json_object) :
  reducer_inv (sts, sessions) ->
  rev (state_transitions s1) = j :: tl ->
  getitem "state_id" j = OK state_id ->
  reducer_inv (insert k (seen utc state_id l) sts, insert k s1 sessions).
Proof.
  intros (Hnd & Hsame & Hlast) Hrev Hj; cbn [fst snd] in *.
  split; [| split]; cbn [fst snd].
  - now apply NoDup_keys_insert.
  - intros k'; destruct (String.eqb_spec k' k) as [->|Hne].
    + rewrite !lookup_insert_eq; split; discriminate.
    + rewrite !lookup_insert_ne by auto; apply Hsame.
  - intros k' p s; destruct (String.eqb_spec k' k) as [->|Hne].
    + rewrite !lookup_insert_eq; intros Hp Hs; inversion Hp; inversion Hs; subst.
      exists j, tl; auto.
    + rewrite !lookup_insert_ne by auto; apply Hlast.
Qed.

(** One line, accepted: the invariant is kept and the line is remembered as
    the last one of its session. *)
Lemma track_session_ok (fn : string) (st st' : reducer_state) (l : nat) (json_in : json_object)
    (v : validated) :
  validated_line fn l json_in = OK v ->
  track_session fn st l v = OK st' ->
  reducer_inv st ->
  reducer_inv st'
  /\ fst st' = insert (identifier_of v) (seen (snd (fst v)) (state_of v) l) (fst st).
Proof.
  destruct v as [[[j k] utc] state_id]; destruct st as [sts sessions].
  intros Hline Htrack Hinv.
  destruct (validated_line_ok _ _ _ _ _ _ _ Hline) as (_ & Hk & Hsid).
  cbn [identifier_of state_of fst snd].
  destruct (lookup k sts) as [p|] eqn:Hp.
  - destruct (lookup k sessions) as [s|] eqn:Hs.
    2:{ destruct Hinv as (_ & Hsame & _); apply Hsame in Hs; cbn in Hs; congruence. }
    rewrite (track_session_seen fn l j k utc state_id sts sessions p s Hp Hs) in Htrack.
    apply bind_ok in Htrack as (_ & _ & Htrack).
    apply bind_ok in Htrack as (_ & _ & Htrack).
    inversion Htrack; subst st'; split; auto.
    eapply reducer_inv_insert with (j := j); eauto.
    cbn [append_transition state_transitions]; now rewrite rev_app_distr.
  - destruct (track_session_new fn l j k utc state_id sts sessions Hp Hk Hsid)
      as (subject & cond & task & _ & _ & _ & Hnew).
    rewrite Hnew in Htrack.
    destruct (value_eqb state_id (VStr "task_initialized")); [| discriminate].
    inversion Htrack; subst st'; split; auto.
    eapply reducer_inv_insert with (j := j) (tl := []); eauto.
Qed.

Lemma state_transitions_loop_ok (fn : string) :
  forall (lines : list json_object) (l : nat) (st st' : reducer_state),
    state_transitions_loop fn lines l st = OK st' ->
    reducer_inv st ->
    exists vs,
      validated_lines fn l lines vs
      /\ reducer_inv st'
      /\ (forall k, lookup k (fst st') = last_seen k l vs (lookup k (fst st))).
Proof.
  induction lines as [|json_in lines IH]; intros l st st' Hloop Hinv.
  - inversion Hloop; subst; exists []; cbn; auto.
  - cbn [state_transitions_loop] in Hloop.
    apply bind_ok in Hloop as (st1 & Hstep & Hloop).
    unfold state_transitions_step in Hstep.
    apply bind_ok in Hstep as (v & Hline & Htrack).
    destruct (track_session_ok fn st st1 l json_in v Hline Htrack Hinv) as [Hinv1 Hfst].
    destruct (IH (S l) st1 st' Hloop Hinv1) as (vs & Hvs & Hinv' & Hseen).
    exists (v :: vs); split; [| split]; auto.
    + cbn; auto.
    + intros k; rewrite Hseen, Hfst; cbn [last_seen].
      destruct (String.eqb_spec k (identifier_of v)) as [->|Hne].
      * now rewrite lookup_insert_eq.
      * now rewrite lookup_insert_ne.
Qed.

Lemma state_transitions_loop_app (fn : string) :
  forall (pre post : list json_object) (l : nat) (st : reducer_state),
    state_transitions_loop fn (pre ++ post) l st
    = st1 <- state_transitions_loop fn pre l st ;;
      state_transitions_loop fn post (l + List.length pre) st1.
Proof.
  induction pre as [|json_in pre IH]; intros post l st; cbn [app state_transitions_loop bind].
  - now rewrite Nat.add_0_r.
  - destruct (state_transitions_step fn st l json_in) as [st1|e]; cbn [bind]; auto.
    rewrite IH; cbn [List.length]; now rewrite Nat.add_succ_r.
Qed.

Lemma reducer_inv_empty : reducer_inv ([], []).
Proof.
  split; [constructor | split]; cbn; [tauto | discriminate].
Qed.

(** The final check over [entries], a part of the sessions collected. *)
Lemma verify_last_states_spec (fn : string) (st : reducer_state) :
  reducer_inv st ->
  forall entries,
    (forall k s, In (k, s) entries -> In (k, s) (snd st)) ->
    (verify_last_states fn (fst st) entries = OK tt
     /\ forall k s, In (k, s) entries ->
                    exists p, lookup k (fst st) = Some p
                              /\ prev_state_id p = VStr "task_conclusion")
    \/ (exists k p, lookup k (fst st) = Some p
                    /\ prev_state_id p <> VStr "task_conclusion"
                    /\ verify_last_states fn (fst st) entries
                       = Err (InvalidFinalStateError k (prev_line_no p) fn)).
Proof.
  intros (Hnd & Hsame & Hlast) entries.
  induction entries as [|[k s] entries IH]; intros Hsub.
  - left; split; auto; intros k s [].
  - assert (Hs : lookup k (snd st) = Some s).
    { apply NoDup_keys_lookup; auto; apply Hsub; left; auto. }
    destruct (lookup k (fst st)) as [p|] eqn:Hp.
    2:{ apply Hsame in Hp; congruence. }
    destruct (Hlast k p s Hp Hs) as (j & tl & Hrev & Hj).
    assert (Hv : verify_last_states fn (fst st) ((k, s) :: entries)
                 = raise_if (negb (value_eqb (prev_state_id p) (VStr "task_conclusion")))
                            (InvalidFinalStateError k (prev_line_no p) fn) ;;;
                   verify_last_states fn (fst st) entries).
    { cbn [verify_last_states]; unfold getitem at 1; rewrite Hp; cbn [bind].
      unfold verify_last_state_is_task_conclusion; rewrite Hrev, Hj; reflexivity. }
    rewrite Hv; clear Hv.
    destruct (value_eqb (prev_state_id p) (VStr "task_conclusion")) eqn:Hc;
      cbn [negb raise_if bind].
    + apply value_eqb_str in Hc.
      destruct IH as [[Hok Hall]|(k' & p' & Hp' & Hne & Herr)].
      * intros k' s' Hin; apply Hsub; right; auto.
      * left; split; auto.
        intros k' s' [Heq|Hin]; [inversion Heq; subst; eauto | eauto].
      * right; exists k', p'; auto.
    + right; exists k, p; repeat split; auto.
      intros Heq; apply value_eqb_str in Heq; congruence.
Qed.

Lemma lookup_In {V : Type} (k : string) (v : V) (d : dict V) :
  lookup k d = Some v -> In (k, v) d.
Proof.
  induction d as [|[k0 v0] d IH]; simpl; [discriminate |].
  destruct (String.eqb_spec k k0) as [->|Hne]; intros H; auto.
  inversion H; auto.
Qed.

Lemma validated_lines_functional (fn : string) :
  forall (lines : list json_object) (l : nat) (vs vs' : list validated),
    validated_lines fn l lines vs -> validated_lines fn l lines vs' -> vs = vs'.
Proof.
  induction lines as [|json_in lines IH]; intros l [|v vs] [|v' vs']; cbn;
    try tauto.
  intros [Hv Hvs] [Hv' Hvs'].
  rewrite Hv in Hv'; inversion Hv'; subst; f_equal; eauto.
Qed.

Lemma last_seen_unseen (k : string) :
  forall (vs : list validated) (l : nat),
    (forall v, In v vs -> identifier_of v <> k) -> last_seen k l vs None = None.
Proof.
  induction vs as [|v vs IH]; intros l Hnew; cbn [last_seen]; auto.
  destruct (String.eqb_spec k (identifier_of v)) as [->|_].
  - exfalso; apply (Hnew v); [left |]; reflexivity.
  - apply IH; intros v' Hin; apply Hnew; right; exact Hin.
Qed.

(** The final check, once the loop has gone through the whole file: it
    passes when the last line seen of every session is [task_conclusion], and
    otherwise fails on one that is not. *)
Lemma final_check_decides (fn : string) (lines : list json_object) (st : reducer_state) :
  state_transitions_loop fn lines 1 ([], []) = OK st ->
  ((forall k p, lookup k (fst st) = Some p -> prev_state_id p = VStr "task_conclusion")
   /\ load_state_transitions_file fn lines
      = OK (map (fun ks => (fst ks, session_record (snd ks))) (snd st)))
  \/ (exists k p, lookup k (fst st) = Some p
                  /\ prev_state_id p <> VStr "task_conclusion"
                  /\ load_state_transitions_file fn lines
                     = Err (InvalidFinalStateError k (prev_line_no p) fn)).
Proof.
  intros Hloop.
  destruct (state_transitions_loop_ok fn lines 1 _ st Hloop reducer_inv_empty)
    as (vs & _ & Hinv & _).
  unfold load_state_transitions_file, reduce_state_transitions.
  rewrite Hloop; cbn [bind].
  destruct (verify_last_states_spec fn st Hinv (snd st) (fun k s H => H))
    as [[Hok Hall]|(k & p & Hp & Hne & Herr)].
  - left; rewrite Hok; split; auto.
    intros k p Hp.
    destruct Hinv as (_ & Hsame & _).
    destruct (lookup k (snd st)) as [s|] eqn:Hs.
    + apply lookup_In in Hs; destruct (Hall k s Hs) as (p' & Hp' & Hc); congruence.
    + apply Hsame in Hs; congruence.
  - right; exists k, p; rewrite Herr; auto.
Qed.

(** C5: the first line seen for a session key must be [task_initialized],
    or the load fails at that line with the initial-state error; once the
    whole file has gone through the loop, the last line seen of every session
    key must be [task_conclusion], or the load fails with the final-state
    error; so a session of one [task_initialized] line fails with the
    final-state error, and one that starts with [task_execution] with the
    initial-state error. *)
Theorem boundary_states_are_enforced :
  (forall (fn : string) (pre post : list json_object) (json_in : json_object)
          (st : reducer_state) (vs : list validated) (v : validated),
      state_transitions_loop fn pre 1 ([], []) = OK st ->
      validated_lines fn 1 pre vs ->
      validated_line fn (S (List.length pre)) json_in = OK v ->
      (forall v', In v' vs -> identifier_of v' <> identifier_of v) ->
      state_of v <> VStr "task_initialized" ->
      load_state_transitions_file fn (pre ++ json_in :: post)
      = Err (InvalidInitialStateError (identifier_of v) (S (List.length pre)) fn))
  /\ (forall (fn : string) (lines : list json_object) (st : reducer_state),
         state_transitions_loop fn lines 1 ([], []) = OK st ->
         exists vs,
           validated_lines fn 1 lines vs
           /\ (forall k, lookup k (fst st) = last_seen k 1 vs None)
           /\ (((forall k p, last_seen k 1 vs None = Some p ->
                             prev_state_id p = VStr "task_conclusion")
                /\ load_state_transitions_file fn lines
                   = OK (map (fun ks => (fst ks, session_record (snd ks))) (snd st)))
               \/ (exists k p, last_seen k 1 vs None = Some p
                               /\ prev_state_id p <> VStr "task_conclusion"
                               /\ load_state_transitions_file fn lines
                                  = Err (InvalidFinalStateError k (prev_line_no p) fn))))
  /\ (forall (fn k : string) (json_in : json_object) (t : datetime),
         represents k json_in (t, "task_initialized") ->
         load_state_transitions_file fn [json_in] = Err (InvalidFinalStateError k 1 fn))
  /\ (forall (fn k : string) (json_in : json_object) (t : datetime),
         represents k json_in (t, "task_execution") ->
         load_state_transitions_file fn [json_in] = Err (InvalidInitialStateError k 1 fn)).
Proof.
  assert (Hinitial :
    forall (fn : string) (pre post : list json_object) (json_in : json_object)
           (st : reducer_state) (v : validated),
      state_transitions_loop fn pre 1 ([], []) = OK st ->
      validated_line fn (S (List.length pre)) json_in = OK v ->
      lookup (identifier_of v) (fst st) = None ->
      state_of v <> VStr "task_initialized" ->
      load_state_transitions_file fn (pre ++ json_in :: post)
      = Err (InvalidInitialStateError (identifier_of v) (S (List.length pre)) fn)).
  { intros fn pre post json_in [sts sessions] [[[j k] utc] state_id] Hpre Hline Hnone Hstate.
    cbn [identifier_of state_of fst snd] in *.
    unfold load_state_transitions_file, reduce_state_transitions.
    rewrite state_transitions_loop_app.
    rewrite Hpre; cbn [bind state_transitions_loop Nat.add].
    unfold state_transitions_step; rewrite Hline; cbn [bind].
    destruct (validated_line_ok _ _ _ _ _ _ _ Hline) as (_ & Hk & Hsid).
    destruct (track_session_new fn (S (List.length pre)) j k utc state_id sts sessions
                Hnone Hk Hsid) as (subject & cond & task & _ & _ & _ & Hnew).
    rewrite Hnew.
    destruct (value_eqb state_id (VStr "task_initialized")) eqn:Hc; [| reflexivity].
    apply value_eqb_str in Hc; contradiction. }
  split.
  { intros fn pre post json_in st vs v Hpre Hvs Hline Hfirst Hstate.
    apply (Hinitial fn pre post json_in st v Hpre Hline); auto.
    destruct (state_transitions_loop_ok fn pre 1 _ st Hpre reducer_inv_empty)
      as (vs' & Hvs' & _ & Hseen).
    rewrite Hseen, (validated_lines_functional fn pre 1 vs' vs Hvs' Hvs).
    now apply last_seen_unseen. }
  split; [| split].
  - intros fn lines st Hloop.
    destruct (state_transitions_loop_ok fn lines 1 _ st Hloop reducer_inv_empty)
      as (vs & Hvs & _ & Hseen).
    cbn [fst lookup] in Hseen.
    exists vs; split; [| split]; auto.
    destruct (final_check_decides fn lines st Hloop) as [[Hall Hok]|(k & p & Hp & Hne & Herr)].
    + left; split; auto; intros k p Hp; apply (Hall k); now rewrite Hseen.
    + right; exists k, p; rewrite <- Hseen; auto.
  - intros fn k json_in t Hrep.
    pose proof (Hrep fn 1%nat) as Hline; cbn [fst snd] in Hline.
    destruct (validated_line_ok _ _ _ _ _ _ _ Hline) as (_ & Hk & Hsid).
    destruct (track_session_new fn 1 _ k t _ [] [] eq_refl Hk Hsid)
      as (subject & cond & task & _ & _ & _ & Hnew).
    rewrite value_eqb_str_str in Hnew; cbn [String.eqb Ascii.eqb Bool.eqb insert] in Hnew.
    assert (Hloop : state_transitions_loop fn [json_in] 1 ([], [])
                    = OK ([(k, seen t (VStr "task_initialized") 1)],
                          [(k, append_transition (typed_line t json_in)
                                 (fresh_session subject cond task t))])).
    { cbn [state_transitions_loop]; unfold state_transitions_step.
      rewrite Hline; cbn [bind]; rewrite Hnew; reflexivity. }
    destruct (final_check_decides fn [json_in] _ Hloop)
      as [[Hall _]|(k' & p & Hp & _ & Herr)]; cbn [fst lookup] in *.
    + specialize (Hall k); rewrite String.eqb_refl in Hall.
      specialize (Hall _ eq_refl); discriminate.
    + destruct (String.eqb_spec k' k) as [->|]; [| discriminate].
      inversion Hp; subst p; exact Herr.
  - intros fn k json_in t Hrep.
    pose proof (Hrep fn 1%nat) as Hline; cbn [fst snd] in Hline.
    apply (Hinitial fn [] [] json_in ([], []) _ eq_refl Hline); [reflexivity |].
    cbn; discriminate.
Qed.

(** *** Interleaved sessions *)

Lemma type_check_state_transition_loop_state (attrs : list string) (input : json_object)
    (l : nat) (fn : string) (v : value) :
  type_check_state_transition_loop attrs input l fn = OK tt ->
  In "state_id" attrs ->
  getitem "state_id" input = OK v ->
  value_in v state_ids = true.
Proof.
  intros Hok Hin Hv; induction attrs as [|a attrs IH]; [destruct Hin |].
  cbn [type_check_state_transition_loop] in Hok.
  apply bind_ok in Hok as (v' & Hv' & Hok).
  apply bind_ok in Hok as ([] & Hcheck & Hok).
  destruct Hin as [Heq|Hin]; [subst a | auto].
  rewrite Hv in Hv'; inversion Hv'; subst v'.
  cbn [String.eqb Ascii.eqb Bool.eqb] in Hcheck.
  apply raise_if_ok in Hcheck; now apply negb_false_iff in Hcheck.
Qed.

(** The state of a line that passed the checks is one of the five states. *)
Lemma validated_line_state (fn : string) (l : nat) (json_in : json_object) (v : validated) :
  validated_line fn l json_in = OK v ->
  exists s, state_of v = VStr s /\ In s state_ids.
Proof.
  unfold validated_line; intros H.
  apply bind_ok in H as (_ & _ & H).
  apply bind_ok in H as (iso & _ & H).
  apply bind_ok in H as (utc & _ & H).
  apply bind_ok in H as ([] & Htype & H).
  apply bind_ok in H as (k & _ & H).
  apply bind_ok in H as (sid & Hsid & H).
  inversion H; subst v; cbn [state_of snd].
  assert (Hin : value_in sid state_ids = true).
  2:{ apply value_in_spec in Hin as (s & Hs & ->); eauto. }
  unfold type_check_state_transition_fields in Htype.
  eapply type_check_state_transition_loop_state; eauto.
  apply mem_keys; unfold mem; unfold getitem in Hsid.
  destruct (lookup "state_id" _); [reflexivity | discriminate].
Qed.

(** One event more: its delta is added last. *)
Lemma deltas_added_snoc (sel : string -> bool) (total : Q) (e0 e : event)
    (evs : list event) :
  deltas_added sel total e0 (evs ++ [e])
  = if sel (snd (last evs e0))
    then float_add (deltas_added sel total e0 evs) (delta (fst (last evs e0)) (fst e))
    else deltas_added sel total e0 evs.
Proof.
  revert total e0; induction evs as [|e1 evs IH]; intros total e0.
  - reflexivity.
  - cbn [app deltas_added]; rewrite IH, last_cons_default; reflexivity.
Qed.

Lemma accepted_steps_snoc (e0 e : event) (evs : list event) :
  accepted_steps e0 evs ->
  comparable (fst (last evs e0)) (fst e) ->
  instant (fst (last evs e0)) < instant (fst e) \/ snd (last evs e0) = "task_initialized" ->
  In (snd (last evs e0), snd e) valid_state_transitions ->
  accepted_steps e0 (evs ++ [e]).
Proof.
  revert e0; induction evs as [|e1 evs IH]; intros e0 Hacc Hkind Horder Hedge.
  - cbn in *; auto.
  - destruct Hacc as (H0 & H1 & H2 & Hacc); cbn [app accepted_steps].
    rewrite last_cons_default in Hkind, Horder, Hedge; auto.
Qed.

Lemma session_lines_snoc (k : string) (vs : list validated) (v : validated) :
  session_lines k (vs ++ [v])
  = if String.eqb (identifier_of v) k then (session_lines k vs ++ [v])%list
    else session_lines k vs.
Proof.
  unfold session_lines; rewrite filter_app; cbn [filter].
  destruct (String.eqb (identifier_of v) k); [reflexivity | apply app_nil_r].
Qed.

Lemma tracks_empty : tracks ([], []) [].
Proof. intros k; unfold tracks_session; cbn; auto. Qed.

(** One accepted line: the state tracks one line more. *)
Lemma track_session_tracks (fn : string) (st st' : reducer_state) (l : nat)
    (json_in : json_object) (v : validated) (vs : list validated) :
  validated_line fn l json_in = OK v ->
  track_session fn st l v = OK st' ->
  tracks st vs ->
  tracks st' (vs ++ [v]).
Proof.
  intros Hline Htrack Htracks.
  destruct (validated_line_state fn l json_in v Hline) as (sv & Hsv & _).
  destruct v as [[[j k] utc] state_id]; destruct st as [sts sessions].
  cbn [state_of snd] in Hsv; subst state_id.
  destruct (validated_line_ok _ _ _ _ _ _ _ Hline) as (_ & Hk & Hsid).
  pose proof (Htracks k) as Hmine; unfold tracks_session in Hmine.
  assert (Hothers : forall pv sv',
             st' = (insert k pv sts, insert k sv' sessions) ->
             forall k', k' <> k -> tracks_session st' (vs ++ [(j, k, utc, VStr sv)]) k').
  { intros pv sv' -> k' Hne.
    unfold tracks_session, timeline; rewrite session_lines_snoc; cbn [identifier_of fst snd].
    destruct (String.eqb_spec k k') as [|_]; [congruence |].
    cbn [fst snd]; rewrite !lookup_insert_ne by auto.
    exact (Htracks k'). }
  destruct (lookup k sts) as [p|] eqn:Hp.
  - (* a later line of its session *)
    destruct (session_lines k vs) as [|v0 tl] eqn:Hlines;
      [destruct Hmine as [Hnone _]; cbn [fst] in Hnone; congruence |].
    destruct Hmine as (Hacc & l0 & s & Hp' & Hs & Ht & Hpull & Hpush & Hstart & Htrans).
    cbn [fst snd] in Hp', Hs; rewrite Hp in Hp'; inversion Hp'; subst p; clear Hp'.
    rewrite (track_session_seen fn l j k utc (VStr sv) sts sessions _ s Hp Hs) in Htrack.
    cbn [seen prev_utc_timestamp prev_state_id prev_line_no] in Htrack.
    apply bind_ok in Htrack as ([] & Horder & Htrack).
    apply bind_ok in Htrack as ([] & Hedge & Htrack).
    apply verify_timestamps_inorder_ok in Horder as [Hkind Horder].
    apply verify_state_transition_valid_ok in Hedge as (a & b & Ha & Hb & Hedge).
    inversion Ha; inversion Hb; subst a b; clear Ha Hb.
    inversion Htrack; subst st'; clear Htrack.
    intros k'; destruct (String.eqb_spec k' k) as [->|Hne];
      [| eapply Hothers; eauto].
    clear Hothers Htracks.
    unfold tracks_session, timeline; rewrite session_lines_snoc;
      cbn [identifier_of fst snd].
    rewrite String.eqb_refl, Hlines; cbn [app].
    unfold timeline in Hacc; rewrite Hlines in Hacc.
    cbn [map] in Hacc |- *; rewrite !map_app; cbn [map].
    set (e := event_of (j, k, utc, VStr sv)).
    set (e0 := event_of v0) in *.
    set (evs := map event_of tl) in *.
    destruct Hacc as [Hinit Hsteps].
    split.
    + split; auto; apply accepted_steps_snoc; auto.
      destruct Horder as [Hlt|Hprev]; [left; exact Hlt | right].
      unfold initial_state_id in Hprev; now inversion Hprev.
    + exists l, (append_transition j
                   (add_elapsed (seen (fst (last evs e0)) (VStr (snd (last evs e0))) l0)
                      (delta (fst (last evs e0)) utc) s)).
      cbn [fst snd]; rewrite !lookup_insert_eq.
      rewrite last_last; split; [reflexivity |]; split; [reflexivity |].
      unfold summarizes in *; cbn [map] in *; rewrite !map_app; cbn [map].
      fold e e0 evs in Ht, Hpull, Hpush, Hstart |- *.
      cbn [float_sum_deltas hd_error option_map append_transition add_elapsed task_total_time
           km_pull_total_time km_push_total_time task_start_time state_transitions
           seen prev_state_id] in *.
      rewrite !value_eqb_str_str, !deltas_added_snoc.
      change (fst e) with utc.
      split; [rewrite Ht; reflexivity |].
      split.
      { destruct (String.eqb _ "km_pull_activity"); rewrite Hpull; reflexivity. }
      split.
      { destruct (String.eqb _ "km_push_activity"); rewrite Hpush; reflexivity. }
      split; [exact Hstart |].
      rewrite Htrans; reflexivity.
  - (* the first line of its session *)
    destruct (session_lines k vs) as [|v0 tl] eqn:Hlines.
    2:{ destruct Hmine as (_ & l0 & s & Hp' & _); cbn [fst] in Hp'; congruence. }
    destruct (track_session_new fn l j k utc (VStr sv) sts sessions Hp Hk Hsid)
      as (subject & cond & task & _ & _ & _ & Hnew).
    rewrite Hnew, value_eqb_str_str in Htrack.
    destruct (String.eqb_spec sv "task_initialized") as [->|]; [| discriminate].
    inversion Htrack; subst st'; clear Htrack.
    intros k'; destruct (String.eqb_spec k' k) as [->|Hne];
      [| eapply Hothers; eauto].
    unfold tracks_session, timeline; rewrite session_lines_snoc;
      cbn [identifier_of fst snd].
    rewrite String.eqb_refl, Hlines; cbn [app map last].
    split; [split; [reflexivity | exact I] |].
    exists l, (append_transition j (fresh_session subject cond task utc)).
    cbn [fst snd]; rewrite !lookup_insert_eq.
    split; [reflexivity |]; split; [reflexivity |].
    unfold summarizes; cbn; repeat split; reflexivity.
Qed.

Lemma state_transitions_loop_tracks (fn : string) :
  forall (lines : list json_object) (l : nat) (st st' : reducer_state)
         (done : list validated),
    state_transitions_loop fn lines l st = OK st' ->
    tracks st done ->
    exists vs, validated_lines fn l lines vs /\ tracks st' (done ++ vs).
Proof.
  induction lines as [|json_in lines IH]; intros l st st' done Hloop Htracks.
  - inversion Hloop; subst; exists []; rewrite app_nil_r; cbn; auto.
  - cbn [state_transitions_loop] in Hloop.
    apply bind_ok in Hloop as (st1 & Hstep & Hloop).
    unfold state_transitions_step in Hstep.
    apply bind_ok in Hstep as (v & Hline & Htrack).
    pose proof (track_session_tracks fn st st1 l json_in v done Hline Htrack Htracks) as H1.
    destruct (IH (S l) st1 st' (done ++ [v])%list Hloop H1) as (vs & Hvs & Htracks').
    exists (v :: vs); split; [cbn; auto |].
    now rewrite <- app_assoc in Htracks'.
Qed.

Lemma lookup_map_snd {V W : Type} (g : V -> W) (k : string) (d : dict V) :
  lookup k (map (fun kv => (fst kv, g (snd kv))) d) = option_map g (lookup k d).
Proof.
  induction d as [|[k0 v0] d IH]; simpl; auto.
  destruct (String.eqb k k0); auto.
Qed.

Lemma edge_target_not_initial (a b : string) :
  In (a, b) valid_state_transitions -> b <> "task_initialized".
Proof.
  unfold valid_state_transitions; cbn [In]; intros H.
  repeat (destruct H as [H|H]; [inversion H; discriminate |]); destruct H.
Qed.

(** The nearest float of a number that is not negative is not negative. *)
Lemma nearest_nonneg (q : Q) :
  rounds_to_nearest -> (0 <= q)%Q -> (0 <= nearest q)%Q.
Proof.
  intros [Hwhole Hmono] Hq.
  assert (H0 : nearest 0 == 0) by (apply (Hwhole 0%Q 0); [reflexivity | cbn; lia]).
  rewrite <- H0; now apply Hmono.
Qed.

Lemma delta_nonneg (a b : datetime) :
  rounds_to_nearest -> instant a <= instant b -> (0 <= delta a b)%Q.
Proof.
  intros Hround Hle; unfold delta, total_seconds; apply nearest_nonneg; auto.
  unfold Qle; cbn; lia.
Qed.

Lemma float_add_nonneg (total elapsed_time : Q) :
  rounds_to_nearest -> (0 <= total)%Q -> (0 <= elapsed_time)%Q ->
  (0 <= float_add total elapsed_time)%Q.
Proof. intros Hround Ht He; unfold float_add; apply nearest_nonneg; auto; lra. Qed.

(** Past the first step of a session, every delta is positive. *)
Lemma deltas_added_nonneg (sel : string -> bool) (e : event) (evs : list event) (total : Q) :
  rounds_to_nearest ->
  accepted_steps e evs -> snd e <> "task_initialized" ->
  (0 <= total)%Q ->
  (0 <= deltas_added sel total e evs)%Q.
Proof.
  intros Hround; revert e total; induction evs as [|e1 evs IH]; intros e total Hacc Hne Htotal;
    cbn [deltas_added]; auto.
  destruct Hacc as (_ & [Hlt|Hinit] & Hedge & Hacc); [| contradiction].
  apply IH; auto; [exact (edge_target_not_initial _ _ Hedge) |].
  destruct (sel (snd e)); auto.
  apply float_add_nonneg; auto; apply delta_nonneg; auto; lia.
Qed.

(** The deltas that follow an activity are positive: the state before them
    is not [task_initialized]. *)
Lemma activity_deltas_nonneg (activity : string) (e : event) (evs : list event) (total : Q) :
  rounds_to_nearest ->
  activity <> "task_initialized" ->
  accepted_steps e evs ->
  (0 <= total)%Q ->
  (0 <= deltas_added (fun st => String.eqb st activity) total e evs)%Q.
Proof.
  intros Hround Hactivity Hacc Htotal.
  destruct evs as [|e1 evs]; cbn [deltas_added]; auto.
  destruct Hacc as (_ & Horder & Hedge & Hacc).
  apply deltas_added_nonneg; auto; [exact (edge_target_not_initial _ _ Hedge) |].
  destruct (String.eqb_spec (snd e) activity) as [Heq|_]; auto.
  destruct Horder as [Hlt|Hinit]; [| congruence].
  apply float_add_nonneg; auto; apply delta_nonneg; auto; lia.
Qed.

(** X1: every file the loader accepts, its sessions interleaved or not: each
    session starts at [task_initialized], goes through accepted steps and
    ends at [task_conclusion]; the entry returned for it binds the start time
    to its first timestamp, the three totals to the float sums of the deltas
    of its own lines, and [state_transitions] to its lines; the two KM
    totals are never negative, and the task total is not when the second
    line of the session is not stamped before the first. *)
Theorem accepted_file_records_sum_their_own_session :
  forall (fn : string) (lines : list json_object) (fc : dict record),
    load_state_transitions_file fn lines = OK fc ->
    exists vs,
      validated_lines fn 1 lines vs
      /\ forall k,
           match timeline k vs with
           | [] => lookup k fc = None
           | e0 :: rest =>
               exists r total pull push,
                 lookup k fc = Some r
                 /\ entry_totals r (fst e0) total pull push
                 /\ total = float_sum_deltas (fun _ => true) (e0 :: rest)
                 /\ pull = float_sum_deltas (fun st => String.eqb st "km_pull_activity")
                             (e0 :: rest)
                 /\ push = float_sum_deltas (fun st => String.eqb st "km_push_activity")
                             (e0 :: rest)
                 /\ lookup "state_transitions" r
                    = Some (FTransitions (map line_of (session_lines k vs)))
                 /\ snd e0 = "task_initialized"
                 /\ accepted_steps e0 rest
                 /\ snd (last rest e0) = "task_conclusion"
                 /\ (rounds_to_nearest ->
                     (0 <= pull)%Q /\ (0 <= push)%Q
                     /\ ((forall e1 tl, rest = e1 :: tl ->
                                        instant (fst e0) <= instant (fst e1)) ->
                         (0 <= total)%Q))
           end.
Proof.
  intros fn lines fc Hload.
  assert (Hloop : exists st, state_transitions_loop fn lines 1 ([], []) = OK st).
  { unfold load_state_transitions_file, reduce_state_transitions in Hload.
    destruct (state_transitions_loop fn lines 1 ([], [])) as [st|e]; [eauto | discriminate]. }
  destruct Hloop as [st Hloop].
  destruct (state_transitions_loop_tracks fn lines 1 _ st [] Hloop tracks_empty)
    as (vs & Hvs & Htracks); cbn [app] in Htracks.
  destruct (final_check_decides fn lines st Hloop) as [[Hlast Hfc]|(k & p & _ & _ & Herr)];
    [| rewrite Herr in Hload; discriminate].
  rewrite Hfc in Hload; inversion Hload; subst fc; clear Hload Hfc.
  exists vs; split; [exact Hvs |].
  intros k; specialize (Htracks k); unfold tracks_session in Htracks.
  unfold timeline in *; rewrite lookup_map_snd.
  destruct (session_lines k vs) as [|v0 tl]; cbn [map].
  - destruct Htracks as [_ Hnone]; now rewrite Hnone.
  - destruct Htracks as ([Hinit Hacc] & l & s & Hp & Hs & Hsum).
    destruct Hsum as (Ht & Hpull & Hpush & Hstart & Htrans).
    cbn [map hd_error option_map] in Ht, Hpull, Hpush, Hstart, Htrans.
    injection Hstart as Hstart.
    destruct (session_record_totals s) as (Htotals & Hlines & _).
    exists (session_record s), (task_total_time s), (km_pull_total_time s),
      (km_push_total_time s).
    rewrite Hs; split; [reflexivity |].
    split; [rewrite Hstart in Htotals; exact Htotals |].
    split; [exact Ht |]; split; [exact Hpull |]; split; [exact Hpush |].
    split; [rewrite Hlines, Htrans; reflexivity |].
    split; [exact Hinit |]; split; [exact Hacc |].
    split.
    { pose proof (Hlast k _ Hp) as Hc; cbn [seen prev_state_id] in Hc.
      now injection Hc. }
    intros Hround.
    cbn [float_sum_deltas] in Ht, Hpull, Hpush.
    split; [rewrite Hpull; apply activity_deltas_nonneg; auto; [discriminate | lra] |].
    split; [rewrite Hpush; apply activity_deltas_nonneg; auto; [discriminate | lra] |].
    intros Hsecond; rewrite Ht.
    destruct (map event_of tl) as [|e1 rest]; cbn [deltas_added]; [lra |].
    destruct Hacc as (_ & _ & Hedge & Hacc).
    apply deltas_added_nonneg; auto; [exact (edge_target_not_initial _ _ Hedge) |].
    apply float_add_nonneg; auto; [lra |].
    apply delta_nonneg; auto.
    exact (Hsecond e1 rest eq_refl).
Qed.

Lemma legal_steps_middle (e0 e : event) (before after : list event) :
  legal_steps e0 (before ++ e :: after) ->
  comparable (fst (last before e0)) (fst e)
  /\ instant (fst (last before e0)) < instant (fst e)
  /\ In (snd (last before e0), snd e) specified_edges.
Proof.
  revert e0; induction before as [|e1 before IH]; intros e0 H.
  - destruct H as (Hkind & Hlt & Hedge & _); auto.
  - destruct H as (_ & _ & _ & H); rewrite last_cons_default; auto.
Qed.

Lemma session_lines_app (k : string) (vs ws : list validated) :
  session_lines k (vs ++ ws) = (session_lines k vs ++ session_lines k ws)%list.
Proof. unfold session_lines; apply filter_app. Qed.

(** A file whose sessions, interleaved or not, are all legal goes through
    the loop. *)
Lemma legal_sessions_loop (fn : string) :
  forall (lines : list json_object) (vs done : list validated) (l : nat)
         (st : reducer_state),
    validated_lines fn l lines vs ->
    tracks st done ->
    (forall k, timeline k (done ++ vs) = [] \/ legal_sequence (timeline k (done ++ vs))) ->
    exists st', state_transitions_loop fn lines l st = OK st'.
Proof.
  induction lines as [|json_in lines IH]; intros vs done l st Hvs Htracks Hlegal.
  - exists st; reflexivity.
  - destruct vs as [|v vs]; [destruct Hvs |]; destruct Hvs as [Hline Hvs].
    cbn [state_transitions_loop]; unfold state_transitions_step; rewrite Hline; cbn [bind].
    assert (Hstep : exists st1, track_session fn st l v = OK st1).
    { destruct (validated_line_state fn l json_in v Hline) as (sv & Hsv & _).
      destruct v as [[[j k] utc] state_id]; destruct st as [sts sessions].
      cbn [state_of snd] in Hsv; subst state_id.
      destruct (validated_line_ok _ _ _ _ _ _ _ Hline) as (_ & Hk & Hsid).
      pose proof (Htracks k) as Hmine; unfold tracks_session in Hmine.
      specialize (Hlegal k); unfold timeline in Hlegal.
      rewrite session_lines_app in Hlegal; cbn [session_lines filter identifier_of fst snd]
        in Hlegal.
      rewrite String.eqb_refl, map_app in Hlegal; cbn [map] in Hlegal.
      fold (session_lines k vs) in Hlegal.
      destruct (session_lines k done) as [|v0 tl] eqn:Hlines.
      - destruct Hmine as [Hnone _]; cbn [fst] in Hnone.
        destruct (track_session_new fn l j k utc (VStr sv) sts sessions Hnone Hk Hsid)
          as (subject & cond & task & _ & _ & _ & Hnew).
        rewrite Hnew, value_eqb_str_str.
        cbn [map app] in Hlegal; destruct Hlegal as [Hnil|(Hinit & _)]; [discriminate |].
        cbn [event_of state_of state_name fst snd] in Hinit; subst sv.
        cbn [String.eqb Ascii.eqb Bool.eqb]; eauto.
      - destruct Hmine as (_ & l0 & s & Hp & Hs & _); cbn [fst snd] in Hp, Hs.
        rewrite (track_session_seen fn l j k utc (VStr sv) sts sessions _ s Hp Hs).
        cbn [seen prev_utc_timestamp prev_state_id prev_line_no map app] in Hlegal |- *.
        destruct Hlegal as [Hnil|(_ & Hsteps & _)]; [discriminate |].
        apply legal_steps_middle in Hsteps as (Hkind & Hlt & Hedge).
        cbn [event_of state_of state_name fst snd] in Hkind, Hlt, Hedge.
        replace (verify_timestamps_inorder _ _ _ _ _ _) with (OK tt)
          by (symmetry; apply verify_timestamps_inorder_ok; split; [exact Hkind | left; exact Hlt]).
        replace (verify_state_transition_valid _ _ _ _ _) with (OK tt).
        2:{ symmetry; apply verify_state_transition_valid_ok.
            eexists _, sv; repeat split; now apply valid_state_transitions_specified. }
        cbn [bind]; eauto. }
    destruct Hstep as [st1 Hstep]; rewrite Hstep; cbn [bind].
    apply (IH vs (done ++ [v])%list (S l) st1 Hvs).
    + eapply track_session_tracks; eauto.
    + intros k; rewrite <- app_assoc; apply Hlegal.
Qed.

(** X2: a file whose sessions, interleaved or not, are all legal event
    sequences (their timestamps comparable and strictly increasing) loads,
    and the entry returned for each session binds the three totals to the
    float sums of the deltas of its own lines. *)
Theorem legal_interleaved_sessions_load :
  forall (fn : string) (lines : list json_object) (vs : list validated),
    validated_lines fn 1 lines vs ->
    (forall k, timeline k vs = [] \/ legal_sequence (timeline k vs)) ->
    exists fc,
      load_state_transitions_file fn lines = OK fc
      /\ forall k,
           match timeline k vs with
           | [] => lookup k fc = None
           | e0 :: rest =>
               exists r,
                 lookup k fc = Some r
                 /\ entry_totals r (fst e0)
                      (float_sum_deltas (fun _ => true) (e0 :: rest))
                      (float_sum_deltas (fun st => String.eqb st "km_pull_activity")
                         (e0 :: rest))
                      (float_sum_deltas (fun st => String.eqb st "km_push_activity")
                         (e0 :: rest))
                 /\ lookup "state_transitions" r
                    = Some (FTransitions (map line_of (session_lines k vs)))
           end.
Proof.
  intros fn lines vs Hvs Hlegal.
  destruct (legal_sessions_loop fn lines vs [] 1 ([], []) Hvs tracks_empty Hlegal)
    as [st Hloop].
  destruct (state_transitions_loop_tracks fn lines 1 _ st [] Hloop tracks_empty)
    as (vs' & Hvs' & Htracks); cbn [app] in Htracks.
  rewrite (validated_lines_functional fn lines 1 vs' vs Hvs' Hvs) in Htracks.
  destruct (final_check_decides fn lines st Hloop) as [[_ Hfc]|(k & p & Hp & Hne & _)].
  - exists (map (fun ks => (fst ks, session_record (snd ks))) (snd st)); split; [exact Hfc |].
    intros k; specialize (Htracks k); unfold tracks_session in Htracks.
    unfold timeline; rewrite lookup_map_snd.
    destruct (session_lines k vs) as [|v0 tl]; cbn [map].
    + destruct Htracks as [_ Hnone]; now rewrite Hnone.
    + destruct Htracks as (_ & l & s & _ & Hs & Ht & Hpull & Hpush & Hstart & Htrans).
      cbn [map hd_error option_map] in Ht, Hpull, Hpush, Hstart, Htrans.
      injection Hstart as Hstart.
      destruct (session_record_totals s) as (Htotals & Hlines & _).
      exists (session_record s); rewrite Hs; split; [reflexivity |].
      rewrite Ht, Hpull, Hpush, Hstart in Htotals; split; [exact Htotals |].
      rewrite Hlines, Htrans; reflexivity.
  - exfalso; apply Hne.
    specialize (Htracks k); unfold tracks_session in Htracks.
    specialize (Hlegal k); unfold timeline in Hlegal.
    destruct (session_lines k vs) as [|v0 tl].
    + destruct Htracks as [Hnone _]; congruence.
    + destruct Htracks as (_ & l & s & Hp' & _).
      rewrite Hp in Hp'; inversion Hp'; subst p; cbn [seen prev_state_id].
      cbn [map] in Hlegal; destruct Hlegal as [Hnil|(_ & _ & Hlast)]; [discriminate |].
      now rewrite Hlast.
Qed.

(** *** The file name only shows in errors *)

Lemma same_outcome_refl {A : Type} (r : result A) : same_outcome r r.
Proof. destruct r; simpl; auto. Qed.

Lemma same_outcome_bind {A B : Type} (r r' : result A) (k k' : A -> result B) :
  same_outcome r r' -> (forall a, same_outcome (k a) (k' a)) ->
  same_outcome (bind r k) (bind r' k').
Proof.
  destruct r as [a|e], r' as [a'|e']; simpl; intros H Hk; try contradiction; auto.
  subst; apply Hk.
Qed.

Lemma same_outcome_raise_if (c : bool) (e e' : error) :
  same_outcome (raise_if c e) (raise_if c e').
Proof. destruct c; simpl; auto. Qed.

Lemma same_outcome_ok {A : Type} (r r' : result A) (a : A) :
  same_outcome r r' -> r = OK a -> r' = OK a.
Proof. destruct r, r'; simpl; intros H Heq; try contradiction; congruence. Qed.

Ltac same_outcome_step :=
  first [ apply same_outcome_refl
        | apply same_outcome_raise_if
        | apply same_outcome_bind; [| intros ? ] ].

Lemma fields_present_same (attrs : list string) (input : json_object) (l l' : nat)
    (fn fn' : string) :
  same_outcome (fields_present attrs input l fn) (fields_present attrs input l' fn').
Proof.
  induction attrs as [|a attrs IH]; cbn [fields_present]; repeat same_outcome_step; auto.
Qed.

Lemma type_check_state_transition_loop_same (attrs : list string) (input : json_object)
    (l l' : nat) (fn fn' : string) :
  same_outcome (type_check_state_transition_loop attrs input l fn)
               (type_check_state_transition_loop attrs input l' fn').
Proof.
  induction attrs as [|a attrs IH]; cbn [type_check_state_transition_loop];
    repeat same_outcome_step; auto.
  destruct (String.eqb a "state_id"); [same_outcome_step |].
  destruct (String.eqb a "condition"); [same_outcome_step |].
  destruct (lookup a state_transition_schema); repeat same_outcome_step.
Qed.

Lemma type_check_subject_task_loop_same (attrs : list string) (input : json_object)
    (l l' : nat) (fn fn' : string) :
  same_outcome (type_check_subject_task_loop attrs input l fn)
               (type_check_subject_task_loop attrs input l' fn').
Proof.
  induction attrs as [|a attrs IH]; cbn [type_check_subject_task_loop];
    repeat same_outcome_step; auto.
  destruct (String.eqb a "condition"); [same_outcome_step |].
  destruct (lookup a subject_task_schema); repeat same_outcome_step.
Qed.

Lemma validated_line_same (fn fn' : string) (l : nat) (json_in : json_object) :
  same_outcome (validated_line fn l json_in) (validated_line fn' l json_in).
Proof.
  unfold validated_line, verify_all_state_transition_fields_present,
    type_check_state_transition_fields.
  apply same_outcome_bind; [apply fields_present_same | intros _].
  repeat (apply same_outcome_bind; [apply same_outcome_refl | intros ?]).
  apply same_outcome_bind; [apply type_check_state_transition_loop_same | intros _].
  apply same_outcome_refl.
Qed.

Lemma track_session_same (fn fn' : string) (st : reducer_state) (l : nat) (v : validated) :
  same_outcome (track_session fn st l v) (track_session fn' st l v).
Proof.
  destruct st as [sts sessions]; destruct v as [[[j k] utc] state_id].
  unfold track_session.
  apply same_outcome_bind; [| intros ?; apply same_outcome_refl].
  destruct (lookup k sts) as [p|].
  - unfold verify_timestamps_inorder, verify_state_transition_valid;
      repeat same_outcome_step.
  - repeat (apply same_outcome_bind; [apply same_outcome_refl | intros ?]).
    apply same_outcome_bind; [| intros ?; apply same_outcome_refl].
    unfold verify_first_state_is_task_initialized; repeat same_outcome_step.
Qed.

Lemma state_transitions_loop_same (fn fn' : string) (lines : list json_object) :
  forall l st,
    same_outcome (state_transitions_loop fn lines l st)
                 (state_transitions_loop fn' lines l st).
Proof.
  induction lines as [|json_in lines IH]; intros l st; cbn [state_transitions_loop].
  - apply same_outcome_refl.
  - apply same_outcome_bind; [| intros ?; apply IH].
    unfold state_transitions_step.
    apply same_outcome_bind; [apply validated_line_same | intros ?; apply track_session_same].
Qed.

Lemma verify_last_states_same (fn fn' : string) (sts : dict previous_state)
    (entries : list (string * session)) :
  same_outcome (verify_last_states fn sts entries) (verify_last_states fn' sts entries).
Proof.
  induction entries as [|[k s] entries IH]; cbn [verify_last_states].
  - apply same_outcome_refl.
  - apply same_outcome_bind; [apply same_outcome_refl | intros p].
    apply same_outcome_bind; [| intros ?; apply IH].
    unfold verify_last_state_is_task_conclusion.
    destruct (rev (state_transitions s)); repeat same_outcome_step.
Qed.

Lemma load_state_transitions_file_same (fn fn' : string) (lines : list json_object) :
  same_outcome (load_state_transitions_file fn lines)
               (load_state_transitions_file fn' lines).
Proof.
  unfold load_state_transitions_file, reduce_state_transitions.
  apply same_outcome_bind; [| intros ?; apply same_outcome_refl].
  apply same_outcome_bind; [apply state_transitions_loop_same | intros st].
  apply same_outcome_bind; [apply verify_last_states_same | intros ?; apply same_outcome_refl].
Qed.

Lemma subject_task_loop_same (fn fn' : string) (lines : list json_object) :
  forall l acc,
    same_outcome (subject_task_loop fn lines l acc) (subject_task_loop fn' lines l acc).
Proof.
  induction lines as [|json_in lines IH]; intros l acc; cbn [subject_task_loop].
  - apply same_outcome_refl.
  - apply same_outcome_bind; [| intros ?; apply IH].
    unfold subject_task_step, verify_all_subject_task_fields_present,
      type_check_subject_task_fields.
    apply same_outcome_bind; [apply fields_present_same | intros _].
    repeat (apply same_outcome_bind; [apply same_outcome_refl | intros ?]).
    apply same_outcome_bind; [apply type_check_subject_task_loop_same | intros _].
    apply same_outcome_refl.
Qed.

(** Whether and what a file loads does not depend on the path it is read
    from. *)
Lemma load_jsonl_file_same (fn fn' : string) (lines : list json_object) :
  same_outcome (load_jsonl_file fn lines) (load_jsonl_file fn' lines).
Proof.
  unfold load_jsonl_file; destruct lines as [|first lines]; [exact I |].
  pose proof (fields_present_same (keys subject_task_schema) first 1 1 fn fn') as H1.
  pose proof (fields_present_same (keys state_transition_schema) first 1 1 fn fn') as H2.
  unfold verify_all_subject_task_fields_present, verify_all_state_transition_fields_present.
  destruct (fields_present (keys subject_task_schema) first 1 fn),
           (fields_present (keys subject_task_schema) first 1 fn');
    simpl in H1; try contradiction.
  - apply subject_task_loop_same.
  - destruct (fields_present (keys state_transition_schema) first 1 fn),
             (fields_present (keys state_transition_schema) first 1 fn');
      simpl in H2; try contradiction.
    + apply load_state_transitions_file_same.
    + exact I.
Qed.

(** *** The directory reconciler *)

Lemma float_safe_at_float (attr : string) (r : record) (q : Q) :
  lookup attr r = Some (FVal (VFloat q)) -> float_safe_at attr r.
Proof. intros H v Hv; rewrite H in Hv; inversion Hv; exact I. Qed.

Lemma lookup_app {V : Type} (k : string) (d1 d2 : dict V) :
  lookup k (d1 ++ d2)
  = match lookup k d1 with Some v => Some v | None => lookup k d2 end.
Proof.
  induction d1 as [|[k0 v0] d1 IH]; simpl; auto.
  destruct (String.eqb k k0); auto.
Qed.

Lemma lookup_not_in_keys {V : Type} (k : string) (d : dict V) :
  ~ In k (keys d) -> lookup k d = None.
Proof.
  intros H; destruct (lookup k d) eqn:E; auto.
  exfalso; apply H, mem_keys, mem_lookup; eauto.
Qed.

Lemma lookup_stamped (filename k : string) (fc : dict record) :
  lookup k (stamped filename fc)
  = option_map (insert "file_source" (FVal (VStr filename))) (lookup k fc).
Proof.
  induction fc as [|[k0 r0] fc IH]; simpl; auto.
  destruct (String.eqb k k0); auto.
Qed.

Lemma remove_insert {V : Type} (k : string) (v : V) (d : dict V) :
  remove k (insert k v d) = remove k d.
Proof.
  induction d as [|[k0 v0] d IH]; simpl.
  - now rewrite String.eqb_refl.
  - destruct (String.eqb_spec k k0) as [->|Hne]; simpl.
    + now rewrite String.eqb_refl.
    + destruct (String.eqb_spec k k0); [congruence | simpl; now rewrite IH].
Qed.

Lemma mem_insert_ne {V : Type} (k k' : string) (v : V) (d : dict V) :
  k <> k' -> mem k (insert k' v d) = mem k d.
Proof. intros H; unfold mem; now rewrite lookup_insert_ne. Qed.

Lemma mem_insert_eq {V : Type} (k : string) (v : V) (d : dict V) :
  mem k (insert k v d) = true.
Proof. unfold mem; now rewrite lookup_insert_eq. Qed.

Lemma getitem_insert_ne {V : Type} (k k' : string) (v : V) (d : dict V) :
  k <> k' -> getitem k (insert k' v d) = getitem k d.
Proof. intros H; unfold getitem; now rewrite lookup_insert_ne. Qed.

Lemma getitem_insert_eq {V : Type} (k : string) (v : V) (d : dict V) :
  getitem k (insert k v d) = OK v.
Proof. unfold getitem; now rewrite lookup_insert_eq. Qed.

(** A new session key: the entry is stored with its provenance. *)
Lemma merge_file_fresh (filename : string) :
  forall (fc c : dict record) (w : list warning),
    NoDup (keys fc) ->
    (forall k, In k (keys fc) -> lookup k c = None) ->
    merge_file filename fc (c, w) = OK ((c ++ stamped filename fc)%list, w).
Proof.
  induction fc as [|[k r] fc IH]; intros c w Hnd Hnew; cbn [merge_file stamped map].
  - now rewrite app_nil_r.
  - inversion Hnd as [|? ? Hnotin Hnd']; subst.
    unfold merge_entry; rewrite (Hnew k) by (left; auto); cbn [bind fst snd].
    rewrite lookup_none_insert_app by (apply Hnew; left; auto).
    rewrite IH; auto.
    + unfold stamped; now rewrite <- app_assoc.
    + intros k' Hin; rewrite lookup_app, (Hnew k') by (right; auto).
      cbn [lookup]; destruct (String.eqb_spec k' k); [congruence | reflexivity].
Qed.

(** The normal form of the comparison with a recorded entry. *)
Lemma merge_entry_seen (filename entry : string) (c : dict record) (w : list warning)
    (recorded new_entry : record) (rt rk nt nk : Q) (recorded_file : field) :
  lookup entry c = Some recorded ->
  reports_times recorded rt rk ->
  reports_times new_entry nt nk ->
  getitem "file_source" recorded = OK recorded_file ->
  merge_entry filename (c, w) entry new_entry
  = let warnings :=
      (w ++ consistency_warnings entry rt nt rk nk (format_field recorded_file) filename)%list in
    if mem "state_transitions" recorded && negb (mem "state_transitions" new_entry) then
      transitions <- getitem "state_transitions" recorded ;;
      OK (insert entry (insert "file_source" (FVal (VStr filename))
                          (insert "state_transitions" transitions new_entry)) c,
          warnings)
    else if mem "state_transitions" new_entry && negb (mem "state_transitions" recorded) then
      transitions <- getitem "state_transitions" new_entry ;;
      OK (insert entry (insert "state_transitions" transitions recorded) c, warnings)
    else if mem "state_transitions" new_entry && mem "state_transitions" recorded then
      comparable_contents <- delitem "file_source" recorded ;;
      raise_if (negb (record_eqb new_entry comparable_contents))
               (ConflictingStateTransitions entry (format_field recorded_file) filename) ;;;
      OK (c, warnings)
    else if negb (mem "state_transitions" new_entry)
            && negb (mem "state_transitions" recorded) then
      comparable_contents <- delitem "file_source" recorded ;;
      raise_if (negb (record_eqb new_entry comparable_contents))
               (ConflictingSubjectTask entry (format_field recorded_file) filename) ;;;
      OK (c, warnings)
    else OK (c, warnings).
Proof.
  intros Hrec (ft & fk & Hft & Hrt & Hfk & Hrk) (gt & gk & Hgt & Hnt & Hgk & Hnk) Hfile.
  unfold merge_entry; rewrite Hrec, Hft, Hfk, Hfile, Hgt, Hgk; cbn [bind].
  rewrite Hrt, Hnt; cbn [bind]; rewrite Hrk, Hnk; cbn [bind].
  unfold consistency_warnings.
  destruct (negb (Qle_bool (Qabs (rt - nt)) TIME_DIFFERENCE_THRESHOLD));
    destruct (negb (Qle_bool (Qabs (rk - nk)) TIME_DIFFERENCE_THRESHOLD));
    cbn [app]; rewrite <- ?app_assoc, ?app_nil_r; reflexivity.
Qed.

Lemma within_tolerance_no_warning (entry : string) (rt nt rk nk : Q) (rf nf : string) :
  (Qabs (rt - nt) <= TIME_DIFFERENCE_THRESHOLD)%Q ->
  (Qabs (rk - nk) <= TIME_DIFFERENCE_THRESHOLD)%Q ->
  consistency_warnings entry rt nt rk nk rf nf = [].
Proof.
  intros H1 H2; unfold consistency_warnings.
  apply Qle_bool_iff in H1, H2; rewrite H1, H2; reflexivity.
Qed.

(** [==] is reflexive on what the program compares, when it is on what JSON
    lists and objects hold. *)
Lemma value_eqb_refl (v : value) :
  (forall p, payload_eqb p p = true) -> value_eqb v v = true.
Proof.
  intros Hp; destruct v as [|b|z|q|s|p|p|t]; unfold value_eqb; simpl;
    auto using Qeq_bool_refl, String.eqb_refl, Z.eqb_refl.
  unfold datetime_eqb; now rewrite Bool.eqb_reflx, Z.eqb_refl.
Qed.

Lemma field_eqb_refl (f : field) :
  (forall p, payload_eqb p p = true) -> field_eqb f f = true.
Proof.
  intros Hp; destruct f as [v|l]; simpl; [now apply value_eqb_refl |].
  rewrite Nat.eqb_refl; simpl.
  induction l as [|x l IH]; simpl; auto.
  rewrite IH, andb_true_r.
  apply dict_eqb_ext; auto; intros v; now apply value_eqb_refl.
Qed.

(** An entry is [==] to what is left of its stamped copy once the provenance
    is deleted. *)
Lemma record_eqb_stamped (r : record) (v : field) :
  (forall p, payload_eqb p p = true) ->
  lookup "file_source" r = None ->
  record_eqb r (remove "file_source" (insert "file_source" v r)) = true.
Proof.
  intros Hp Hnone; unfold record_eqb; apply dict_eqb_ext.
  - intros f; now apply field_eqb_refl.
  - intros k; rewrite remove_insert.
    destruct (String.eqb_spec k "file_source") as [->|Hne].
    + now rewrite lookup_remove_eq.
    + now rewrite lookup_remove_ne.
Qed.

Lemma subject_task_loop_NoDup (fn : string) (lines : list json_object) :
  forall l acc fc,
    subject_task_loop fn lines l acc = OK fc -> NoDup (keys acc) -> NoDup (keys fc).
Proof.
  induction lines as [|json_in lines IH]; intros l acc fc H Hnd; cbn [subject_task_loop] in H.
  - inversion H; subst; auto.
  - apply bind_ok in H as (acc1 & Hstep & Hloop).
    apply (IH _ _ _ Hloop).
    unfold subject_task_step in Hstep.
    apply bind_ok in Hstep as (_ & _ & Hstep).
    apply bind_ok in Hstep as (? & _ & Hstep).
    apply bind_ok in Hstep as (? & _ & Hstep).
    apply bind_ok in Hstep as (_ & _ & Hstep).
    apply bind_ok in Hstep as (k & _ & Hstep).
    inversion Hstep; subst; now apply NoDup_keys_insert.
Qed.

Lemma keys_map_snd {V W : Type} (g : V -> W) (d : dict V) :
  keys (map (fun kv => (fst kv, g (snd kv))) d) = keys d.
Proof. unfold keys; rewrite map_map; reflexivity. Qed.

Lemma load_state_transitions_file_NoDup (fn : string) (lines : list json_object)
    (fc : dict record) :
  load_state_transitions_file fn lines = OK fc -> NoDup (keys fc).
Proof.
  unfold load_state_transitions_file, reduce_state_transitions; intros H.
  apply bind_ok in H as (sessions & H & Hfc).
  apply bind_ok in H as (st & Hloop & H).
  apply bind_ok in H as (_ & _ & H).
  inversion H; inversion Hfc; subst.
  rewrite keys_map_snd.
  destruct (state_transitions_loop_ok fn lines 1 _ st Hloop reducer_inv_empty)
    as (_ & _ & (Hnd & _) & _); exact Hnd.
Qed.

(** A loader's result holds every session key once. *)
Lemma load_jsonl_file_NoDup (fn : string) (lines : list json_object) (fc : dict record) :
  load_jsonl_file fn lines = OK fc -> NoDup (keys fc).
Proof.
  unfold load_jsonl_file; destruct lines as [|first lines]; [discriminate |].
  destruct (verify_all_subject_task_fields_present first 1 fn).
  - intros H; eapply subject_task_loop_NoDup; eauto; constructor.
  - destruct (verify_all_state_transition_fields_present first 1 fn); [| discriminate].
    apply load_state_transitions_file_NoDup.
Qed.

Lemma load_directory_step_jsonl (dir_name filename : string) (f : file)
    (st : directory_state) (fc : dict record) :
  splitext_ext filename = ".jsonl" ->
  load_jsonl_file (path_join dir_name filename) (file_lines f) = OK fc ->
  load_directory_step dir_name st filename f
  = merged <- merge_file filename fc (jsonl_contents st, printed st) ;;
    OK {| jsonl_contents := fst merged; printed := snd merged;
          csv_metadata := csv_metadata st |}.
Proof.
  intros Hext Hload; unfold load_directory_step.
  rewrite Hext, Hload; reflexivity.
Qed.

Lemma Qabs_self (q : Q) : (Qabs (q - q) <= TIME_DIFFERENCE_THRESHOLD)%Q.
Proof.
  assert (H : q - q == 0) by ring.
  rewrite H; unfold TIME_DIFFERENCE_THRESHOLD; cbn; discriminate.
Qed.

Lemma session_record_times (s : session) :
  reports_times (session_record s) (task_total_time s) (km_pull_total_time s).
Proof.
  exists (FVal (VFloat (task_total_time s))), (FVal (VFloat (km_pull_total_time s))).
  repeat split.
Qed.

Lemma stamped_times (r : record) (v : field) (t k : Q) :
  reports_times r t k -> reports_times (insert "file_source" v r) t k.
Proof.
  intros (ft & fk & Hft & Ht & Hfk & Hk); exists ft, fk.
  rewrite !getitem_insert_ne by discriminate; auto.
Qed.

(** The same transition-derived entry, met again: nothing changes, nothing
    is printed, nothing is raised. *)
Lemma merge_entry_same_session (n1 n2 entry : string) (c : dict record) (w : list warning)
    (s : session) :
  (forall p, payload_eqb p p = true) ->
  lookup entry c = Some (insert "file_source" (FVal (VStr n1)) (session_record s)) ->
  merge_entry n2 (c, w) entry (session_record s) = OK (c, w).
Proof.
  intros Hp Hrec.
  rewrite (merge_entry_seen n2 entry c w _ _
             (task_total_time s) (km_pull_total_time s)
             (task_total_time s) (km_pull_total_time s) (FVal (VStr n1)) Hrec
             (stamped_times _ _ _ _ (session_record_times s)) (session_record_times s)
             (getitem_insert_eq _ _ _)).
  rewrite within_tolerance_no_warning by apply Qabs_self.
  cbv zeta; rewrite app_nil_r.
  rewrite mem_insert_ne by discriminate.
  replace (mem "state_transitions" (session_record s)) with true by reflexivity.
  cbn [andb negb].
  unfold delitem; rewrite mem_insert_eq; cbn [bind].
  rewrite record_eqb_stamped by auto; reflexivity.
Qed.

Lemma merge_file_same_sessions (n1 n2 : string) (c : dict record) (w : list warning) :
  (forall p, payload_eqb p p = true) ->
  forall fc,
    (forall k r, In (k, r) fc ->
                 exists s, r = session_record s
                           /\ lookup k c = Some (insert "file_source" (FVal (VStr n1)) r)) ->
    merge_file n2 fc (c, w) = OK (c, w).
Proof.
  intros Hp; induction fc as [|[k r] fc IH]; intros Hall; cbn [merge_file]; auto.
  destruct (Hall k r (or_introl eq_refl)) as (s & -> & Hrec).
  rewrite (merge_entry_same_session n1 n2 k c w s Hp Hrec); cbn [bind].
  apply IH; intros k' r' Hin; apply Hall; right; auto.
Qed.

Lemma strip_stamped (n1 n2 : string) (fc : dict record) :
  map (fun kr => (fst kr, strip_provenance (snd kr))) (stamped n1 fc)
  = map (fun kr => (fst kr, strip_provenance (snd kr))) (stamped n2 fc).
Proof.
  unfold stamped, strip_provenance; rewrite !map_map; apply map_ext.
  intros [k r]; cbn [fst snd]; now rewrite !remove_insert.
Qed.

(** C7: a directory that holds two identical copies of a State-Transition
    file that loads reconciles, with no warning printed and no error raised,
    to exactly what the directory holding the first copy alone gives; and
    whichever copy is the one kept, the records are the same but for their
    provenance. *)
Theorem reconciling_two_identical_copies_is_idempotent :
  forall (dir_name n1 n2 : string) (f : file) (fc : dict record),
    (forall p, payload_eqb p p = true) ->
    splitext_ext n1 = ".jsonl" ->
    splitext_ext n2 = ".jsonl" ->
    load_jsonl_file (path_join dir_name n1) (file_lines f) = OK fc ->
    (forall k r, In (k, r) fc -> exists s, r = session_record s) ->
    load_directory dir_name [(n1, f); (n2, f)]
    = OK {| jsonl_contents := stamped n1 fc; printed := []; csv_metadata := [] |}
    /\ load_directory dir_name [(n1, f)]
       = OK {| jsonl_contents := stamped n1 fc; printed := []; csv_metadata := [] |}
    /\ load_directory dir_name [(n2, f)]
       = OK {| jsonl_contents := stamped n2 fc; printed := []; csv_metadata := [] |}
    /\ map (fun kr => (fst kr, strip_provenance (snd kr))) (stamped n1 fc)
       = map (fun kr => (fst kr, strip_provenance (snd kr))) (stamped n2 fc).
Proof.
  intros dir_name n1 n2 f fc Hp Hext1 Hext2 Hload1 Hsessions.
  assert (Hload2 : load_jsonl_file (path_join dir_name n2) (file_lines f) = OK fc).
  { eapply same_outcome_ok; [apply load_jsonl_file_same | exact Hload1]. }
  assert (Hnd : NoDup (keys fc)) by (eapply load_jsonl_file_NoDup; eauto).
  assert (Hone : forall n, splitext_ext n = ".jsonl" ->
                           load_jsonl_file (path_join dir_name n) (file_lines f) = OK fc ->
                           load_directory_step dir_name
                             {| jsonl_contents := []; printed := []; csv_metadata := [] |} n f
                           = OK {| jsonl_contents := stamped n fc; printed := [];
                                   csv_metadata := [] |}).
  { intros n Hext Hload.
    rewrite (load_directory_step_jsonl dir_name n f _ fc Hext Hload).
    cbn [jsonl_contents printed csv_metadata].
    rewrite merge_file_fresh; auto. }
  unfold load_directory; cbn [load_directory_loop].
  rewrite (Hone n1 Hext1 Hload1), (Hone n2 Hext2 Hload2); cbn [bind].
  repeat split; auto using strip_stamped.
  rewrite (load_directory_step_jsonl dir_name n2 f _ fc Hext2 Hload2).
  cbn [jsonl_contents printed csv_metadata].
  rewrite (merge_file_same_sessions n1 n2 (stamped n1 fc) [] Hp); [reflexivity |].
  intros k r Hin; destruct (Hsessions k r Hin) as [s ->]; exists s; split; auto.
  rewrite lookup_stamped, (NoDup_keys_lookup k _ fc Hnd Hin); reflexivity.
Qed.

(** A recorded entry that carries the transitions meets a new one that does
    not: the new entry is kept, with the transitions attached. *)
Lemma merge_entry_attaches_to_new (filename entry : string) (c : dict record)
    (w : list warning) (recorded new_entry : record) (rt rk nt nk : Q)
    (recorded_file transitions : field) :
  lookup entry c = Some recorded ->
  reports_times recorded rt rk ->
  reports_times new_entry nt nk ->
  getitem "file_source" recorded = OK recorded_file ->
  getitem "state_transitions" recorded = OK transitions ->
  mem "state_transitions" new_entry = false ->
  merge_entry filename (c, w) entry new_entry
  = OK (insert entry (insert "file_source" (FVal (VStr filename))
                        (insert "state_transitions" transitions new_entry)) c,
        (w ++ consistency_warnings entry rt nt rk nk (format_field recorded_file) filename)%list).
Proof.
  intros Hrec Hr Hn Hfile Htr Hnew.
  rewrite (merge_entry_seen filename entry c w recorded new_entry rt rk nt nk recorded_file)
    by auto.
  cbv zeta; rewrite Hnew, Htr.
  assert (Hm : mem "state_transitions" recorded = true).
  { unfold mem; unfold getitem in Htr; destruct (lookup _ recorded); [reflexivity | discriminate]. }
  rewrite Hm; reflexivity.
Qed.

(** A recorded entry that does not carry the transitions meets a new one
    that does: the recorded entry is kept, with the transitions attached. *)
Lemma merge_entry_attaches_to_recorded (filename entry : string) (c : dict record)
    (w : list warning) (recorded new_entry : record) (rt rk nt nk : Q)
    (recorded_file transitions : field) :
  lookup entry c = Some recorded ->
  reports_times recorded rt rk ->
  reports_times new_entry nt nk ->
  getitem "file_source" recorded = OK recorded_file ->
  getitem "state_transitions" new_entry = OK transitions ->
  mem "state_transitions" recorded = false ->
  merge_entry filename (c, w) entry new_entry
  = OK (insert entry (insert "state_transitions" transitions recorded) c,
        (w ++ consistency_warnings entry rt nt rk nk (format_field recorded_file) filename)%list).
Proof.
  intros Hrec Hr Hn Hfile Htr Hold.
  rewrite (merge_entry_seen filename entry c w recorded new_entry rt rk nt nk recorded_file)
    by auto.
  cbv zeta; rewrite Hold, Htr.
  assert (Hm : mem "state_transitions" new_entry = true).
  { unfold mem; unfold getitem in Htr; destruct (lookup _ new_entry); [reflexivity | discriminate]. }
  rewrite Hm; reflexivity.
Qed.

Lemma load_directory_two (dir_name n1 n2 : string) (f1 f2 : file) (fc1 fc2 : dict record) :
  splitext_ext n1 = ".jsonl" ->
  splitext_ext n2 = ".jsonl" ->
  load_jsonl_file (path_join dir_name n1) (file_lines f1) = OK fc1 ->
  load_jsonl_file (path_join dir_name n2) (file_lines f2) = OK fc2 ->
  load_directory dir_name [(n1, f1); (n2, f2)]
  = merged <- merge_file n2 fc2 (stamped n1 fc1, []) ;;
    OK {| jsonl_contents := fst merged; printed := snd merged; csv_metadata := [] |}.
Proof.
  intros Hext1 Hext2 Hload1 Hload2.
  unfold load_directory; cbn [load_directory_loop].
  rewrite (load_directory_step_jsonl dir_name n1 f1 _ fc1 Hext1 Hload1).
  cbn [jsonl_contents printed csv_metadata].
  rewrite merge_file_fresh by (eauto using load_jsonl_file_NoDup).
  cbn [bind app fst snd].
  rewrite (load_directory_step_jsonl dir_name n2 f2 _ fc2 Hext2 Hload2).
  cbn [jsonl_contents printed csv_metadata].
  destruct (merge_file n2 fc2 (stamped n1 fc1, [])); reflexivity.
Qed.

(** C6: a transition-derived record and a pre-aggregated record of the
    same session key, whose task and KM pull totals agree within the
    tolerance, merge into the pre-aggregated record with the sequence of
    transitions attached, whichever of the two files comes first in the
    listing; the two outcomes bind every field alike, and no warning is
    printed. *)
Theorem complementary_records_merge_alike_in_both_orders :
  forall (dir_name nT nS : string) (fT fS : file) (k : string) (s : session)
         (pre : record) (t p : Q),
    splitext_ext nT = ".jsonl" ->
    splitext_ext nS = ".jsonl" ->
    load_jsonl_file (path_join dir_name nT) (file_lines fT) = OK [(k, session_record s)] ->
    load_jsonl_file (path_join dir_name nS) (file_lines fS) = OK [(k, pre)] ->
    mem "state_transitions" pre = false ->
    reports_times pre t p ->
    (Qabs (task_total_time s - t) <= TIME_DIFFERENCE_THRESHOLD)%Q ->
    (Qabs (km_pull_total_time s - p) <= TIME_DIFFERENCE_THRESHOLD)%Q ->
    exists a b,
      load_directory dir_name [(nT, fT); (nS, fS)]
      = OK {| jsonl_contents := [(k, a)]; printed := []; csv_metadata := [] |}
      /\ load_directory dir_name [(nS, fS); (nT, fT)]
         = OK {| jsonl_contents := [(k, b)]; printed := []; csv_metadata := [] |}
      /\ (forall attr, lookup attr a = lookup attr b)
      /\ lookup "state_transitions" a = Some (FTransitions (state_transitions s))
      /\ lookup "file_source" a = Some (FVal (VStr nS))
      /\ (forall attr, attr <> "state_transitions" -> attr <> "file_source" ->
                       lookup attr a = lookup attr pre).
Proof.
  intros dir_name nT nS fT fS k s pre t p HextT HextS HloadT HloadS Hpre Htimes Htol Hp.
  set (tr := FTransitions (state_transitions s)).
  exists (insert "file_source" (FVal (VStr nS)) (insert "state_transitions" tr pre)),
         (insert "state_transitions" tr (insert "file_source" (FVal (VStr nS)) pre)).
  split; [| split; [| split; [| split; [| split]]]].
  - rewrite (load_directory_two dir_name nT nS fT fS _ _ HextT HextS HloadT HloadS).
    cbn [stamped map fst snd merge_file].
    set (recorded := insert "file_source" (FVal (VStr nT)) (session_record s)).
    rewrite (merge_entry_attaches_to_new nS k [(k, recorded)] [] recorded pre
               (task_total_time s) (km_pull_total_time s) t p (FVal (VStr nT)) tr);
      try solve [ assumption | reflexivity
                | cbn [lookup]; now rewrite String.eqb_refl
                | apply stamped_times, session_record_times ].
    rewrite within_tolerance_no_warning by auto.
    cbn [bind insert app fst snd]; rewrite String.eqb_refl; reflexivity.
  - rewrite (load_directory_two dir_name nS nT fS fT _ _ HextS HextT HloadS HloadT).
    cbn [stamped map fst snd merge_file].
    set (recorded := insert "file_source" (FVal (VStr nS)) pre).
    rewrite (merge_entry_attaches_to_recorded nT k [(k, recorded)] [] recorded
               (session_record s)
               t p (task_total_time s) (km_pull_total_time s) (FVal (VStr nS)) tr);
      try solve [ assumption | reflexivity
                | cbn [lookup]; now rewrite String.eqb_refl
                | now apply stamped_times
                | apply session_record_times
                | apply getitem_insert_eq
                | unfold recorded; now rewrite mem_insert_ne by discriminate ].
    rewrite within_tolerance_no_warning by (rewrite Qabs_Qminus; auto).
    cbn [bind insert app fst snd]; rewrite String.eqb_refl; reflexivity.
  - intros attr.
    destruct (String.eqb_spec attr "file_source") as [->|Hfs].
    + rewrite lookup_insert_eq, lookup_insert_ne by discriminate.
      now rewrite lookup_insert_eq.
    + rewrite (lookup_insert_ne attr "file_source") by auto.
      destruct (String.eqb_spec attr "state_transitions") as [->|Hst].
      * now rewrite !lookup_insert_eq.
      * now rewrite !lookup_insert_ne by auto.
  - rewrite lookup_insert_ne by discriminate; apply lookup_insert_eq.
  - apply lookup_insert_eq.
  - intros attr Hst Hfs; now rewrite !lookup_insert_ne by auto.
Qed.

Lemma dict_eqb_differs {V : Type} (veq : V -> V -> bool) (d1 d2 : dict V) (k : string)
    (a b : V) :
  lookup k d1 = Some a -> lookup k d2 = Some b -> veq a b = false ->
  dict_eqb veq d1 d2 = false.
Proof.
  intros Ha Hb Hne; unfold dict_eqb.
  destruct (forallb _ _) eqn:E; auto.
  rewrite forallb_forall in E; specialize (E k).
  rewrite Ha, Hb, Hne in E; symmetry; apply E.
  apply in_or_app; left; apply mem_keys, mem_lookup; eauto.
Qed.

Lemma field_number_differs (f g : field) (x y : Q) :
  field_number f = OK x -> field_number g = OK y -> ~ x == y -> field_eqb f g = false.
Proof.
  destruct f as [u|], g as [v|]; simpl; try discriminate.
  unfold value_eqb; destruct (num_of u), (num_of v); try discriminate.
  intros Hx Hy Hne; inversion Hx; inversion Hy; subst.
  destruct (Qeq_bool x y) eqn:E; auto.
  apply Qeq_bool_eq in E; contradiction.
Qed.

(** Two entries that report different task totals are not [==], whatever
    provenance the recorded one has. *)
Lemma record_eqb_times_differ (recorded new_entry : record) (v : field) (rt rk nt nk : Q) :
  reports_times recorded rt rk -> reports_times new_entry nt nk -> ~ nt == rt ->
  record_eqb new_entry (remove "file_source" (insert "file_source" v recorded)) = false.
Proof.
  intros (ft & _ & Hft & Hrt & _) (gt & _ & Hgt & Hnt & _) Hne.
  unfold getitem in Hft, Hgt.
  destruct (lookup "task_total_time" recorded) as [ft'|] eqn:Er; inversion Hft; subst ft'.
  destruct (lookup "task_total_time" new_entry) as [gt'|] eqn:En; inversion Hgt; subst gt'.
  apply (dict_eqb_differs field_eqb _ _ "task_total_time" gt ft); auto.
  - rewrite remove_insert, lookup_remove_ne by discriminate; auto.
  - eapply field_number_differs; eauto.
Qed.

(** C8 (as amended): two files give the same session key task totals that
    differ, by a second at most, as 100.0 and 100.4 do.  No warning about the
    task total is printed; when exactly one of the two records carries the
    transitions the merge succeeds, and when both or neither do the records
    differ and the conflicting-record error is raised.  The totals are
    floats or ints that are floats themselves, so that subtracting them
    raises no [OverflowError]. *)
Theorem totals_within_tolerance_print_no_warning_and_like_records_conflict :
  forall (dir_name n1 n2 : string) (f1 f2 : file) (k : string) (r1 r2 : record)
         (t1 p1 t2 p2 : Q),
    splitext_ext n1 = ".jsonl" ->
    splitext_ext n2 = ".jsonl" ->
    load_jsonl_file (path_join dir_name n1) (file_lines f1) = OK [(k, r1)] ->
    load_jsonl_file (path_join dir_name n2) (file_lines f2) = OK [(k, r2)] ->
    reports_times r1 t1 p1 ->
    reports_times r2 t2 p2 ->
    (Qabs (t1 - t2) <= TIME_DIFFERENCE_THRESHOLD)%Q ->
    ~ t1 == t2 ->
    float_safe_at "task_total_time" r1 /\ float_safe_at "km_pull_total_time" r1 ->
    float_safe_at "task_total_time" r2 /\ float_safe_at "km_pull_total_time" r2 ->
    (xorb (mem "state_transitions" r1) (mem "state_transitions" r2) = true ->
     exists merged warnings,
       load_directory dir_name [(n1, f1); (n2, f2)]
       = OK {| jsonl_contents := [(k, merged)]; printed := warnings; csv_metadata := [] |}
       /\ (warnings = [] \/ warnings = [ConflictingKmPullTime k p1 n1 p2 n2]))
    /\ (mem "state_transitions" r1 = mem "state_transitions" r2 ->
        load_directory dir_name [(n1, f1); (n2, f2)]
        = Err (if mem "state_transitions" r1
               then ConflictingStateTransitions k n1 n2
               else ConflictingSubjectTask k n1 n2)).
Proof.
  intros dir_name n1 n2 f1 f2 k r1 r2 t1 p1 t2 p2 Hext1 Hext2 Hload1 Hload2
         Hr1 Hr2 Htol Hne _ _.
  rewrite (load_directory_two dir_name n1 n2 f1 f2 _ _ Hext1 Hext2 Hload1 Hload2).
  cbn [stamped map fst snd merge_file].
  set (recorded := insert "file_source" (FVal (VStr n1)) r1).
  assert (Hseen := merge_entry_seen n2 k [(k, recorded)] [] recorded r2 t1 p1 t2 p2
                     (FVal (VStr n1))).
  rewrite Hseen;
    try solve [ assumption | cbn [lookup]; now rewrite String.eqb_refl
              | now apply stamped_times | apply getitem_insert_eq ].
  clear Hseen; cbv zeta.
  assert (Hwarn : consistency_warnings k t1 t2 p1 p2 (format_field (FVal (VStr n1))) n2
                  = if negb (Qle_bool (Qabs (p1 - p2)) TIME_DIFFERENCE_THRESHOLD)
                    then [ConflictingKmPullTime k p1 n1 p2 n2] else []).
  { unfold consistency_warnings.
    assert (H : Qle_bool (Qabs (t1 - t2)) TIME_DIFFERENCE_THRESHOLD = true)
      by now apply Qle_bool_iff.
    rewrite H; reflexivity. }
  rewrite Hwarn; cbn [app].
  assert (Hmem : mem "state_transitions" recorded = mem "state_transitions" r1).
  { unfold recorded; now rewrite mem_insert_ne by discriminate. }
  assert (Hdiffer : record_eqb r2 (remove "file_source" recorded) = false).
  { unfold recorded; apply (record_eqb_times_differ r1 r2 _ t1 p1 t2 p2); auto.
    intros H; apply Hne; now symmetry. }
  assert (Hdel : delitem "file_source" recorded = OK (remove "file_source" recorded)).
  { unfold delitem, recorded; now rewrite mem_insert_eq. }
  rewrite Hmem, Hdel; cbn [bind]; rewrite Hdiffer; cbn [negb raise_if bind].
  split.
  - intros Hxor.
    destruct (mem "state_transitions" r1) eqn:E1, (mem "state_transitions" r2) eqn:E2;
      try discriminate; cbn [andb negb].
    + assert (Htr : exists tr, getitem "state_transitions" recorded = OK tr).
      { unfold getitem; unfold mem in Hmem.
        destruct (lookup "state_transitions" recorded); [eauto | discriminate]. }
      destruct Htr as [tr Htr]; rewrite Htr; cbn [bind insert fst snd].
      rewrite String.eqb_refl; eexists _, _; split; [reflexivity |].
      destruct (negb _); auto.
    + assert (Htr : exists tr, getitem "state_transitions" r2 = OK tr).
      { unfold getitem; unfold mem in E2.
        destruct (lookup "state_transitions" r2); [eauto | discriminate]. }
      destruct Htr as [tr Htr]; rewrite Htr; cbn [bind insert fst snd].
      rewrite String.eqb_refl; eexists _, _; split; [reflexivity |].
      destruct (negb _); auto.
  - intros Heq; rewrite <- Heq.
    destruct (mem "state_transitions" r1); reflexivity.
Qed.

(** *** What the loaders store *)

Lemma getitem_ok {V : Type} (k : string) (d : dict V) (v : V) :
  getitem k d = OK v <-> lookup k d = Some v.
Proof.
  unfold getitem; destruct (lookup k d); split; intros H; inversion H; reflexivity.
Qed.

Lemma lookup_stored {V : Type} (k : string) (entries : list (string * V)) :
  forall d,
    lookup k (stored entries d)
    = match last_binding k entries with Some v => Some v | None => lookup k d end.
Proof.
  induction entries as [|[k' v] entries IH]; intros d; [reflexivity |].
  change (stored ((k', v) :: entries) d) with (stored entries (insert k' v d)).
  rewrite IH; unfold last_binding; cbn [rev]; rewrite lookup_app.
  destruct (lookup k (rev entries)); [reflexivity |].
  cbn [lookup]; destruct (String.eqb_spec k k') as [->|Hne].
  - now rewrite lookup_insert_eq.
  - now rewrite lookup_insert_ne.
Qed.

Lemma NoDup_keys_stored {V : Type} (entries : list (string * V)) :
  forall d, NoDup (keys d) -> NoDup (keys (stored entries d)).
Proof.
  induction entries as [|[k v] entries IH]; intros d Hnd; [exact Hnd |].
  apply IH; now apply NoDup_keys_insert.
Qed.

Lemma stored_fresh {V : Type} (entries : list (string * V)) :
  forall d, NoDup (keys (d ++ entries)) -> stored entries d = (d ++ entries)%list.
Proof.
  induction entries as [|[k v] entries IH]; intros d Hnd.
  - now rewrite app_nil_r.
  - change (stored ((k, v) :: entries) d) with (stored entries (insert k v d)).
    assert (Hnone : lookup k d = None).
    { apply lookup_not_in_keys; unfold keys in *; rewrite map_app in Hnd.
      apply NoDup_remove_2 in Hnd; intros Hin; apply Hnd, in_or_app; now left. }
    rewrite (lookup_none_insert_app _ _ _ Hnone), IH; rewrite <- app_assoc; auto.
Qed.

Lemma last_binding_In {V : Type} (k : string) (entries : list (string * V)) (v : V) :
  last_binding k entries = Some v -> In (k, v) entries.
Proof. unfold last_binding; intros H; apply lookup_In in H; now apply in_rev. Qed.

Lemma last_binding_last {V : Type} (k : string) (pre post : list (string * V)) (v : V) :
  (forall e, In e post -> fst e <> k) ->
  last_binding k (pre ++ (k, v) :: post) = Some v.
Proof.
  intros Hpost; unfold last_binding.
  rewrite rev_app_distr; cbn [rev]; rewrite <- app_assoc, lookup_app.
  rewrite lookup_not_in_keys.
  - cbn [app lookup]; now rewrite String.eqb_refl.
  - unfold keys; rewrite map_rev, <- in_rev; intros Hin.
    apply in_map_iff in Hin as (e & He & Hin); exact (Hpost e Hin He).
Qed.

Lemma lookup_record_of_line (attr : string) (json_in : json_object) :
  lookup attr (record_of_line json_in) = option_map FVal (lookup attr json_in).
Proof. unfold record_of_line; apply (lookup_map_snd FVal). Qed.

Lemma type_check_subject_task_loop_ok (attrs : list string) (input : json_object)
    (l : nat) (fn : string) (attr : string) (v : value) :
  type_check_subject_task_loop attrs input l fn = OK tt ->
  In attr attrs -> getitem attr input = OK v ->
  if String.eqb attr "condition" then value_in v conditions = true
  else forall ty, lookup attr subject_task_schema = Some ty -> isinstance v ty = OK true.
Proof.
  intros Hok Hin Hv; induction attrs as [|a attrs IH]; [destruct Hin |].
  cbn [type_check_subject_task_loop] in Hok.
  apply bind_ok in Hok as (v' & Hv' & Hok).
  apply bind_ok in Hok as ([] & Hcheck & Hok).
  destruct Hin as [Heq|Hin]; [subst a | now apply IH].
  rewrite Hv in Hv'; inversion Hv'; subst v'.
  destruct (String.eqb attr "condition").
  - apply raise_if_ok in Hcheck; now apply negb_false_iff in Hcheck.
  - intros ty Hty; rewrite Hty in Hcheck.
    apply bind_ok in Hcheck as (ok & Hok' & Hcheck).
    apply raise_if_ok in Hcheck; apply negb_false_iff in Hcheck; now subst ok.
Qed.

Lemma type_check_state_transition_loop_ok (attrs : list string) (input : json_object)
    (l : nat) (fn : string) (attr : string) (v : value) :
  type_check_state_transition_loop attrs input l fn = OK tt ->
  In attr attrs -> getitem attr input = OK v ->
  if String.eqb attr "state_id" then value_in v state_ids = true
  else if String.eqb attr "condition" then value_in v conditions = true
  else forall ty, lookup attr state_transition_schema = Some ty -> isinstance v ty = OK true.
Proof.
  intros Hok Hin Hv; induction attrs as [|a attrs IH]; [destruct Hin |].
  cbn [type_check_state_transition_loop] in Hok.
  apply bind_ok in Hok as (v' & Hv' & Hok).
  apply bind_ok in Hok as ([] & Hcheck & Hok).
  destruct Hin as [Heq|Hin]; [subst a | now apply IH].
  rewrite Hv in Hv'; inversion Hv'; subst v'.
  destruct (String.eqb attr "state_id").
  - apply raise_if_ok in Hcheck; now apply negb_false_iff in Hcheck.
  - destruct (String.eqb attr "condition").
    + apply raise_if_ok in Hcheck; now apply negb_false_iff in Hcheck.
    + intros ty Hty; rewrite Hty in Hcheck.
      apply bind_ok in Hcheck as (ok & Hok' & Hcheck).
      apply raise_if_ok in Hcheck; apply negb_false_iff in Hcheck; now subst ok.
Qed.

Lemma identifier_class_checked (v : value) :
  isinstance v (Classes [TStr; TInt]) = OK true -> identifier_class v = true.
Proof.
  unfold isinstance, identifier_class; cbn [existsb]; rewrite orb_false_r.
  intros H; now inversion H.
Qed.

Lemma numeric_checked (v : value) :
  isinstance v (Classes [TFloat; TInt]) = OK true -> exists q, num_of v = Some q.
Proof. destruct v; cbn; intros H; try discriminate; eauto. Qed.

Lemma session_identifier_format (json_in : json_object) (k : string) :
  session_identifier json_in = OK k ->
  exists subject cond task,
    lookup "subject_id" json_in = Some subject /\ lookup "condition" json_in = Some cond
    /\ lookup "task_id" json_in = Some task
    /\ k = format_value subject ++ "_" ++ format_value cond ++ "_" ++ format_value task.
Proof.
  unfold session_identifier; intros H.
  apply bind_ok in H as (subject & Hs & H).
  apply bind_ok in H as (cond & Hc & H).
  apply bind_ok in H as (task & Ht & H).
  inversion H; exists subject, cond, task.
  repeat split; now apply getitem_ok.
Qed.

(** An entry that passed the checks of a Subject-Task line. *)
Lemma subject_task_step_ok (fn : string) (acc acc' : dict record) (l : nat)
    (json_in : json_object) :
  subject_task_step fn acc l json_in = OK acc' ->
  exists k r,
    subject_task_entry json_in = OK (k, r) /\ loaded_entry k r /\ acc' = insert k r acc.
Proof.
  unfold subject_task_step; intros H.
  apply bind_ok in H as ([] & Hpresent & H).
  apply bind_ok in H as (iso & Hiso & H).
  apply bind_ok in H as (start & Hstart & H).
  apply bind_ok in H as ([] & Htype & H).
  apply bind_ok in H as (k & Hk & H).
  inversion H; subst acc'; clear H.
  set (j := insert "task_start_time" (VDatetime start) json_in) in *.
  exists k, (record_of_line j); split; [| split; [| reflexivity]].
  { unfold subject_task_entry; rewrite Hiso; cbn [bind]; rewrite Hstart; cbn [bind].
    fold j; rewrite Hk; reflexivity. }
  unfold verify_all_subject_task_fields_present in Hpresent.
  pose proof (proj1 (fields_present_ok _ _ _ _) Hpresent) as Hall; clear Hpresent.
  assert (Hin : forall attr v, lookup attr j = Some v -> In attr (keys j)).
  { intros attr v Hv; apply mem_keys, mem_lookup; eauto. }
  assert (Hclass : forall attr ts,
             In attr (keys subject_task_schema) -> attr <> "optional_content" ->
             attr <> "task_start_time" -> attr <> "condition" ->
             lookup attr subject_task_schema = Some (Classes ts) ->
             exists v, lookup attr j = Some v /\ isinstance v (Classes ts) = OK true).
  { intros attr ts Hattr Hopt Hne Hcond Hty.
    pose proof (Hall attr Hattr Hopt) as Hmem.
    apply mem_lookup in Hmem as [v Hv].
    assert (Hvj : lookup attr j = Some v) by (unfold j; now rewrite lookup_insert_ne).
    exists v; split; [exact Hvj |].
    pose proof (type_check_subject_task_loop_ok _ _ _ _ attr v Htype (Hin _ _ Hvj)
                  (proj2 (getitem_ok _ _ _) Hvj)) as Hc.
    apply String.eqb_neq in Hcond; rewrite Hcond in Hc; now apply Hc. }
  apply session_identifier_format in Hk as (subject & cond & task & Hs & Hc & Ht & ->).
  destruct (Hclass "subject_id" [TStr; TInt]) as (s' & Hs' & Hsc);
    [cbn; tauto | discriminate | discriminate | discriminate | reflexivity |].
  destruct (Hclass "task_id" [TStr; TInt]) as (t' & Ht' & Htc);
    [cbn; tauto | discriminate | discriminate | discriminate | reflexivity |].
  rewrite Hs in Hs'; inversion Hs'; subst s'.
  rewrite Ht in Ht'; inversion Ht'; subst t'.
  pose proof (type_check_subject_task_loop_ok _ _ _ _ "condition" cond Htype (Hin _ _ Hc)
                (proj2 (getitem_ok _ _ _) Hc)) as Hcond.
  cbn [String.eqb Ascii.eqb Bool.eqb] in Hcond.
  apply value_in_spec in Hcond as (c & Hcin & ->).
  assert (Hnum : forall attr,
             In attr ["task_total_time"; "km_pull_total_time"; "km_push_total_time"] ->
             numeric_field attr (record_of_line j)).
  { intros attr Hattr.
    destruct (Hclass attr [TFloat; TInt]) as (v & Hv & Hvc);
      try (cbn in Hattr; intuition (subst; first [discriminate | reflexivity | cbn; tauto])).
    apply numeric_checked in Hvc as [q Hq].
    exists v, q; rewrite lookup_record_of_line, Hv; auto. }
  split; [| split; [| repeat split; apply Hnum; cbn; tauto]].
  - exists subject, c, task; rewrite !lookup_record_of_line, Hs, Hc, Ht; cbn [option_map].
    repeat split; auto using identifier_class_checked.
  - exists start; rewrite lookup_record_of_line; unfold j.
    now rewrite lookup_insert_eq.
Qed.

Lemma subject_task_loop_stored (fn : string) :
  forall (lines : list json_object) (l : nat) (acc fc : dict record),
    subject_task_loop fn lines l acc = OK fc ->
    exists entries,
      Forall2 (fun json_in e => subject_task_entry json_in = OK e) lines entries
      /\ (forall k r, In (k, r) entries -> loaded_entry k r)
      /\ fc = stored entries acc.
Proof.
  induction lines as [|json_in lines IH]; intros l acc fc H; cbn [subject_task_loop] in H.
  - inversion H; subst; exists []; split; [constructor | split; [intros k r [] | reflexivity]].
  - apply bind_ok in H as (acc1 & Hstep & Hloop).
    apply subject_task_step_ok in Hstep as (k & r & Hentry & Hloaded & ->).
    destruct (IH _ _ _ Hloop) as (entries & Hall & Hentries & ->).
    exists ((k, r) :: entries); split; [now constructor | split; [| reflexivity]].
    intros k' r' [Heq|Hin]; [inversion Heq; now subst | eauto].
Qed.

(** X3: a Subject-Task file that loads binds every session key once, to the
    entry of the last line that carries the key: every line yields a key and
    an entry (the line with its start time parsed), and a later line with
    the key of an earlier one replaces it, with no error. *)
Theorem subject_task_file_keeps_the_last_line_of_a_key :
  forall (fn : string) (lines : list json_object) (fc : dict record),
    load_subject_task_file fn lines = OK fc ->
    exists entries,
      Forall2 (fun json_in e => subject_task_entry json_in = OK e) lines entries
      /\ NoDup (keys fc)
      /\ (forall k, lookup k fc = last_binding k entries)
      /\ (forall pre post k r,
             entries = (pre ++ (k, r) :: post)%list ->
             (forall e, In e post -> fst e <> k) ->
             lookup k fc = Some r).
Proof.
  intros fn lines fc H; unfold load_subject_task_file in H.
  destruct (subject_task_loop_stored _ _ _ _ _ H) as (entries & Hall & _ & ->).
  assert (Hlookup : forall k, lookup k (stored entries []) = last_binding k entries).
  { intros k; rewrite lookup_stored; now destruct (last_binding k entries). }
  exists entries; split; [exact Hall | split; [| split; [exact Hlookup |]]].
  - apply NoDup_keys_stored; constructor.
  - intros pre post k r -> Hpost; rewrite Hlookup; now apply last_binding_last.
Qed.

(** *** Entries of the transition loader are keyed by their own fields *)

Lemma validated_line_keyed (fn : string) (l : nat) (json_in j : json_object) (k : string)
    (utc : datetime) (state_id : value) :
  validated_line fn l json_in = OK (j, k, utc, state_id) ->
  exists subject cond task,
    getitem "subject_id" j = OK subject /\ getitem "condition" j = OK (VStr cond)
    /\ getitem "task_id" j = OK task
    /\ identifier_class subject = true /\ In cond conditions
    /\ identifier_class task = true
    /\ k = format_value subject ++ "_" ++ cond ++ "_" ++ format_value task.
Proof.
  unfold validated_line; intros H.
  apply bind_ok in H as ([] & _ & H).
  apply bind_ok in H as (iso & _ & H).
  apply bind_ok in H as (utc' & _ & H).
  apply bind_ok in H as ([] & Htype & H).
  apply bind_ok in H as (k' & Hk & H).
  apply bind_ok in H as (sid & _ & H).
  inversion H; subst; clear H.
  set (j := insert "utc_timestamp" (VDatetime utc) json_in) in *.
  apply session_identifier_format in Hk as (subject & cond & task & Hs & Hc & Ht & ->).
  assert (Hin : forall attr v, lookup attr j = Some v -> In attr (keys j)).
  { intros attr v Hv; apply mem_keys, mem_lookup; eauto. }
  unfold type_check_state_transition_fields in Htype.
  pose proof (type_check_state_transition_loop_ok _ _ _ _ "subject_id" subject Htype
                (Hin _ _ Hs) (proj2 (getitem_ok _ _ _) Hs)) as Hsc.
  pose proof (type_check_state_transition_loop_ok _ _ _ _ "task_id" task Htype
                (Hin _ _ Ht) (proj2 (getitem_ok _ _ _) Ht)) as Htc.
  pose proof (type_check_state_transition_loop_ok _ _ _ _ "condition" cond Htype
                (Hin _ _ Hc) (proj2 (getitem_ok _ _ _) Hc)) as Hcc.
  cbn [String.eqb Ascii.eqb Bool.eqb] in Hsc, Htc, Hcc.
  apply value_in_spec in Hcc as (c & Hcin & ->).
  exists subject, c, task; repeat split; try (now apply getitem_ok); auto.
  - apply identifier_class_checked, Hsc; reflexivity.
  - apply identifier_class_checked, Htc; reflexivity.
Qed.

Lemma track_session_keyed (fn : string) (st st' : reducer_state) (l : nat)
    (json_in : json_object) (v : validated) :
  validated_line fn l json_in = OK v ->
  track_session fn st l v = OK st' ->
  reducer_inv st ->
  (forall k s, lookup k (snd st) = Some s -> keyed k s) ->
  forall k s, lookup k (snd st') = Some s -> keyed k s.
Proof.
  destruct v as [[[j k0] utc] sid], st as [sts sessions]; intros Hline Htrack Hinv Hkeyed.
  pose proof (validated_line_keyed _ _ _ _ _ _ _ Hline)
    as (subject & c & task & Hs & Hc & Ht & Hsc & Hcin & Htc & Hk0).
  pose proof (validated_line_ok _ _ _ _ _ _ _ Hline) as (_ & Hid & Hsid).
  destruct Hinv as (_ & Hsame & _); cbn [fst snd] in *.
  destruct (lookup k0 sts) as [previous|] eqn:Hprev.
  - destruct (lookup k0 sessions) as [s0|] eqn:Hs0.
    2:{ apply Hsame in Hs0; congruence. }
    rewrite (track_session_seen _ _ _ _ _ _ _ _ _ _ Hprev Hs0) in Htrack.
    apply bind_ok in Htrack as ([] & _ & Htrack).
    apply bind_ok in Htrack as ([] & _ & Htrack).
    inversion Htrack; subst st'; cbn [snd]; intros k s Hlook.
    destruct (String.eqb_spec k k0) as [->|Hne].
    + rewrite lookup_insert_eq in Hlook; inversion Hlook; subst s.
      exact (Hkeyed _ _ Hs0).
    + rewrite lookup_insert_ne in Hlook by exact Hne; eauto.
  - destruct (track_session_new fn l j k0 utc sid sts sessions Hprev Hid Hsid)
      as (subject' & cond' & task' & Hs' & Hc' & Ht' & Heq).
    rewrite Hs in Hs'; rewrite Hc in Hc'; rewrite Ht in Ht'.
    inversion Hs'; inversion Hc'; inversion Ht'; subst subject' cond' task'.
    rewrite Heq in Htrack.
    destruct (value_eqb sid (VStr "task_initialized")); [| discriminate].
    inversion Htrack; subst st'; cbn [snd]; intros k s Hlook.
    destruct (String.eqb_spec k k0) as [->|Hne].
    + rewrite lookup_insert_eq in Hlook; inversion Hlook; subst s.
      exists c; cbn; auto.
    + rewrite lookup_insert_ne in Hlook by exact Hne; eauto.
Qed.

Lemma state_transitions_loop_keyed (fn : string) :
  forall (lines : list json_object) (l : nat) (st st' : reducer_state),
    state_transitions_loop fn lines l st = OK st' ->
    reducer_inv st ->
    (forall k s, lookup k (snd st) = Some s -> keyed k s) ->
    forall k s, lookup k (snd st') = Some s -> keyed k s.
Proof.
  induction lines as [|json_in lines IH]; intros l st st' H Hinv Hkeyed;
    cbn [state_transitions_loop] in H.
  - inversion H; subst; exact Hkeyed.
  - apply bind_ok in H as (st1 & Hstep & Hloop).
    unfold state_transitions_step in Hstep.
    apply bind_ok in Hstep as (v & Hline & Htrack).
    apply (IH _ _ _ Hloop).
    + exact (proj1 (track_session_ok _ _ _ _ _ _ Hline Htrack Hinv)).
    + exact (track_session_keyed _ _ _ _ _ _ Hline Htrack Hinv Hkeyed).
Qed.

Lemma session_record_loaded (k : string) (s : session) :
  keyed k s -> loaded_entry k (session_record s).
Proof.
  intros (c & Hc & Hcin & Hsc & Htc & ->).
  split; [| split; [| repeat split]].
  - exists (subject_id s), c, (task_id s); cbn; rewrite Hc; auto 10.
  - exists (task_start_time s); reflexivity.
  - exists (VFloat (task_total_time s)), (task_total_time s); auto.
  - exists (VFloat (km_pull_total_time s)), (km_pull_total_time s); auto.
  - exists (VFloat (km_push_total_time s)), (km_push_total_time s); auto.
Qed.

Lemma load_state_transitions_file_loaded (fn : string) (lines : list json_object)
    (fc : dict record) :
  load_state_transitions_file fn lines = OK fc ->
  forall k r, lookup k fc = Some r -> loaded_entry k r /\ exists s, r = session_record s.
Proof.
  unfold load_state_transitions_file, reduce_state_transitions; intros H k r Hr.
  apply bind_ok in H as (sessions & H & Hfc).
  apply bind_ok in H as (st & Hloop & H).
  apply bind_ok in H as (_ & _ & H).
  inversion H; inversion Hfc; subst; clear H Hfc.
  rewrite (lookup_map_snd session_record) in Hr.
  destruct (lookup k (snd st)) as [s|] eqn:Hs; [| discriminate].
  inversion Hr; subst r; split; [| eauto].
  apply session_record_loaded.
  apply (state_transitions_loop_keyed _ _ _ _ _ Hloop reducer_inv_empty) with (k := k);
    [intros ? ? Hnone; discriminate | exact Hs].
Qed.

Lemma load_jsonl_file_loaded (fn : string) (lines : list json_object) (fc : dict record) :
  load_jsonl_file fn lines = OK fc ->
  forall k r, lookup k fc = Some r -> loaded_entry k r.
Proof.
  intros H.
  unfold load_jsonl_file in H; destruct lines as [|first lines]; [discriminate |].
  destruct (verify_all_subject_task_fields_present first 1 fn).
  - unfold load_subject_task_file in H.
    destruct (subject_task_loop_stored _ _ _ _ _ H) as (entries & _ & Hentries & ->).
    intros k r Hr; rewrite lookup_stored in Hr.
    destruct (last_binding k entries) as [r'|] eqn:Hlast; [| discriminate].
    inversion Hr; subst r'; apply Hentries; now apply last_binding_In.
  - destruct (verify_all_state_transition_fields_present first 1 fn); [| discriminate].
    intros k r Hr; exact (proj1 (load_state_transitions_file_loaded _ _ _ H k r Hr)).
Qed.

(** X4: whichever of the two formats a JSONL file has, every entry of its
    loaded dictionary is stored once, under the key
    [<subject_id>_<condition>_<task_id>] built from its own fields, with a
    condition among [prototype] and [baseline], a datetime as start time and
    numbers as its three totals. *)
Theorem loaded_entries_are_keyed_by_their_fields_and_carry_numeric_totals :
  forall (fn : string) (lines : list json_object) (fc : dict record),
    load_jsonl_file fn lines = OK fc ->
    NoDup (keys fc) /\ forall k r, lookup k fc = Some r -> loaded_entry k r.
Proof.
  intros fn lines fc H; split.
  - exact (load_jsonl_file_NoDup _ _ _ H).
  - exact (load_jsonl_file_loaded _ _ _ H).
Qed.

(** *** The reconciler keeps the entries well formed *)

Lemma loaded_entry_insert (k : string) (r : record) (attr : string) (v : field) :
  ~ In attr ["subject_id"; "condition"; "task_id"; "task_start_time"; "task_total_time";
             "km_pull_total_time"; "km_push_total_time"] ->
  loaded_entry k r -> loaded_entry k (insert attr v r).
Proof.
  intros Hnot ((subject & c & task & Hs & Hc & Ht & Hrest) & (start & Hstart)
               & (v1 & q1 & Hv1 & Hq1) & (v2 & q2 & Hv2 & Hq2) & (v3 & q3 & Hv3 & Hq3)).
  assert (Hl : forall a,
             In a ["subject_id"; "condition"; "task_id"; "task_start_time";
                   "task_total_time"; "km_pull_total_time"; "km_push_total_time"] ->
             lookup a (insert attr v r) = lookup a r).
  { intros a Ha; apply lookup_insert_ne; intros ->; exact (Hnot Ha). }
  split; [| split; [| split; [| split]]].
  - exists subject, c, task; rewrite !Hl by (cbn; tauto); auto.
  - exists start; rewrite Hl by (cbn; tauto); auto.
  - exists v1, q1; rewrite Hl by (cbn; tauto); auto.
  - exists v2, q2; rewrite Hl by (cbn; tauto); auto.
  - exists v3, q3; rewrite Hl by (cbn; tauto); auto.
Qed.

Lemma loaded_entry_times (k : string) (r : record) :
  loaded_entry k r -> exists t p, reports_times r t p.
Proof.
  intros (_ & _ & (v1 & q1 & Hv1 & Hq1) & (v2 & q2 & Hv2 & Hq2) & _).
  exists q1, q2, (FVal v1), (FVal v2); unfold getitem, field_number.
  rewrite Hv1, Hv2, Hq1, Hq2; auto.
Qed.

Ltac not_a_loaded_field :=
  let H := fresh in
  intros H; cbn in H;
  repeat (destruct H as [H|H]; [discriminate H |]); exact H.

Lemma merge_entry_reconciled (names : list string) (filename : string) (c : dict record)
    (w : list warning) (entry : string) (new_entry : record) :
  reconciled_entries names c ->
  loaded_entry entry new_entry ->
  In filename names ->
  (exists c' w', merge_entry filename (c, w) entry new_entry = OK (c', w')
                 /\ reconciled_entries names c'
                 /\ (NoDup (keys c) -> NoDup (keys c')))
  \/ (exists n, In n names
                /\ (merge_entry filename (c, w) entry new_entry
                    = Err (ConflictingStateTransitions entry n filename)
                    \/ merge_entry filename (c, w) entry new_entry
                       = Err (ConflictingSubjectTask entry n filename))).
Proof.
  intros Hc Hnew Hfile.
  assert (Hput : forall r,
             loaded_entry entry r ->
             (exists n, In n names /\ lookup "file_source" r = Some (FVal (VStr n))) ->
             reconciled_entries names (insert entry r c)
             /\ (NoDup (keys c) -> NoDup (keys (insert entry r c)))).
  { intros r Hr Hsrc; split; [| apply NoDup_keys_insert].
    intros k r' Hlook.
    destruct (String.eqb_spec k entry) as [->|Hne].
    - rewrite lookup_insert_eq in Hlook; inversion Hlook; subst r'; auto.
    - rewrite lookup_insert_ne in Hlook by exact Hne; eauto. }
  destruct (lookup entry c) as [recorded|] eqn:Hlook.
  2:{ left; unfold merge_entry; rewrite Hlook; eexists _, _; split; [reflexivity |].
      apply Hput.
      - apply loaded_entry_insert; [not_a_loaded_field | exact Hnew].
      - exists filename; split; [exact Hfile | apply lookup_insert_eq]. }
  destruct (Hc _ _ Hlook) as (Hrec & n & Hn & Hsrc).
  destruct (loaded_entry_times _ _ Hrec) as (rt & rk & Hrt).
  destruct (loaded_entry_times _ _ Hnew) as (nt & nk & Hnt).
  rewrite (merge_entry_seen filename entry c w recorded new_entry rt rk nt nk
             (FVal (VStr n)) Hlook Hrt Hnt (proj2 (getitem_ok _ _ _) Hsrc)).
  cbv zeta; cbn [format_field format_value].
  assert (Hdel : delitem "file_source" recorded = OK (remove "file_source" recorded)).
  { unfold delitem, mem; now rewrite Hsrc. }
  destruct (mem "state_transitions" recorded) eqn:Hm1,
           (mem "state_transitions" new_entry) eqn:Hm2; cbn [andb negb].
  - rewrite Hdel; cbn [bind].
    destruct (record_eqb new_entry (remove "file_source" recorded)); cbn [negb raise_if bind].
    + left; eexists _, _; split; [reflexivity | auto].
    + right; exists n; auto.
  - apply mem_lookup in Hm1 as [transitions Ht].
    rewrite (proj2 (getitem_ok _ _ _) Ht); cbn [bind].
    left; eexists _, _; split; [reflexivity |].
    apply Hput.
    + apply loaded_entry_insert; [not_a_loaded_field |].
      apply loaded_entry_insert; [not_a_loaded_field | exact Hnew].
    + exists filename; split; [exact Hfile | apply lookup_insert_eq].
  - apply mem_lookup in Hm2 as [transitions Ht].
    rewrite (proj2 (getitem_ok _ _ _) Ht); cbn [bind].
    left; eexists _, _; split; [reflexivity |].
    apply Hput.
    + apply loaded_entry_insert; [not_a_loaded_field | exact Hrec].
    + exists n; split; [exact Hn |].
      rewrite lookup_insert_ne by discriminate; exact Hsrc.
  - rewrite Hdel; cbn [bind].
    destruct (record_eqb new_entry (remove "file_source" recorded)); cbn [negb raise_if bind].
    + left; eexists _, _; split; [reflexivity | auto].
    + right; exists n; auto.
Qed.

Lemma merge_file_reconciled (names : list string) (filename : string) :
  forall (fc : list (string * record)) (c : dict record) (w : list warning),
    reconciled_entries names c ->
    (forall k r, In (k, r) fc -> loaded_entry k r) ->
    In filename names ->
    (exists c' w', merge_file filename fc (c, w) = OK (c', w')
                   /\ reconciled_entries names c'
                   /\ (NoDup (keys c) -> NoDup (keys c')))
    \/ (exists k n, In n names
                    /\ (merge_file filename fc (c, w)
                        = Err (ConflictingStateTransitions k n filename)
                        \/ merge_file filename fc (c, w)
                           = Err (ConflictingSubjectTask k n filename))).
Proof.
  induction fc as [|[k r] fc IH]; intros c w Hc Hfc Hfile; cbn [merge_file].
  - left; eauto.
  - destruct (merge_entry_reconciled names filename c w k r Hc (Hfc k r (or_introl eq_refl))
                Hfile) as [(c1 & w1 & -> & Hc1 & Hnd1)|(n & Hn & [->| ->])]; cbn [bind].
    + destruct (IH c1 w1 Hc1) as [(c2 & w2 & H2 & Hc2 & Hnd2)|Herr]; auto.
      * intros k' r' Hin; apply Hfc; now right.
      * left; exists c2, w2; auto.
    + right; exists k, n; auto.
    + right; exists k, n; auto.
Qed.

Lemma load_directory_loop_explained (dir_name : string) (dir : list (string * file)) :
  forall (rest : list (string * file)) (st : directory_state),
    incl rest dir ->
    reconciled_entries (keys dir) (jsonl_contents st) ->
    NoDup (keys (jsonl_contents st)) ->
    match load_directory_loop dir_name rest st with
    | OK st' => reconciled_entries (keys dir) (jsonl_contents st')
                /\ NoDup (keys (jsonl_contents st'))
    | Err e => explained dir_name dir e
    end.
Proof.
  induction rest as [|[n f] rest IH]; intros st Hincl Hst Hnodup; cbn [load_directory_loop].
  - auto.
  - assert (Hin : In (n, f) dir) by (apply Hincl; now left).
    assert (Hn : In n (keys dir)) by (unfold keys; now apply (in_map fst) in Hin).
    assert (Hrest : incl rest dir) by (intros x Hx; apply Hincl; now right).
    unfold load_directory_step.
    destruct (String.eqb_spec (splitext_ext n) ".jsonl") as [Hext|Hext].
    + destruct (load_jsonl_file (path_join dir_name n) (file_lines f)) as [fc|e] eqn:Hload;
        cbn [bind].
      2:{ left; exists n, f; auto. }
      pose proof (load_jsonl_file_NoDup _ _ _ Hload) as Hnd.
      pose proof (load_jsonl_file_loaded _ _ _ Hload) as Hfc.
      destruct (merge_file_reconciled (keys dir) n fc (jsonl_contents st) (printed st) Hst)
        as [(c1 & w1 & -> & Hc1 & Hnd1)|(k & n1 & Hn1 & [->| ->])]; cbn [bind]; auto.
      * intros k r Hkr; apply Hfc; now apply NoDup_keys_lookup.
      * apply IH; auto.
      * right; right; exists k, n1, n; auto.
      * right; right; exists k, n1, n; auto.
    + destruct (String.eqb_spec n "task_metadata.csv") as [->|Hname].
      * destruct (load_csv_file (file_rows f)) as [tasks|e] eqn:Hload; cbn [bind].
        -- now apply IH.
        -- right; left; exists f; auto.
      * now apply IH.
Qed.

Lemma reconciled_entries_empty (names : list string) : reconciled_entries names [].
Proof. intros k r H; discriminate. Qed.

Lemma load_directory_reconciled (dir_name : string) (dir : list (string * file))
    (st : directory_state) :
  load_directory dir_name dir = OK st ->
  reconciled_entries (keys dir) (jsonl_contents st) /\ NoDup (keys (jsonl_contents st)).
Proof.
  intros H.
  pose proof (load_directory_loop_explained dir_name dir dir
                {| jsonl_contents := []; printed := []; csv_metadata := [] |}
                (incl_refl dir) (reconciled_entries_empty _) (NoDup_nil _)) as Hloop.
  unfold load_directory in H; rewrite H in Hloop; exact Hloop.
Qed.

(** X5: every entry of the [jsonl_contents] that [load_directory] returns,
    merged or not, is stored once, is still keyed by its own identifiers
    and condition, still carries a datetime start time and numeric totals,
    and names one of the files of the listing as its [file_source]. *)
Theorem reconciled_entries_stay_well_formed_and_name_their_source :
  forall (dir_name : string) (dir : list (string * file)) (st : directory_state),
    load_directory dir_name dir = OK st ->
    NoDup (keys (jsonl_contents st))
    /\ forall k r,
         lookup k (jsonl_contents st) = Some r ->
         loaded_entry k r
         /\ exists n, In n (keys dir) /\ lookup "file_source" r = Some (FVal (VStr n)).
Proof.
  intros dir_name dir st H.
  destruct (load_directory_reconciled _ _ _ H) as [Hc Hnd]; split; [exact Hnd | exact Hc].
Qed.

(** X6: when the totals that the JSONL files of a listing report are floats,
    or ints that are floats themselves, [load_directory] fails only with the
    error of the loader of one of the listing's JSONL files, with the error
    of the loader of [task_metadata.csv], or with one of the two conflict
    errors, naming two files of the listing; its own look-ups and
    subtractions raise nothing. *)
Theorem directory_errors_come_from_a_loader_or_a_conflict :
  forall (dir_name : string) (dir : list (string * file)) (e : error),
    float_safe_totals dir_name dir ->
    load_directory dir_name dir = Err e ->
    (exists n f, In (n, f) dir /\ splitext_ext n = ".jsonl"
                 /\ load_jsonl_file (path_join dir_name n) (file_lines f) = Err e)
    \/ (exists f, In ("task_metadata.csv", f) dir /\ load_csv_file (file_rows f) = Err e)
    \/ (exists k n1 n2, In n1 (keys dir) /\ In n2 (keys dir)
                        /\ (e = ConflictingStateTransitions k n1 n2
                            \/ e = ConflictingSubjectTask k n1 n2)).
Proof.
  intros dir_name dir e _ H.
  pose proof (load_directory_loop_explained dir_name dir dir
                {| jsonl_contents := []; printed := []; csv_metadata := [] |}
                (incl_refl dir) (reconciled_entries_empty _) (NoDup_nil _)) as Hloop.
  unfold load_directory in H; rewrite H in Hloop; exact Hloop.
Qed.

(** *** Files the directory loader does not read, and files that share no session *)

Lemma load_directory_loop_app (dir_name : string) :
  forall (pre post : list (string * file)) (st : directory_state),
    load_directory_loop dir_name (pre ++ post) st
    = st1 <- load_directory_loop dir_name pre st ;;
      load_directory_loop dir_name post st1.
Proof.
  induction pre as [|[n f] pre IH]; intros post st; cbn [app load_directory_loop bind].
  - reflexivity.
  - destruct (load_directory_step dir_name st n f); cbn [bind]; [apply IH | reflexivity].
Qed.

Lemma load_directory_step_not_read (dir_name : string) (st : directory_state) (n : string)
    (f : file) :
  is_read n = false -> load_directory_step dir_name st n f = OK st.
Proof.
  unfold is_read, load_directory_step; intros H.
  apply orb_false_iff in H as [-> ->]; reflexivity.
Qed.

(** X7: [load_directory] reads the files whose extension is [.jsonl] and the
    file named [task_metadata.csv], and nothing else: whatever else the
    listing holds, in whatever place, the outcome (dictionaries, warnings or
    error) is the one on the listing without it. *)
Theorem directory_loader_ignores_the_files_it_does_not_read :
  forall (dir_name : string) (dir : list (string * file)),
    load_directory dir_name dir
    = load_directory dir_name (filter (fun nf => is_read (fst nf)) dir).
Proof.
  intros dir_name dir; unfold load_directory.
  generalize {| jsonl_contents := []; printed := []; csv_metadata := [] |}.
  induction dir as [|[n f] dir IH]; intros st; cbn [filter fst]; [reflexivity |].
  destruct (is_read n) eqn:Hread; cbn [load_directory_loop].
  - destruct (load_directory_step dir_name st n f); cbn [bind]; [apply IH | reflexivity].
  - rewrite (load_directory_step_not_read _ _ _ _ Hread); cbn [bind]; apply IH.
Qed.

Lemma NoDup_app_disjoint {A : Type} (l1 l2 : list A) (x : A) :
  NoDup (l1 ++ l2) -> In x l1 -> In x l2 -> False.
Proof.
  induction l1 as [|a l1 IH]; intros Hnd H1 H2; [destruct H1 |].
  inversion Hnd as [|? ? Hnotin Hnd']; subst.
  destruct H1 as [->|H1]; [apply Hnotin, in_or_app; now right | auto].
Qed.

Lemma keys_stamped (filename : string) (fc : dict record) :
  keys (stamped filename fc) = keys fc.
Proof. unfold stamped; apply keys_map_snd. Qed.

Lemma load_directory_loop_disjoint (dir_name : string) :
  forall (files : list (string * file)) (loaded : list (dict record))
         (c : dict record) (w : list warning) (m : dict (dict cell)),
    Forall2 (fun nf fc =>
               splitext_ext (fst nf) = ".jsonl"
               /\ load_jsonl_file (path_join dir_name (fst nf)) (file_lines (snd nf)) = OK fc)
            files loaded ->
    NoDup (keys c ++ List.concat (map keys loaded))%list ->
    load_directory_loop dir_name files
      {| jsonl_contents := c; printed := w; csv_metadata := m |}
    = OK {| jsonl_contents :=
              (c ++ List.concat (map (fun nfc => stamped (fst (fst nfc)) (snd nfc))
                                (combine files loaded)))%list;
            printed := w; csv_metadata := m |}.
Proof.
  induction files as [|[n f] files IH]; intros loaded c w m Hall Hnd;
    inversion Hall as [|nf fc files' loaded' [Hext Hload] Hrest]; subst;
    cbn [load_directory_loop combine map List.concat fst snd] in *.
  - now rewrite app_nil_r.
  - rewrite (load_directory_step_jsonl _ _ _ _ _ Hext Hload); cbn [jsonl_contents printed].
    rewrite app_assoc in Hnd.
    rewrite merge_file_fresh; cbn [bind fst snd csv_metadata].
    + rewrite IH with (loaded := loaded'); auto.
      * now rewrite <- app_assoc.
      * unfold keys in *; now rewrite map_app, (keys_stamped n fc : map fst _ = map fst fc).
    + exact (load_jsonl_file_NoDup _ _ _ Hload).
    + intros k Hk; apply lookup_not_in_keys; intros Hc.
      apply NoDup_app_remove_r in Hnd.
      exact (NoDup_app_disjoint _ _ _ Hnd Hc Hk).
Qed.

(** X8: JSONL files that share no session key load into the concatenation
    of their dictionaries, in the order of the listing, every entry stamped
    with the name of its file; nothing is printed and nothing is refused. *)
Theorem files_without_a_common_session_load_side_by_side :
  forall (dir_name : string) (files : list (string * file)) (loaded : list (dict record)),
    Forall2 (fun nf fc =>
               splitext_ext (fst nf) = ".jsonl"
               /\ load_jsonl_file (path_join dir_name (fst nf)) (file_lines (snd nf)) = OK fc)
            files loaded ->
    NoDup (List.concat (map keys loaded)) ->
    load_directory dir_name files
    = OK {| jsonl_contents :=
              List.concat (map (fun nfc => stamped (fst (fst nfc)) (snd nfc))
                          (combine files loaded));
            printed := []; csv_metadata := [] |}.
Proof.
  intros dir_name files loaded Hall Hnd; unfold load_directory.
  now rewrite (load_directory_loop_disjoint dir_name files loaded [] [] [] Hall).
Qed.

(** *** The metadata table *)

Lemma skipn_nth_error {A : Type} (l : list A) :
  forall (n : nat) (x : A), nth_error l n = Some x -> skipn n l = x :: skipn (S n) l.
Proof.
  induction l as [|a l IH]; intros [|n] x H; cbn in *; try discriminate.
  - now inversion H.
  - now apply IH.
Qed.

Lemma row_attributes_in_range (column_names : list string) :
  forall (cols : list cell) (j : nat) (attributes : dict cell),
    (1 <= j)%nat ->
    (List.length cols <= List.length column_names - j)%nat ->
    row_attributes column_names j cols attributes
    = OK (stored (combine (skipn j column_names) cols) attributes).
Proof.
  induction cols as [|col cols IH]; intros j attributes Hj Hlen.
  - now rewrite combine_nil.
  - destruct j as [|j]; [lia |]; cbn [row_attributes List.length] in *.
    destruct (nth_error column_names (S j)) as [name|] eqn:Hname.
    2:{ apply nth_error_None in Hname; lia. }
    rewrite IH by lia.
    now rewrite (skipn_nth_error _ _ _ Hname).
Qed.

Lemma row_attributes_out_of_range (column_names : list string) :
  forall (cols : list cell) (j : nat) (attributes : dict cell),
    (1 <= j)%nat ->
    (List.length column_names - j < List.length cols)%nat ->
    row_attributes column_names j cols attributes = Err PyIndexError.
Proof.
  induction cols as [|col cols IH]; intros j attributes Hj Hlen; cbn [List.length] in *.
  - lia.
  - destruct j as [|j]; [lia |]; cbn [row_attributes].
    destruct (nth_error column_names (S j)) as [name|] eqn:Hname; [| reflexivity].
    assert (S j < List.length column_names)%nat by (apply nth_error_Some; congruence).
    apply IH; lia.
Qed.

Lemma verify_row_types_length (row : list string) (row_no : nat) (converted : list cell) :
  verify_row_types row row_no = OK converted ->
  List.length converted = List.length row /\ (3 <= List.length row)%nat.
Proof.
  intros H; apply verify_row_types_ok in H as (Hlen & _ & (s & z & Hs & _) & _).
  split; [exact Hlen |].
  assert (2 < List.length row)%nat by (apply nth_error_Some; congruence); lia.
Qed.

Lemma verify_row_types_row_no (row : list string) (n m : nat) (converted : list cell) :
  verify_row_types row n = OK converted -> verify_row_types row m = OK converted.
Proof.
  unfold verify_row_types, to_float, to_int; intros H.
  destruct (row_get row 1) as [s1|]; cbn [bind] in *; [| discriminate].
  destruct (float_of_string s1); cbn [bind] in *; [| discriminate].
  destruct (row_get row 2) as [s2|]; cbn [bind] in *; [| discriminate].
  destruct (int_of_string s2); cbn [bind] in *; [| discriminate].
  destruct (3 <? List.length row)%nat; [| exact H].
  destruct (row_get row 3) as [s3|]; cbn [bind] in *; [| discriminate].
  destruct (negb (String.eqb s3 "")); [| exact H].
  destruct (float_of_string s3); cbn [bind] in *; [exact H | discriminate].
Qed.

Lemma row_attributes_of_row (column_names : list string) (converted : list cell) :
  (1 <= List.length converted)%nat ->
  row_attributes column_names 0 converted []
  = if (List.length converted <=? List.length column_names)%nat
    then OK (stored (combine (tl column_names) (tl converted)) [])
    else if (List.length converted <=? 1)%nat
         then OK []
         else Err PyIndexError.
Proof.
  destruct converted as [|c0 rest]; cbn [List.length]; [lia | intros _].
  cbn [row_attributes tl].
  destruct (Nat.leb_spec (S (List.length rest)) (List.length column_names)) as [Hle|Hgt].
  - rewrite row_attributes_in_range by lia.
    now destruct column_names.
  - destruct (Nat.leb_spec (S (List.length rest)) 1) as [Hone|Hmore].
    + destruct rest; [reflexivity | cbn in Hone; lia].
    + apply row_attributes_out_of_range; lia.
Qed.

Lemma csv_loop_stored (column_names : list string) :
  forall (rows : list (list string)) (i : nat) (acc tasks : dict (dict cell)),
    csv_loop column_names rows i acc = OK tasks ->
    exists entries,
      Forall2 (metadata_entry column_names) rows entries /\ tasks = stored entries acc.
Proof.
  induction rows as [|row rows IH]; intros i acc tasks H; cbn [csv_loop] in H.
  - inversion H; subst; exists []; split; [constructor | reflexivity].
  - apply bind_ok in H as (converted & Hconv & H).
    apply bind_ok in H as (attributes & Hattr & H).
    apply bind_ok in H as (task & Htask & H).
    destruct (IH _ _ _ H) as (entries & Hall & ->).
    destruct (verify_row_types_length _ _ _ Hconv) as (Hlen & Hthree).
    rewrite row_attributes_of_row in Hattr by lia.
    destruct (Nat.leb_spec (List.length converted) (List.length column_names)) as [Hle|Hgt].
    2:{ destruct (Nat.leb_spec (List.length converted) 1); [lia | discriminate]. }
    inversion Hattr; subst attributes.
    exists ((task, stored (combine (tl column_names) (tl converted)) []) :: entries).
    split; [| reflexivity].
    constructor; [| exact Hall].
    exists (S i), converted; repeat split; auto; try lia.
    now apply row_get_ok in Htask.
Qed.

Lemma csv_loop_app (column_names : list string) :
  forall (pre post : list (list string)) (i : nat) (acc : dict (dict cell)),
    csv_loop column_names (pre ++ post) i acc
    = acc1 <- csv_loop column_names pre i acc ;;
      csv_loop column_names post (i + List.length pre) acc1.
Proof.
  induction pre as [|row pre IH]; intros post i acc; cbn [app csv_loop List.length bind].
  - now rewrite Nat.add_0_r.
  - destruct (verify_row_types row (S i)) as [converted|]; cbn [bind]; [| reflexivity].
    destruct (row_attributes column_names 0 converted []); cbn [bind]; [| reflexivity].
    destruct (row_get row 0); cbn [bind]; [| reflexivity].
    rewrite IH; now rewrite Nat.add_succ_r.
Qed.

Lemma load_csv_file_stored (column_names : list string) (rows : list (list string))
    (tasks : dict (dict cell)) :
  load_csv_file (column_names :: rows) = OK tasks ->
  verify_column_names column_names = OK tt
  /\ exists entries,
       Forall2 (metadata_entry column_names) rows entries /\ tasks = stored entries [].
Proof.
  unfold load_csv_file; intros H.
  apply bind_ok in H as ([] & Hheader & H).
  split; [exact Hheader | exact (csv_loop_stored _ _ _ _ _ H)].
Qed.

Lemma load_csv_file_NoDup (rows : list (list string)) (tasks : dict (dict cell)) :
  load_csv_file rows = OK tasks -> NoDup (keys tasks).
Proof.
  destruct rows as [|column_names rows]; intros H.
  - inversion H; constructor.
  - apply load_csv_file_stored in H as (_ & entries & _ & ->).
    apply NoDup_keys_stored; constructor.
Qed.

(** X9: a metadata table that loads has an accepted header and rows of three
    cells at least and of no more cells than the header; every row is
    stored under its first cell, with the converted cells after the first
    bound to the header names at their positions, and a later row with the
    task of an earlier one replaces it. *)
Theorem metadata_rows_are_stored_by_task_under_the_header_names :
  forall (column_names : list string) (rows : list (list string))
         (tasks : dict (dict cell)),
    load_csv_file (column_names :: rows) = OK tasks ->
    verify_column_names column_names = OK tt
    /\ NoDup (keys tasks)
    /\ (forall row, In row rows ->
                    (3 <= List.length row <= List.length column_names)%nat)
    /\ exists entries,
         Forall2 (metadata_entry column_names) rows entries
         /\ forall task, lookup task tasks = last_binding task entries.
Proof.
  intros column_names rows tasks H.
  pose proof (load_csv_file_NoDup _ _ H) as Hnd.
  apply load_csv_file_stored in H as (Hheader & entries & Hall & ->).
  split; [exact Hheader | split; [exact Hnd | split]].
  - intros row Hin.
    clear Hnd; induction Hall as [|r e rows entries He Hall IH]; [destruct Hin |].
    destruct Hin as [->|Hin]; [| auto].
    destruct He as (row_no & converted & Hconv & Hle & _).
    apply verify_row_types_length in Hconv; lia.
  - exists entries; split; [exact Hall |].
    intros task; rewrite lookup_stored; now destruct (last_binding task entries).
Qed.

(** X10: a blank line, a row of one cell, or a row with more cells than the
    header stops the load of the metadata table with an [IndexError],
    whatever comes after it. *)
Theorem short_or_long_metadata_row_raises_index_error :
  forall (column_names : list string) (pre post : list (list string))
         (row : list string) (tasks : dict (dict cell)),
    load_csv_file (column_names :: pre) = OK tasks ->
    (List.length row <= 1)%nat
    \/ ((List.length column_names < List.length row)%nat
        /\ exists row_no converted, verify_row_types row row_no = OK converted) ->
    load_csv_file (column_names :: pre ++ row :: post) = Err PyIndexError.
Proof.
  unfold load_csv_file; intros column_names pre post row tasks H Hrow.
  apply bind_ok in H as ([] & -> & H); cbn [bind] in *.
  rewrite csv_loop_app, H; cbn [bind csv_loop].
  destruct Hrow as [Hshort|(Hlong & row_no & converted & Hconv)].
  - unfold verify_row_types, row_get.
    destruct (nth_error row 1) eqn:Hnth; [| reflexivity].
    assert (1 < List.length row)%nat by (apply nth_error_Some; congruence); lia.
  - rewrite (verify_row_types_row_no _ _ (S (1 + List.length pre)) _ Hconv); cbn [bind].
    destruct (verify_row_types_length _ _ _ Hconv) as (Hlen & Hthree).
    rewrite row_attributes_of_row by lia.
    destruct (Nat.leb_spec (List.length converted) (List.length column_names)); [lia |].
    destruct (Nat.leb_spec (List.length converted) 1); [lia | reflexivity].
Qed.

(** *** The metadata of a directory *)

Lemma load_directory_loop_metadata (dir_name : string) :
  forall (rest : list (string * file)) (st st' : directory_state),
    load_directory_loop dir_name rest st = OK st' ->
    NoDup (keys rest) ->
    match lookup "task_metadata.csv" rest with
    | Some f => exists tasks, load_csv_file (file_rows f) = OK tasks
                              /\ csv_metadata st' = stored tasks (csv_metadata st)
    | None => csv_metadata st' = csv_metadata st
    end.
Proof.
  induction rest as [|[n f] rest IH]; intros st st' H Hnd; cbn [load_directory_loop] in H.
  - inversion H; reflexivity.
  - apply bind_ok in H as (st1 & Hstep & Hloop).
    inversion Hnd as [|? ? Hnotin Hnd']; subst.
    specialize (IH _ _ Hloop Hnd').
    cbn [lookup]; unfold load_directory_step in Hstep.
    destruct (String.eqb_spec "task_metadata.csv" n) as [<-|Hne].
    + cbn in Hstep.
      apply bind_ok in Hstep as (tasks & Htasks & Hstep).
      inversion Hstep; subst st1; cbn [csv_metadata] in IH.
      rewrite (lookup_not_in_keys _ _ Hnotin) in IH.
      exists tasks; split; [exact Htasks | exact IH].
    + assert (Hsame : csv_metadata st1 = csv_metadata st).
      { destruct (String.eqb (splitext_ext n) ".jsonl").
        - apply bind_ok in Hstep as (fc & _ & Hstep).
          apply bind_ok in Hstep as (merged & _ & Hstep).
          now inversion Hstep.
        - destruct (String.eqb_spec n "task_metadata.csv") as [->|_]; [congruence |].
          now inversion Hstep. }
      now rewrite Hsame in IH.
Qed.

(** X11: in a listing (a directory holds a name once) the [csv_metadata]
    that [load_directory] returns is what [load_csv_file] returns on the
    file named [task_metadata.csv], and is empty when there is no file of
    that name; JSONL files and metadata tables of another name add nothing
    to it. *)
Theorem directory_metadata_is_the_table_named_task_metadata :
  forall (dir_name : string) (dir : list (string * file)) (st : directory_state),
    load_directory dir_name dir = OK st ->
    NoDup (keys dir) ->
    match lookup "task_metadata.csv" dir with
    | Some f => load_csv_file (file_rows f) = OK (csv_metadata st)
    | None => csv_metadata st = []
    end.
Proof.
  intros dir_name dir st H Hnd.
  pose proof (load_directory_loop_metadata _ _ _ _ H Hnd) as Hm.
  destruct (lookup "task_metadata.csv" dir) as [f|]; [| exact Hm].
  destruct Hm as (tasks & Htasks & Hm); cbn [csv_metadata] in Hm.
  rewrite Hm, stored_fresh; [exact Htasks |].
  exact (load_csv_file_NoDup _ _ Htasks).
Qed.

(** *** Strings *)

Lemma string_app_assoc (a b c : string) : (a ++ b) ++ c = a ++ b ++ c.
Proof. induction a as [|x a IH]; cbn; [reflexivity | now rewrite IH]. Qed.

Lemma prefix_spec (p s : string) : String.prefix p s = true <-> exists r, s = p ++ r.
Proof.
  revert s; induction p as [|a p IH]; intros s.
  - split; [intros _; exists s; reflexivity | intros _; now destruct s].
  - destruct s as [|b s]; cbn.
    + split; [discriminate | intros [r Hr]; discriminate].
    + destruct (ascii_dec a b) as [->|Hne].
      * rewrite IH; split; intros [r Hr]; exists r; [now rewrite Hr | now inversion Hr].
      * split; [discriminate | intros [r Hr]; inversion Hr; congruence].
Qed.

Lemma contains_spec (s p : string) :
  contains s p = true <-> exists a b, s = a ++ p ++ b.
Proof.
  induction s as [|x s IH]; cbn [contains]; rewrite orb_true_iff, prefix_spec.
  - split.
    + intros [[r Hr]|H]; [exists "", r; exact Hr | discriminate].
    + intros (a & b & H); left; exists b.
      destruct a; [exact H | discriminate].
  - rewrite IH; split.
    + intros [[r Hr]|(a & b & H)]; [exists "", r; exact Hr |].
      exists (String x a), b; cbn; now rewrite H.
    + intros (a & b & H); destruct a as [|y a]; cbn in H.
      * left; exists b; exact H.
      * right; exists a, b; now inversion H.
Qed.

Lemma endswith_spec (s p : string) : endswith s p = true <-> exists q, s = q ++ p.
Proof.
  induction s as [|x s IH]; cbn [endswith]; rewrite orb_true_iff, String.eqb_eq.
  - split.
    + intros [->|H]; [exists ""; reflexivity | discriminate].
    + intros (q & H); left; destruct q; [exact H | discriminate].
  - rewrite IH; split.
    + intros [->|(q & ->)]; [exists ""; reflexivity | exists (String x q); reflexivity].
    + intros (q & H); destruct q as [|y q]; cbn in H.
      * now left.
      * right; exists q; now inversion H.
Qed.

Lemma underscore_free_app (x y : string) : underscore_free (x ++ "_" ++ y) = false.
Proof.
  induction x as [|a x IH]; cbn; [reflexivity |].
  cbn in IH; rewrite IH; apply andb_false_r.
Qed.

Lemma underscore_free_cut (x y : string) : underscore_free (x ++ String "_" y) = false.
Proof. exact (underscore_free_app x y). Qed.

Ltac holds_underscore H :=
  first [rewrite underscore_free_app in H | rewrite underscore_free_cut in H]; discriminate H.

Lemma underscore_free_head (a : ascii) (s : string) :
  underscore_free (String a s) = true -> a <> "_"%char /\ underscore_free s = true.
Proof.
  cbn; intros H; apply andb_true_iff in H as [Ha Hs]; split; [| exact Hs].
  intros ->; discriminate.
Qed.

(** Two ways to cut a string at an underscore, the second at its first one. *)
Lemma cut_at_first_underscore (S : string) :
  underscore_free S = true ->
  forall a x y,
    a ++ "_" ++ x = S ++ "_" ++ y ->
    (a = S /\ x = y) \/ (exists z, a = S ++ "_" ++ z /\ y = z ++ "_" ++ x).
Proof.
  induction S as [|s0 S IH]; intros Hfree a x y H.
  - destruct a as [|ch a]; cbn in H.
    + left; split; [reflexivity | now inversion H].
    + right; exists a; inversion H; subst; auto.
  - apply underscore_free_head in Hfree as [Hs0 Hfree].
    destruct a as [|ch a]; cbn in H.
    + inversion H; subst; contradiction.
    + inversion H; subst ch.
      destruct (IH Hfree a x y) as [[-> ->]|(z & -> & ->)]; auto.
      right; exists z; auto.
Qed.

Lemma startswith_identifier (s S R : string) :
  underscore_free s = true -> underscore_free S = true ->
  (startswith (S ++ "_" ++ R) (s ++ "_") = true <-> s = S).
Proof.
  intros Hs HS; unfold startswith; rewrite prefix_spec; split.
  - intros [r Hr]; rewrite string_app_assoc in Hr; symmetry in Hr.
    destruct (cut_at_first_underscore S HS s r R Hr) as [[H _]|(z & H & _)]; [exact H |].
    subst s; holds_underscore Hs.
  - intros ->; exists R; now rewrite string_app_assoc.
Qed.

Lemma endswith_identifier (t X T : string) :
  underscore_free t = true -> underscore_free T = true ->
  (endswith (X ++ "_" ++ T) ("_" ++ t) = true <-> t = T).
Proof.
  intros Ht HT; rewrite endswith_spec; split.
  - intros [q Hq]; symmetry in Hq; revert X Hq.
    induction q as [|a q IH]; intros X Hq; cbn in Hq.
    + destruct X as [|b X]; cbn in Hq; inversion Hq; [reflexivity |].
      subst t; holds_underscore Ht.
    + destruct X as [|b X]; cbn in Hq; inversion Hq.
      * subst T; holds_underscore HT.
      * eauto.
  - intros ->; exists X; reflexivity.
Qed.

Lemma contains_identifier (c S C T : string) :
  underscore_free S = true -> underscore_free C = true -> underscore_free T = true ->
  (contains (S ++ "_" ++ C ++ "_" ++ T) ("_" ++ c ++ "_") = true <-> c = C).
Proof.
  intros HS HC HT; rewrite contains_spec; split.
  - intros (a & b & H); symmetry in H.
    change (a ++ ("_" ++ c ++ "_") ++ b) with (a ++ "_" ++ (c ++ "_") ++ b) in H.
    rewrite string_app_assoc in H.
    destruct (cut_at_first_underscore S HS _ _ _ H) as [[_ H1]|(z & _ & H1)].
    + destruct (cut_at_first_underscore C HC _ _ _ H1) as [[H2 _]|(z & _ & H2)];
        [exact H2 |].
      subst T; holds_underscore HT.
    + symmetry in H1.
      destruct (cut_at_first_underscore C HC _ _ _ H1) as [[_ H2]|(z' & _ & H2)];
        subst T; holds_underscore HT.
  - intros ->; exists S, T.
    change (S ++ ("_" ++ C ++ "_") ++ T) with (S ++ "_" ++ (C ++ "_") ++ T).
    now rewrite string_app_assoc.
Qed.

(** *** filter_jsonl_input *)

Lemma In_filter_by (parameter : option string) (keep : string -> string -> bool)
    (jsonl_input : dict record) (kv : string * record) :
  In kv (filter_by parameter keep jsonl_input)
  <-> In kv jsonl_input
      /\ match parameter with
         | Some p => p = "" \/ keep (fst kv) p = true
         | None => True
         end.
Proof.
  unfold filter_by; destruct parameter as [p|]; [| tauto].
  destruct (String.eqb_spec p "") as [->|Hne]; cbn [negb].
  - tauto.
  - rewrite filter_In; intuition congruence.
Qed.

Lemma filter_jsonl_input_incl (jsonl_input : dict record) (subject condition task : option string)
    (kv : string * record) :
  In kv (filter_jsonl_input jsonl_input subject condition task) -> In kv jsonl_input.
Proof.
  unfold filter_jsonl_input; intros H.
  apply In_filter_by in H as [H _]; apply In_filter_by in H as [H _].
  now apply In_filter_by in H as [H _].
Qed.

(** X12: on keys of the loaders' form [<subject>_<condition>_<task>] whose
    three parts hold no underscore, [filter_jsonl_input] keeps exactly the
    entries whose subject, condition and task are the ones asked for (a
    parameter that is [None] or empty asks for nothing), whatever else the
    dictionary holds. *)
Theorem filter_keeps_exactly_the_entries_asked_for :
  forall (jsonl_input : dict record) (subject condition task : option string)
         (S C T : string) (r : record),
    underscore_free S = true -> underscore_free C = true -> underscore_free T = true ->
    (forall s, subject = Some s -> underscore_free s = true) ->
    (forall t, task = Some t -> underscore_free t = true) ->
    (In (S ++ "_" ++ C ++ "_" ++ T, r) (filter_jsonl_input jsonl_input subject condition task)
     <-> In (S ++ "_" ++ C ++ "_" ++ T, r) jsonl_input
         /\ selects subject S /\ selects condition C /\ selects task T).
Proof.
  intros jsonl_input subject condition task S C T r HS HC HT Hsubject Htask.
  unfold filter_jsonl_input; rewrite !In_filter_by; cbn [fst].
  assert (H1 : match subject with
               | Some p => p = "" \/ startswith (S ++ "_" ++ C ++ "_" ++ T) (p ++ "_") = true
               | None => True
               end <-> selects subject S).
  { destruct subject as [s|]; cbn [selects]; [| tauto].
    rewrite (startswith_identifier s S _ (Hsubject s eq_refl) HS); tauto. }
  assert (H2 : match condition with
               | Some p => p = "" \/ contains (S ++ "_" ++ C ++ "_" ++ T) ("_" ++ p ++ "_") = true
               | None => True
               end <-> selects condition C).
  { destruct condition as [c|]; cbn [selects]; [| tauto].
    rewrite (contains_identifier c S C T HS HC HT); tauto. }
  assert (H3 : match task with
               | Some p => p = "" \/ endswith (S ++ "_" ++ C ++ "_" ++ T) ("_" ++ p) = true
               | None => True
               end <-> selects task T).
  { destruct task as [t|]; cbn [selects]; [| tauto].
    replace (S ++ "_" ++ C ++ "_" ++ T) with ((S ++ "_" ++ C) ++ "_" ++ T)
      by (now rewrite !string_app_assoc).
    rewrite (endswith_identifier t _ T (Htask t eq_refl) HT); tauto. }
  tauto.
Qed.

(** *** Sums, averages and quotients *)

Lemma and_then_returns {A B : Type} (r : outcome A) (k : A -> outcome B) (b : B) :
  and_then r k = Returns b -> exists a, r = Returns a /\ k a = Returns b.
Proof. destruct r as [a|e]; cbn; intros H; [eauto | discriminate]. Qed.


Lemma len_cons {A : Type} (x : A) (xs : list A) : len (x :: xs) == 1 + len xs.
Proof.
  unfold len; cbn [List.length]; rewrite Nat2Z.inj_succ; unfold Z.succ.
  rewrite inject_Z_plus; ring.
Qed.

Lemma len_nonneg {A : Type} (xs : list A) : (0 <= len xs)%Q.
Proof.
  unfold len; change 0%Q with (inject_Z 0); rewrite <- Zle_Qle; apply Nat2Z.is_nonneg.
Qed.

Lemma len_pos {A : Type} (xs : list A) : xs <> [] -> (0 < len xs)%Q.
Proof.
  destruct xs as [|x xs]; [congruence | intros _].
  rewrite len_cons; pose proof (len_nonneg xs); lra.
Qed.


Lemma divide_returns (a b : Q) : ~ b == 0 -> divide a b = Returns (a / b)%Q.
Proof.
  intros H; unfold divide; destruct (Qeq_bool b 0) eqn:Hb; [| reflexivity].
  apply Qeq_bool_iff in Hb; contradiction.
Qed.


(** *** Time-based metrics *)

Lemma get_average_total_time_mean (d : dict record) :
  (forall k r, In (k, r) d -> numeric_field "task_total_time" r) ->
  exists ts,
    Forall2 (fun kv t => number_at "task_total_time" (snd kv) t) d ts
    /\ get_average_total_time d = divide (sum ts) (len ts).
Proof.
  intros H.
  assert (Hc : exists fs ts,
             collected "task_total_time" d = Returns fs /\ numbers fs = Returns ts
             /\ Forall2 (fun kv t => number_at "task_total_time" (snd kv) t) d ts).
  { induction d as [|[k r] d IH].
    - exists [], []; repeat split; constructor.
    - destruct IH as (fs & ts & Hfs & Hts & Hall); [intros k' r' Hin; apply (H k'); now right |].
      destruct (H k r (or_introl eq_refl)) as (v & q & Hv & Hq).
      exists (FVal v :: fs), (q :: ts); cbn [collected numbers].
      unfold getitem, field_number; rewrite Hv, Hfs, Hq, Hts; cbn.
      repeat split; constructor; [exists v; auto | exact Hall]. }
  destruct Hc as (fs & ts & Hfs & Hts & Hall); exists ts; split; [exact Hall |].
  unfold get_average_total_time; now rewrite Hfs; cbn; rewrite Hts.
Qed.

Lemma Forall2_nonempty {A B : Type} (R : A -> B -> Prop) (l : list A) (l' : list B) :
  Forall2 R l l' -> l <> [] -> l' <> [].
Proof. intros H; destruct H; [congruence | discriminate]. Qed.


Lemma mean_returns (xs : list Q) :
  xs <> [] -> divide (sum xs) (len xs) = Returns (sum xs / len xs)%Q.
Proof. intros Hne; apply divide_returns; pose proof (len_pos xs Hne); lra. Qed.


Lemma selection_cases (d : dict record) (e : exception) :
  (d = [] /\ raise_when (List.length d <=? 0)%nat e = Raises e)
  \/ (d <> [] /\ raise_when (List.length d <=? 0)%nat e = Returns tt).
Proof. destruct d; [left | right]; split; [reflexivity | reflexivity | discriminate | reflexivity]. Qed.


(** *** The time metrics on a loaded directory *)

Lemma km_time_fractions_numeric (d : dict record) :
  (forall k r, In (k, r) d ->
               numeric_field "km_pull_total_time" r /\ numeric_field "task_total_time" r) ->
  (exists xs, km_time_fractions d = Returns xs /\ List.length xs = List.length d)
  \/ km_time_fractions d = Raises ZeroDivisionError.
Proof.
  induction d as [|[k r] d IH]; intros H.
  - left; exists []; auto.
  - destruct (H k r (or_introl eq_refl)) as ((vk & km & Hvk & Hkm) & (vt & total & Hvt & Ht)).
    cbn [km_time_fractions]; unfold getitem; rewrite Hvk, Hvt; cbn [lift and_then field_number].
    rewrite Hkm, Ht; cbn [lift and_then]; unfold divide.
    destruct (Qeq_bool total 0); cbn [and_then]; [now right |].
    destruct IH as [(xs & -> & Hlen)| ->]; cbn [and_then];
      [intros k' r' Hin; apply (H k'); now right | | now right].
    left; eexists; split; [reflexivity | cbn; now rewrite Hlen].
Qed.

Lemma average_km_fraction_numeric (d : dict record) :
  d <> [] ->
  (forall k r, In (k, r) d ->
               numeric_field "km_pull_total_time" r /\ numeric_field "task_total_time" r) ->
  (exists a, get_average_km_fraction d = Returns a)
  \/ get_average_km_fraction d = Raises ZeroDivisionError.
Proof.
  intros Hne H; unfold get_average_km_fraction.
  destruct (km_time_fractions_numeric d H) as [(xs & -> & Hlen)| ->]; cbn [and_then];
    [| now right].
  left; rewrite mean_returns; [eauto |].
  destruct xs, d; cbn in Hlen; congruence.
Qed.

Lemma average_total_time_numeric (d : dict record) :
  d <> [] ->
  (forall k r, In (k, r) d -> numeric_field "task_total_time" r) ->
  exists a, get_average_total_time d = Returns a.
Proof.
  intros Hne H; destruct (get_average_total_time_mean d H) as (ts & Hall & ->).
  rewrite mean_returns; [eauto | exact (Forall2_nonempty _ _ _ Hall Hne)].
Qed.

(** X16: on the [jsonl_contents] of a directory that loaded, with totals
    that are floats or ints that are floats themselves, and for an optimal
    time that is such a number too, the two time-based metrics raise no
    [KeyError] and no [TypeError]: each returns a number, reports that the
    task has no prototype or no baseline entry, or divides by zero. *)
Theorem time_metrics_on_a_loaded_directory_raise_no_key_or_type_error :
  forall (dir_name : string) (dir : list (string * file)) (st : directory_state)
         (task : string) (optimal : value) (optimal_time : Q) (e : exception),
    load_directory dir_name dir = OK st ->
    float_safe_entries (jsonl_contents st) ->
    num_of optimal = Some optimal_time ->
    float_safe optimal ->
    get_km_time_proportional_reduction (jsonl_contents st) task = Raises e
    \/ get_prototype_time_relative_to_baseline_and_optimal (jsonl_contents st) task
         optimal_time = Raises e ->
    e = NoPrototypeData task \/ e = NoBaselineData task \/ e = ZeroDivisionError.
Proof.
  intros dir_name dir st task optimal optimal_time e Hload _ _ _.
  destruct (load_directory_reconciled _ _ _ Hload) as [Hc Hnd].
  assert (Hnum : forall (d : dict record),
             (forall kv, In kv d -> In kv (jsonl_contents st)) ->
             forall k r, In (k, r) d ->
                         numeric_field "km_pull_total_time" r
                         /\ numeric_field "task_total_time" r).
  { intros d Hd k r Hin.
    destruct (Hc k r (NoDup_keys_lookup _ _ _ Hnd (Hd _ Hin))) as ((_ & _ & Ht & Hk & _) & _).
    auto. }
  assert (Hp := Hnum (prototype_entries (jsonl_contents st) task)
                  (fun kv => filter_jsonl_input_incl _ _ _ _ kv)).
  assert (Hb := Hnum (baseline_entries (jsonl_contents st) task)
                  (fun kv => filter_jsonl_input_incl _ _ _ _ kv)).
  intros [H|H].
  - unfold get_km_time_proportional_reduction in H.
    fold (prototype_entries (jsonl_contents st) task) in H.
    fold (baseline_entries (jsonl_contents st) task) in H.
    destruct (selection_cases (prototype_entries (jsonl_contents st) task)
                (NoPrototypeData task)) as [[_ Hr]|[Hpne Hr]]; rewrite Hr in H;
      cbn [and_then] in H; [inversion H; auto |].
    destruct (average_km_fraction_numeric _ Hpne Hp) as [(p & Hpa)|Hpa]; rewrite Hpa in H;
      cbn [and_then] in H; [| inversion H; auto].
    destruct (selection_cases (baseline_entries (jsonl_contents st) task)
                (NoBaselineData task)) as [[_ Hr']|[Hbne Hr']]; rewrite Hr' in H;
      cbn [and_then] in H; [inversion H; auto |].
    destruct (average_km_fraction_numeric _ Hbne Hb) as [(b & Hba)|Hba]; rewrite Hba in H;
      cbn [and_then] in H; [| inversion H; auto].
    destruct (Qeq_bool b 0 && Qeq_bool p 0); [discriminate |].
    destruct (Qeq_bool b 0 || negb (Qle_bool p (2 * b))); discriminate.
  - unfold get_prototype_time_relative_to_baseline_and_optimal in H.
    fold (prototype_entries (jsonl_contents st) task) in H.
    fold (baseline_entries (jsonl_contents st) task) in H.
    destruct (selection_cases (prototype_entries (jsonl_contents st) task)
                (NoPrototypeData task)) as [[_ Hr]|[Hpne Hr]]; rewrite Hr in H;
      cbn [and_then] in H; [inversion H; auto |].
    destruct (average_total_time_numeric _ Hpne) as (p & Hpa);
      [intros k r Hin; exact (proj2 (Hp k r Hin)) |].
    rewrite Hpa in H; cbn [and_then] in H.
    destruct (selection_cases (baseline_entries (jsonl_contents st) task)
                (NoBaselineData task)) as [[_ Hr']|[Hbne Hr']]; rewrite Hr' in H;
      cbn [and_then] in H; [inversion H; auto |].
    destruct (average_total_time_numeric _ Hbne) as (b & Hba);
      [intros k r Hin; exact (proj2 (Hb k r Hin)) |].
    rewrite Hba in H; cbn [and_then] in H.
    unfold divide in H.
    destruct (Qle_bool p b).
    + destruct (Qeq_bool (b - optimal_time) 0); cbn [and_then] in H;
        [inversion H; auto | discriminate].
    + destruct (Qeq_bool b 0); cbn [and_then] in H; [inversion H; auto | discriminate].
Qed.



(** *** Binarized grades *)

Lemma binarized_recast (d : dict record) (max_score passing : Q) :
  ~ passing == 0 ->
  (forall k r, In (k, r) d -> numeric_field "task_grade" r) ->
  binarized d max_score (CFloat passing) = Returns (recast_all max_score passing d).
Proof.
  unfold recast_all.
  intros Hq H; induction d as [|[k r] d IH]; [reflexivity |].
  cbn [binarized map fst snd cell_is_true].
  destruct (H k r (or_introl eq_refl)) as (v & g & Hv & Hg).
  assert (Hnz : Qeq_bool passing 0 = false).
  { destruct (Qeq_bool passing 0) eqn:Hz; [apply Qeq_bool_iff in Hz; contradiction | auto]. }
  unfold mem, getitem, recast; rewrite Hv, Hnz, Hg; cbn [negb andb lift and_then at_least].
  cbn [field_number]; rewrite Hg; cbn [bind lift and_then].
  rewrite IH; [reflexivity | intros k' r' Hin; apply (H k'); now right].
Qed.

Lemma filter_by_recast (parameter : option string) (keep : string -> string -> bool)
    (g : record -> record) (d : dict record) :
  filter_by parameter keep (map (fun kv => (fst kv, g (snd kv))) d)
  = map (fun kv => (fst kv, g (snd kv))) (filter_by parameter keep d).
Proof.
  unfold filter_by; destruct parameter as [p|]; [| reflexivity].
  destruct (negb (String.eqb p "")); [| reflexivity].
  induction d as [|[k r] d IH]; [reflexivity |].
  cbn [map filter fst snd]; destruct (keep k p); cbn [map fst snd]; now rewrite IH.
Qed.

Lemma filter_jsonl_input_recast (g : record -> record) (d : dict record)
    (subject condition task : option string) :
  filter_jsonl_input (map (fun kv => (fst kv, g (snd kv))) d) subject condition task
  = map (fun kv => (fst kv, g (snd kv))) (filter_jsonl_input d subject condition task).
Proof. unfold filter_jsonl_input; now rewrite !filter_by_recast. Qed.


(** X19: for a passing score that is a number other than zero and entries
    with numeric grades, the binarisation recasts every grade to the maximum
    score or to zero and keeps the keys, so it commutes with
    [filter_jsonl_input]; and the binarized reduction is the reduction on
    the recast grades. *)
Theorem binarized_reduction_is_the_reduction_on_the_recast_grades :
  forall (d : dict record) (task : string) (max_score passing : Q),
    ~ passing == 0 ->
    (forall k r, In (k, r) d -> numeric_field "task_grade" r) ->
    binarized d max_score (CFloat passing) = Returns (recast_all max_score passing d)
    /\ keys (recast_all max_score passing d) = keys d
    /\ (forall subject condition task',
           filter_jsonl_input (recast_all max_score passing d) subject condition task'
           = recast_all max_score passing (filter_jsonl_input d subject condition task'))
    /\ get_binarized_proportional_task_failure_rate_reduction d task max_score
         (CFloat passing)
       = get_proportional_task_failure_rate_reduction (recast_all max_score passing d)
           task max_score.
Proof.
  intros d task max_score passing Hq H.
  pose proof (binarized_recast d max_score passing Hq H) as Hcopy.
  split; [exact Hcopy | split; [apply keys_map_snd | split]].
  - intros subject condition task'; apply filter_jsonl_input_recast.
  - unfold get_binarized_proportional_task_failure_rate_reduction.
    cbn [cell_is_empty_string raise_when and_then]; rewrite Hcopy; reflexivity.
Qed.

Lemma binarized_skipped (d : dict record) (max_score : Q) (passing_score : cell) :
  cell_is_true passing_score = false -> binarized d max_score passing_score = Returns d.
Proof.
  intros Hfalse; induction d as [|[k r] d IH]; [reflexivity |].
  cbn [binarized]; rewrite Hfalse, andb_false_r; cbn [and_then].
  now rewrite IH.
Qed.

(** X20: the binarized reduction refuses the empty string as passing score
    with its own [ValueError]; with a passing score of zero, which Python
    takes as false, no grade is recast and the result is that of the
    reduction on the grades as they are. *)
Theorem zero_passing_score_leaves_the_grades_as_they_are :
  forall (jsonl_input : dict record) (task : string) (max_score : Q),
    get_binarized_proportional_task_failure_rate_reduction jsonl_input task max_score
      (CStr "") = Raises PassingScoreNotNumeric
    /\ forall passing_score,
         cell_is_true passing_score = false ->
         passing_score <> CStr "" ->
         get_binarized_proportional_task_failure_rate_reduction jsonl_input task max_score
           passing_score
         = get_proportional_task_failure_rate_reduction jsonl_input task max_score.
Proof.
  intros jsonl_input task max_score; split; [reflexivity |].
  intros passing_score Hfalse Hne.
  unfold get_binarized_proportional_task_failure_rate_reduction.
  rewrite (binarized_skipped _ _ _ Hfalse).
  destruct passing_score as [s| |]; cbn [cell_is_empty_string raise_when and_then];
    try reflexivity.
  destruct (String.eqb_spec s "") as [->|_]; [congruence | reflexivity].
Qed.

(** *** Bounded samples *)












(** *** The summary table *)

Lemma summary_row_length (entry : record) (csv_metadata : dict (dict cell))
    (task_columns : list string) :
  forall (column_names : list string) (row : list summary_cell),
    summary_row entry csv_metadata task_columns column_names = Returns row ->
    List.length row = List.length column_names.
Proof.
  induction column_names as [|column rest IH]; intros row H; cbn [summary_row] in H.
  - now inversion H.
  - apply and_then_returns in H as (c & _ & H).
    apply and_then_returns in H as (cells & Hcells & H).
    inversion H; cbn [List.length]; f_equal; now apply IH.
Qed.

Lemma summary_rows_shape (csv_metadata : dict (dict cell))
    (task_columns column_names : list string) :
  forall (dict_summary : list (string * record)) (rows : list (list summary_cell)),
    summary_rows dict_summary csv_metadata task_columns column_names = Returns rows ->
    List.length rows = List.length dict_summary
    /\ forall row, In row rows -> List.length row = List.length column_names.
Proof.
  induction dict_summary as [|[k r] d IH]; intros rows H; cbn [summary_rows] in H.
  - inversion H; split; [reflexivity | intros row []].
  - apply and_then_returns in H as (row & Hrow & H).
    apply and_then_returns in H as (rest & Hrest & H).
    inversion H; destruct (IH _ Hrest) as [Hlen Hall]; split; [cbn; now rewrite Hlen |].
    intros row' [<-|Hin]; [exact (summary_row_length _ _ _ _ _ Hrow) | now apply Hall].
Qed.

(** X22: the summary that [directory_summary] writes is a table: a header
    and one row for every entry of the loaded [jsonl_contents], in their
    order, every row with as many cells as the header.  Nothing is written
    when the output path exists or its directory does not; a directory
    without metadata raises before the output path is looked at, and one
    with metadata and no entry raises [StopIteration]. *)
Theorem summary_is_a_table_with_a_row_for_every_entry :
  forall (dir_name : string) (dir : list (string * file)) (output_exists : bool)
         (output_directory : string) (output_directory_is_dir : bool)
         (st : directory_state),
    load_directory dir_name dir = OK st ->
    (forall rows,
        directory_summary dir_name dir output_exists output_directory
          output_directory_is_dir = Returns rows ->
        exists header body,
          rows = map SName header :: body
          /\ List.length body = List.length (jsonl_contents st)
          /\ (forall row, In row body -> List.length row = List.length header)
          /\ output_exists = false /\ output_directory_is_dir = true)
    /\ (csv_metadata st = [] ->
        directory_summary dir_name dir output_exists output_directory
          output_directory_is_dir = Raises (NoTaskMetadata dir_name))
    /\ (csv_metadata st <> [] -> jsonl_contents st = [] ->
        directory_summary dir_name dir output_exists output_directory
          output_directory_is_dir = Raises StopIteration).
Proof.
  intros dir_name dir output_exists output_directory output_directory_is_dir st Hload.
  unfold directory_summary; rewrite Hload; cbn [lift and_then].
  split; [| split].
  - intros rows H.
    destruct (csv_metadata st) as [|[t0 first_task] tasks]; [discriminate |].
    destruct (jsonl_contents st) as [|[k0 first_entry] entries] eqn:Hentries; [discriminate |].
    destruct output_exists; [discriminate |].
    destruct output_directory_is_dir; [| discriminate].
    cbn [negb raise_when and_then] in H.
    apply and_then_returns in H as (body & Hbody & H).
    inversion H; eexists _, body; split; [reflexivity |].
    destruct (summary_rows_shape _ _ _ _ _ Hbody) as [Hlen Hall]; auto.
  - intros ->; reflexivity.
  - intros Hm ->; destruct (csv_metadata st) as [|[t0 first_task] tasks]; [congruence |].
    reflexivity.
Qed.

Lemma summary_row_complete (entry : record) (csv_metadata : dict (dict cell))
    (task_columns : list string) (s : string) (attributes : dict cell) :
  lookup "task_id" entry = Some (FVal (VStr s)) ->
  lookup s csv_metadata = Some attributes ->
  (forall c, In c task_columns -> mem c attributes = true) ->
  forall column_names,
    exists row, summary_row entry csv_metadata task_columns column_names = Returns row.
Proof.
  intros Htask Hattrs Hcols; induction column_names as [|column rest IH].
  - exists []; reflexivity.
  - destruct IH as (row & Hrow); cbn [summary_row]; rewrite Hrow.
    destruct (lookup column entry) as [f|]; cbn [and_then]; [eauto |].
    destruct (str_in column task_columns) eqn:Hin; cbn [and_then]; [| eauto].
    apply str_in_spec, Hcols, mem_lookup in Hin as [a Ha].
    unfold getitem; rewrite Htask; cbn [lift and_then metadata_of].
    unfold getitem; rewrite Hattrs; cbn [lift and_then]; rewrite Ha; cbn [lift and_then].
    eauto.
Qed.

(** X23: [directory_summary] writes the table whenever the directory loads
    with some metadata and some entry, the output path is free, its
    directory exists, and every entry names, by a string as [task_id], a
    task of the metadata whose row binds all the columns of the first task;
    then no look-up fails. *)
Theorem summary_is_written_when_every_entry_names_a_task_of_the_metadata :
  forall (dir_name : string) (dir : list (string * file)) (output_directory : string)
         (st : directory_state) (t0 : string) (first_task : dict cell)
         (tasks : dict (dict cell)),
    load_directory dir_name dir = OK st ->
    csv_metadata st = (t0, first_task) :: tasks ->
    jsonl_contents st <> [] ->
    (forall k r, In (k, r) (jsonl_contents st) ->
                 exists s attributes,
                   lookup "task_id" r = Some (FVal (VStr s))
                   /\ lookup s (csv_metadata st) = Some attributes
                   /\ forall c, In c (keys first_task) -> mem c attributes = true) ->
    exists rows,
      directory_summary dir_name dir false output_directory true = Returns rows.
Proof.
  intros dir_name dir output_directory st t0 first_task tasks Hload Hm Hne Hall.
  assert (Hrows : forall column_names,
             exists body,
               summary_rows (jsonl_contents st) (csv_metadata st) (keys first_task)
                 column_names = Returns body).
  { intros column_names; revert Hall; generalize (jsonl_contents st); intros d Hall.
    induction d as [|[k r] d IH]; [exists []; reflexivity |].
    destruct IH as (body & Hbody); [intros k' r' Hin; apply (Hall k'); now right |].
    destruct (Hall k r (or_introl eq_refl)) as (s & attributes & Htask & Hattrs & Hcols).
    destruct (summary_row_complete r (csv_metadata st) (keys first_task) s attributes
                Htask Hattrs Hcols column_names) as (row & Hrow).
    cbn [summary_rows]; rewrite Hrow, Hbody; cbn [and_then]; eauto. }
  unfold directory_summary; rewrite Hload; cbn [lift and_then].
  destruct (jsonl_contents st) as [|[k0 first_entry] entries] eqn:Hentries; [congruence |].
  remember (csv_metadata st) as m eqn:Hmeta; rewrite Hm.
  cbn [negb raise_when and_then]; rewrite <- Hm.
  match goal with
  | |- exists rows, and_then (summary_rows _ _ _ ?cols) _ = _ =>
      destruct (Hrows cols) as (body & ->)
  end.
  cbn [and_then]; eauto.
Qed.

End KMEval.

(* ================================================================= *)
(** ** The properties on the sample inputs *)

(** C3 (the code's behaviour at the failing input): a file whose
    [task_conclusion] line is stamped 10 s before its [task_initialized]
    line loads, and its record has a [task_total_time] of -10 s. *)
Theorem backwards_session_loads_with_a_negative_total :
  exists s,
    reduce_state_transitions unit sample_payload_eqb sample_fromisoformat sample_nearest
      "log.jsonl" backwards_lines = OK [("U1_prototype_Task1", s)]
    /\ load_state_transitions_file unit sample_payload_eqb sample_fromisoformat sample_nearest
         "log.jsonl" backwards_lines = OK [("U1_prototype_Task1", session_record unit s)]
    /\ lookup "task_total_time" (session_record unit s)
       = Some (FVal (VFloat (task_total_time unit s)))
    /\ task_total_time unit s == - (10)
    /\ (task_total_time unit s < 0)%Q.
Proof.
  eexists; split; [vm_compute; reflexivity |].
  split; [vm_compute; reflexivity |].
  split; [reflexivity |].
  split; vm_compute; reflexivity.
Qed.

(** The rounding of the samples is one the properties allow. *)
Lemma sample_nearest_rounds : rounds_to_nearest sample_nearest.
Proof. split; [intros q z H _; exact H | intros a b H; exact H]. Qed.

(** Scenario A, and a session with strictly increasing timestamps, loaded. *)
Lemma stream_reducer_totals_on_samples :
  rounds_to_nearest sample_nearest
  /\ (exists r total pull push,
        load_state_transitions_file unit sample_payload_eqb sample_fromisoformat
          sample_nearest "log.jsonl" increasing_lines = OK [("U1_prototype_Task1", r)]
        /\ entry_totals unit r (utc_instant 0) total pull push
        /\ total == 90 /\ pull == 0 /\ push == 20)
  /\ (exists r total pull push,
        load_state_transitions_file unit sample_payload_eqb sample_fromisoformat
          sample_nearest "log.jsonl" scenario_A_lines = OK [("U1_prototype_Task1", r)]
        /\ entry_totals unit r (utc_instant 0) total pull push
        /\ total == 90 /\ pull == 30 /\ push == 0).
Proof.
  pose (e0 := (utc_instant 0, "task_initialized")).
  pose (rest := [ (utc_instant 10000000, "km_push_activity");
                  (utc_instant 30000000, "task_execution");
                  (utc_instant 90000000, "task_conclusion") ]).
  assert (Hlegal : legal_sequence (e0 :: rest)).
  { unfold comparable; cbn; repeat split; try reflexivity; tauto. }
  assert (Hwhole : whole_seconds (e0 :: rest)).
  { repeat constructor; cbn [fst instant utc_instant];
      [now exists 0 | now exists 10 | now exists 30 | now exists 90]. }
  pose proof (stream_reducer_totals_are_the_sums_of_deltas unit sample_payload_eqb
                sample_fromisoformat sample_nearest)
    as (Hgeneral & Hexact & HscenarioA).
  split; [exact sample_nearest_rounds |].
  split.
  - destruct (Hgeneral "log.jsonl" "U1_prototype_Task1" increasing_lines e0 rest
                ltac:(repeat constructor; intros fn l; reflexivity) Hlegal)
      as (r & Hload & Htotals & _).
    exists r; do 3 eexists; split; [exact Hload |]; split; [exact Htotals |].
    rewrite !(Hexact sample_nearest_rounds e0 rest _ Hlegal Hwhole)
      by (vm_compute; discriminate).
    repeat split; reflexivity.
  - apply (HscenarioA sample_nearest_rounds "log.jsonl" "U1_prototype_Task1"
             scenario_A_lines).
    repeat constructor; intros fn l; reflexivity.
Defined.

(** A session of one [task_initialized] line, and one that starts with
    [task_execution]. *)
Lemma boundary_states_on_samples :
  load_state_transitions_file unit sample_payload_eqb sample_fromisoformat sample_nearest
    "log.jsonl"
    [transition_line tt "U1" "Task1" "1970-01-01T00:00:00+00:00" "task_initialized"]
  = Err (InvalidFinalStateError "U1_prototype_Task1" 1 "log.jsonl")
  /\ load_state_transitions_file unit sample_payload_eqb sample_fromisoformat sample_nearest
       "log.jsonl"
       [transition_line tt "U1" "Task1" "1970-01-01T00:00:00+00:00" "task_execution"]
     = Err (InvalidInitialStateError "U1_prototype_Task1" 1 "log.jsonl").
Proof.
  pose proof (boundary_states_are_enforced unit sample_payload_eqb sample_fromisoformat
                sample_nearest)
    as (_ & _ & Hfinal & Hinitial).
  split.
  - apply (Hfinal "log.jsonl" "U1_prototype_Task1" _ (utc_instant 0));
      intros fn l; reflexivity.
  - apply (Hinitial "log.jsonl" "U1_prototype_Task1" _ (utc_instant 0));
      intros fn l; reflexivity.
Defined.

(** The transitions of Scenario A and a pre-aggregated record of the same
    session (90.5 s and 30 s, against 90 s and 30 s), in both orders. *)
Lemma complementary_records_on_samples :
  exists a b,
    load_directory unit sample_payload_eqb sample_fromisoformat sample_nearest sample_float_of_string
      sample_int_of_string "logs"
      [("t.jsonl", complementary_transitions); ("s.jsonl", complementary_aggregate)]
    = OK {| jsonl_contents := [("U1_prototype_Task1", a)]; printed := [];
            csv_metadata := [] |}
    /\ load_directory unit sample_payload_eqb sample_fromisoformat sample_nearest sample_float_of_string
         sample_int_of_string "logs"
         [("s.jsonl", complementary_aggregate); ("t.jsonl", complementary_transitions)]
       = OK {| jsonl_contents := [("U1_prototype_Task1", b)]; printed := [];
               csv_metadata := [] |}
    /\ (forall attr, lookup attr a = lookup attr b)
    /\ lookup "task_total_time" a = Some (FVal (VFloat (181 # 2)))
    /\ mem "state_transitions" a = true.
Proof.
  assert (Hs : exists s,
             reduce_state_transitions unit sample_payload_eqb sample_fromisoformat sample_nearest
               "logs/t.jsonl" scenario_A_lines = OK [("U1_prototype_Task1", s)]
             /\ task_total_time unit s == 90 /\ km_pull_total_time unit s == 30).
  { eexists; split; [vm_compute; reflexivity |]; split; vm_compute; reflexivity. }
  destruct Hs as (s & Hreduce & Ht & Hp).
  assert (HloadT : load_jsonl_file unit sample_payload_eqb sample_fromisoformat sample_nearest
                     (path_join "logs" "t.jsonl") (file_lines complementary_transitions)
                   = OK [("U1_prototype_Task1", session_record unit s)]).
  { change (load_state_transitions_file unit sample_payload_eqb sample_fromisoformat sample_nearest
              "logs/t.jsonl" scenario_A_lines
            = OK [("U1_prototype_Task1", session_record unit s)]).
    unfold load_state_transitions_file; rewrite Hreduce; reflexivity. }
  destruct (complementary_records_merge_alike_in_both_orders unit sample_payload_eqb
              sample_fromisoformat sample_nearest sample_float_of_string sample_int_of_string
              "logs" "t.jsonl" "s.jsonl" complementary_transitions complementary_aggregate
              "U1_prototype_Task1" s
              (record_of_line unit
                 (insert "task_start_time" (VDatetime (utc_instant 0)) (subject_task_line "U1" "Task1" (181 # 2) (30 # 1) 0)))
              (181 # 2) (30 # 1))
    as (a & b & Ha & Hb & Hsame & Htr & _ & Hpre).
  - reflexivity.
  - reflexivity.
  - exact HloadT.
  - vm_compute; reflexivity.
  - reflexivity.
  - exists (FVal (VFloat (181 # 2))), (FVal (VFloat (30 # 1))); repeat split.
  - rewrite Ht; vm_compute; discriminate.
  - rewrite Hp; vm_compute; discriminate.
  - exists a, b; split; [exact Ha |]; split; [exact Hb |]; split; [exact Hsame |].
    split.
    + rewrite Hpre by discriminate; reflexivity.
    + unfold mem; now rewrite Htr.
Defined.

(** Two copies of the file of Scenario A in one directory. *)
Lemma two_identical_copies_on_samples :
  load_directory unit sample_payload_eqb sample_fromisoformat sample_nearest sample_float_of_string
    sample_int_of_string "logs"
    [("a.jsonl", jsonl_file scenario_A_lines); ("b.jsonl", jsonl_file scenario_A_lines)]
  = load_directory unit sample_payload_eqb sample_fromisoformat sample_nearest sample_float_of_string
      sample_int_of_string "logs" [("a.jsonl", jsonl_file scenario_A_lines)]
  /\ exists st,
       load_directory unit sample_payload_eqb sample_fromisoformat sample_nearest sample_float_of_string
         sample_int_of_string "logs"
         [("a.jsonl", jsonl_file scenario_A_lines); ("b.jsonl", jsonl_file scenario_A_lines)]
       = OK st
       /\ printed unit st = [] /\ keys (jsonl_contents unit st) = ["U1_prototype_Task1"].
Proof.
  assert (Hs : exists s,
             reduce_state_transitions unit sample_payload_eqb sample_fromisoformat sample_nearest
               "logs/a.jsonl" scenario_A_lines = OK [("U1_prototype_Task1", s)]).
  { eexists; vm_compute; reflexivity. }
  destruct Hs as (s & Hreduce).
  assert (Hload : load_jsonl_file unit sample_payload_eqb sample_fromisoformat sample_nearest
                    (path_join "logs" "a.jsonl") (file_lines (jsonl_file scenario_A_lines))
                  = OK [("U1_prototype_Task1", session_record unit s)]).
  { change (load_state_transitions_file unit sample_payload_eqb sample_fromisoformat sample_nearest
              "logs/a.jsonl" scenario_A_lines
            = OK [("U1_prototype_Task1", session_record unit s)]).
    unfold load_state_transitions_file; rewrite Hreduce; reflexivity. }
  destruct (reconciling_two_identical_copies_is_idempotent unit sample_payload_eqb
              sample_fromisoformat sample_nearest sample_float_of_string sample_int_of_string
              "logs" "a.jsonl" "b.jsonl" (jsonl_file scenario_A_lines) _
              (fun p => eq_refl) eq_refl eq_refl Hload)
    as (Htwo & Hone & _).
  - intros k r [Heq|[]]; inversion Heq; eauto.
  - split; [now rewrite Htwo, Hone |].
    eexists; split; [exact Htwo |]; split; reflexivity.
Defined.

(** C8 (counterexample): on the two Subject-Task files of Scenario B the
    reconciler raises the conflicting-record error; and with the second
    record read from a State-Transition file it succeeds and prints no
    warning. *)
Lemma scenario_B_raises_or_prints_nothing :
  load_directory unit sample_payload_eqb sample_fromisoformat sample_nearest sample_float_of_string
    sample_int_of_string "logs" scenario_B
  = Err (ConflictingSubjectTask "U1_prototype_Task1" "a.jsonl" "b.jsonl")
  /\ exists st,
       load_directory unit sample_payload_eqb sample_fromisoformat sample_nearest sample_float_of_string
         sample_int_of_string "logs" scenario_B_mixed = OK st
       /\ printed unit st = [].
Proof.
  split; [vm_compute; reflexivity |].
  eexists; split; vm_compute; reflexivity.
Qed.

(** Scenario B and its mixed variant, through the amended statement. *)
Lemma totals_within_tolerance_on_samples :
  load_directory unit sample_payload_eqb sample_fromisoformat sample_nearest
    sample_float_of_string sample_int_of_string "logs"
    [ ("first.jsonl", jsonl_file [subject_task_line "U1" "Task1" (100 # 1) 0 0]);
      ("second.jsonl", jsonl_file [subject_task_line "U1" "Task1" (1004 # 10) 0 0]) ]
  = Err (ConflictingSubjectTask "U1_prototype_Task1" "first.jsonl" "second.jsonl")
  /\ exists merged warnings,
       load_directory unit sample_payload_eqb sample_fromisoformat sample_nearest
         sample_float_of_string sample_int_of_string "logs"
         [ ("first.jsonl", jsonl_file [subject_task_line "U1" "Task1" (100 # 1) 0 0]);
           ("second.jsonl", jsonl_file long_lines) ]
       = OK {| jsonl_contents := [("U1_prototype_Task1", merged)]; printed := warnings;
               csv_metadata := [] |}
       /\ warnings = [].
Proof.
  pose (first := record_of_line unit
                   (insert "task_start_time" (VDatetime (utc_instant 0))
                      (subject_task_line "U1" "Task1" (100 # 1) 0 0))).
  pose (second := record_of_line unit
                    (insert "task_start_time" (VDatetime (utc_instant 0))
                       (subject_task_line "U1" "Task1" (1004 # 10) 0 0))).
  assert (Hfirst : reports_times unit first (100 # 1) 0).
  { exists (FVal (VFloat (100 # 1))), (FVal (VFloat 0)); repeat split. }
  assert (Hsecond : reports_times unit second (1004 # 10) 0).
  { exists (FVal (VFloat (1004 # 10))), (FVal (VFloat 0)); repeat split. }
  assert (Hsafe1 : float_safe_at unit "task_total_time" first
                   /\ float_safe_at unit "km_pull_total_time" first)
    by (split; [apply (float_safe_at_float unit _ _ (100 # 1))
               | apply (float_safe_at_float unit _ _ 0)]; reflexivity).
  assert (Hsafe2 : float_safe_at unit "task_total_time" second
                   /\ float_safe_at unit "km_pull_total_time" second)
    by (split; [apply (float_safe_at_float unit _ _ (1004 # 10))
               | apply (float_safe_at_float unit _ _ 0)]; reflexivity).
  split.
  - refine (proj2 (totals_within_tolerance_print_no_warning_and_like_records_conflict unit
                     sample_payload_eqb sample_fromisoformat sample_nearest
                     sample_float_of_string sample_int_of_string
                     "logs" "first.jsonl" "second.jsonl"
                     (jsonl_file [subject_task_line "U1" "Task1" (100 # 1) 0 0])
                     (jsonl_file [subject_task_line "U1" "Task1" (1004 # 10) 0 0])
                     "U1_prototype_Task1" first second (100 # 1) 0 (1004 # 10) 0
                     eq_refl eq_refl _ _ Hfirst Hsecond _ _ Hsafe1 Hsafe2) eq_refl);
      try reflexivity; vm_compute; discriminate.
  - assert (Hs : exists s,
               reduce_state_transitions unit sample_payload_eqb sample_fromisoformat
                 sample_nearest "logs/second.jsonl" long_lines
               = OK [("U1_prototype_Task1", s)]
               /\ task_total_time unit s == 1004 # 10 /\ km_pull_total_time unit s = 0%Q).
    { eexists; split; [vm_compute; reflexivity |]; split; vm_compute; reflexivity. }
    destruct Hs as (s & Hreduce & Ht & Hp).
    assert (Hload : load_jsonl_file unit sample_payload_eqb sample_fromisoformat
                      sample_nearest (path_join "logs" "second.jsonl")
                      (file_lines (jsonl_file long_lines))
                    = OK [("U1_prototype_Task1", session_record unit s)]).
    { change (load_state_transitions_file unit sample_payload_eqb sample_fromisoformat
                sample_nearest "logs/second.jsonl" long_lines
              = OK [("U1_prototype_Task1", session_record unit s)]).
      unfold load_state_transitions_file; rewrite Hreduce; reflexivity. }
    destruct (proj1 (totals_within_tolerance_print_no_warning_and_like_records_conflict
                       unit sample_payload_eqb sample_fromisoformat sample_nearest
                       sample_float_of_string sample_int_of_string
                       "logs" "first.jsonl" "second.jsonl"
                       (jsonl_file [subject_task_line "U1" "Task1" (100 # 1) 0 0])
                       (jsonl_file long_lines)
                       "U1_prototype_Task1" first (session_record unit s)
                       (100 # 1) 0 (task_total_time unit s) (km_pull_total_time unit s)
                       eq_refl eq_refl eq_refl Hload Hfirst
                       (session_record_times unit s)
                       ltac:(rewrite Ht; vm_compute; discriminate)
                       ltac:(rewrite Ht; vm_compute; discriminate)
                       Hsafe1
                       (conj
                          (float_safe_at_float unit "task_total_time"
                             (session_record unit s) (task_total_time unit s) eq_refl)
                          (float_safe_at_float unit "km_pull_total_time"
                             (session_record unit s) (km_pull_total_time unit s) eq_refl)))
                eq_refl)
      as (merged & warnings & Hmerged & Hwarnings).
    exists merged, warnings; split; [exact Hmerged |].
    destruct Hwarnings as [Hnone|Hone]; [exact Hnone |].
    rewrite Hone in Hmerged; vm_compute in Hmerged; discriminate Hmerged.
Defined.


(** The validated lines of the file of two interleaved sessions. *)
Definition interleaved_validated : list (validated unit) :=
  let line := fun n => nth n interleaved_lines [] in
  [ (typed_line unit (utc_instant 0) (line 0%nat), "U1_prototype_Task1", utc_instant 0,
     VStr "task_initialized");
    (typed_line unit (utc_instant 0) (line 1%nat), "U2_prototype_Task1", utc_instant 0,
     VStr "task_initialized");
    (typed_line unit (utc_instant 10000000) (line 2%nat), "U1_prototype_Task1",
     utc_instant 10000000, VStr "km_pull_activity");
    (typed_line unit (utc_instant 30000000) (line 3%nat), "U2_prototype_Task1",
     utc_instant 30000000, VStr "task_conclusion");
    (typed_line unit (utc_instant 90000000) (line 4%nat), "U1_prototype_Task1",
     utc_instant 90000000, VStr "task_conclusion") ].

Lemma interleaved_lines_validated :
  validated_lines unit sample_payload_eqb sample_fromisoformat "log.jsonl" 1
    interleaved_lines interleaved_validated.
Proof. repeat split. Qed.

(** The file of two interleaved sessions, loaded. *)
Lemma accepted_file_on_samples :
  exists fc r total pull push,
    load_state_transitions_file unit sample_payload_eqb sample_fromisoformat sample_nearest
      "log.jsonl" interleaved_lines = OK fc
    /\ keys fc = ["U1_prototype_Task1"; "U2_prototype_Task1"]
    /\ lookup "U1_prototype_Task1" fc = Some r
    /\ entry_totals unit r (utc_instant 0) total pull push
    /\ total == 90 /\ pull == 80 /\ push == 0
    /\ (0 <= pull)%Q.
Proof.
  assert (Hload : exists fc,
             load_state_transitions_file unit sample_payload_eqb sample_fromisoformat
               sample_nearest "log.jsonl" interleaved_lines = OK fc
             /\ keys fc = ["U1_prototype_Task1"; "U2_prototype_Task1"]).
  { eexists; split; vm_compute; reflexivity. }
  destruct Hload as (fc & Hload & Hkeys).
  destruct (accepted_file_records_sum_their_own_session unit sample_payload_eqb
              sample_fromisoformat sample_nearest "log.jsonl" interleaved_lines fc Hload)
    as (vs & Hvs & Hsessions).
  rewrite (validated_lines_functional unit sample_payload_eqb sample_fromisoformat
             "log.jsonl" interleaved_lines 1 vs interleaved_validated Hvs
             interleaved_lines_validated) in Hsessions.
  specialize (Hsessions "U1_prototype_Task1").
  change (timeline unit "U1_prototype_Task1" interleaved_validated)
    with [ (utc_instant 0, "task_initialized"); (utc_instant 10000000, "km_pull_activity");
           (utc_instant 90000000, "task_conclusion") ] in Hsessions.
  destruct Hsessions as (r & total & pull & push & Hr & Htotals & Ht & Hpull & Hpush & _ & _
                         & _ & _ & Hsigns).
  exists fc, r, total, pull, push.
  split; [exact Hload |]; split; [exact Hkeys |]; split; [exact Hr |].
  split; [exact Htotals |].
  split; [rewrite Ht; vm_compute; reflexivity |].
  split; [rewrite Hpull; vm_compute; reflexivity |].
  split; [rewrite Hpush; vm_compute; reflexivity |].
  exact (proj1 (Hsigns sample_nearest_rounds)).
Defined.

(** The two interleaved sessions are legal, so the file loads. *)
Lemma legal_interleaved_sessions_on_samples :
  exists fc,
    load_state_transitions_file unit sample_payload_eqb sample_fromisoformat sample_nearest
      "log.jsonl" interleaved_lines = OK fc
    /\ (exists r total pull push,
          lookup "U1_prototype_Task1" fc = Some r
          /\ entry_totals unit r (utc_instant 0) total pull push
          /\ total == 90 /\ pull == 80)
    /\ (exists r total pull push,
          lookup "U2_prototype_Task1" fc = Some r
          /\ entry_totals unit r (utc_instant 0) total pull push
          /\ total == 30 /\ pull == 0).
Proof.
  destruct (legal_interleaved_sessions_load unit sample_payload_eqb sample_fromisoformat
              sample_nearest "log.jsonl" interleaved_lines interleaved_validated)
    as (fc & Hload & Hsessions).
  - exact interleaved_lines_validated.
  - intros k; unfold timeline, session_lines, interleaved_validated;
      cbn [filter identifier_of fst snd].
    destruct (String.eqb "U1_prototype_Task1" k) eqn:E1,
             (String.eqb "U2_prototype_Task1" k) eqn:E2;
      cbn [map event_of state_of state_name fst snd].
    + apply String.eqb_eq in E1, E2; subst k; discriminate E2.
    + right; unfold legal_sequence, legal_steps, specified_edges, event_of, comparable;
        cbn [fst snd state_of state_name last map valid_state_transitions utc_instant
             offset_aware instant].
      repeat split; try reflexivity; cbn [In]; auto 20.
    + right; unfold legal_sequence, legal_steps, specified_edges, event_of, comparable;
        cbn [fst snd state_of state_name last map valid_state_transitions utc_instant
             offset_aware instant].
      repeat split; try reflexivity; cbn [In]; auto 20.
    + left; reflexivity.
  - exists fc; split; [exact Hload |].
    split.
    + pose proof (Hsessions "U1_prototype_Task1") as H.
      change (timeline unit "U1_prototype_Task1" interleaved_validated)
        with [ (utc_instant 0, "task_initialized");
               (utc_instant 10000000, "km_pull_activity");
               (utc_instant 90000000, "task_conclusion") ] in H.
      destruct H as (r & Hr & Htotals & _).
      exists r; do 3 eexists; split; [exact Hr |]; split; [exact Htotals |].
      split; vm_compute; reflexivity.
    + pose proof (Hsessions "U2_prototype_Task1") as H.
      change (timeline unit "U2_prototype_Task1" interleaved_validated)
        with [ (utc_instant 0, "task_initialized");
               (utc_instant 30000000, "task_conclusion") ] in H.
      destruct H as (r & Hr & Htotals & _).
      exists r; do 3 eexists; split; [exact Hr |]; split; [exact Htotals |].
      split; vm_compute; reflexivity.
Defined.

(** The second report of the session replaces the first. *)
Lemma repeated_report_keeps_the_second_line :
  exists fc entries,
    load_subject_task_file unit sample_payload_eqb sample_fromisoformat "s.jsonl"
      repeated_report_lines = OK fc
    /\ Forall2 (fun json_in e => subject_task_entry unit sample_fromisoformat json_in = OK e)
               repeated_report_lines entries
    /\ NoDup (keys fc)
    /\ (forall k, lookup k fc = last_binding k entries)
    /\ keys fc = ["U1_prototype_Task1"]
    /\ lookup "task_total_time" (snd (last fc ("", [])))
       = Some (FVal (VFloat (200 # 1))).
Proof.
  pose (fc := match load_subject_task_file unit sample_payload_eqb sample_fromisoformat
                      "s.jsonl" repeated_report_lines with
              | OK fc => fc
              | Err _ => []
              end).
  assert (Hload : load_subject_task_file unit sample_payload_eqb sample_fromisoformat
                    "s.jsonl" repeated_report_lines = OK fc) by (vm_compute; reflexivity).
  destruct (subject_task_file_keeps_the_last_line_of_a_key unit sample_payload_eqb
              sample_fromisoformat "s.jsonl" repeated_report_lines fc Hload)
    as (entries & Hentries & Hnd & Hlast & _).
  exists fc, entries.
  split; [exact Hload | split; [exact Hentries | split; [exact Hnd | split; [exact Hlast |]]]].
  split; vm_compute; reflexivity.
Defined.

(** The entries of the file of two interleaved sessions. *)
Lemma interleaved_entries_are_keyed :
  exists fc,
    load_jsonl_file unit sample_payload_eqb sample_fromisoformat sample_nearest "log.jsonl"
      interleaved_lines = OK fc
    /\ NoDup (keys fc)
    /\ (forall k r, lookup k fc = Some r -> loaded_entry unit k r)
    /\ keys fc = ["U1_prototype_Task1"; "U2_prototype_Task1"].
Proof.
  pose (fc := match load_jsonl_file unit sample_payload_eqb sample_fromisoformat sample_nearest
                      "log.jsonl" interleaved_lines with
              | OK fc => fc
              | Err _ => []
              end).
  assert (Hload : load_jsonl_file unit sample_payload_eqb sample_fromisoformat sample_nearest
                    "log.jsonl" interleaved_lines = OK fc) by (vm_compute; reflexivity).
  destruct (loaded_entries_are_keyed_by_their_fields_and_carry_numeric_totals unit
              sample_payload_eqb sample_fromisoformat sample_nearest "log.jsonl"
              interleaved_lines fc Hload)
    as (Hnd & Hloaded).
  exists fc; split; [exact Hload | split; [exact Hnd | split; [exact Hloaded |]]].
  vm_compute; reflexivity.
Defined.

(** The merged entry of the two complementary files. *)
Lemma reconciled_entries_on_samples :
  exists st,
    load_directory unit sample_payload_eqb sample_fromisoformat sample_nearest sample_float_of_string
      sample_int_of_string "logs"
      [("t.jsonl", complementary_transitions); ("s.jsonl", complementary_aggregate)] = OK st
    /\ NoDup (keys (jsonl_contents unit st))
    /\ (forall k r,
           lookup k (jsonl_contents unit st) = Some r ->
           loaded_entry unit k r
           /\ exists n, In n ["t.jsonl"; "s.jsonl"]
                        /\ lookup "file_source" r = Some (FVal (VStr n)))
    /\ keys (jsonl_contents unit st) = ["U1_prototype_Task1"].
Proof.
  pose (dir := [("t.jsonl", complementary_transitions); ("s.jsonl", complementary_aggregate)]).
  pose (st := match load_directory unit sample_payload_eqb sample_fromisoformat sample_nearest
                      sample_float_of_string sample_int_of_string "logs" dir with
              | OK st => st
              | Err _ => {| jsonl_contents := []; printed := []; csv_metadata := [] |}
              end).
  assert (Hload : load_directory unit sample_payload_eqb sample_fromisoformat sample_nearest
                    sample_float_of_string sample_int_of_string "logs" dir = OK st)
    by (vm_compute; reflexivity).
  destruct (reconciled_entries_stay_well_formed_and_name_their_source unit
              sample_payload_eqb sample_fromisoformat sample_nearest sample_float_of_string
              sample_int_of_string "logs" dir st Hload) as (Hnd & Hentries).
  exists st; split; [exact Hload | split; [exact Hnd | split; [exact Hentries |]]].
  vm_compute; reflexivity.
Defined.

(** The error of Scenario B is a conflict between its two files. *)
Lemma scenario_B_error_is_explained :
  float_safe_totals unit sample_payload_eqb sample_fromisoformat sample_nearest "logs"
    scenario_B
  /\ explained unit sample_payload_eqb sample_fromisoformat sample_nearest
       sample_float_of_string sample_int_of_string "logs" scenario_B
       (ConflictingSubjectTask "U1_prototype_Task1" "a.jsonl" "b.jsonl").
Proof.
  assert (Hsafe : float_safe_totals unit sample_payload_eqb sample_fromisoformat
                    sample_nearest "logs" scenario_B).
  { intros n f fc k r Hin _ Hload Hk.
    apply lookup_In in Hk.
    destruct Hin as [Hin|[Hin|[]]]; inversion Hin; subst n f; clear Hin;
      vm_compute in Hload; inversion Hload; subst fc; clear Hload;
      destruct Hk as [Hk|[]]; inversion Hk; subst k r; clear Hk;
      split; eapply float_safe_at_float; reflexivity. }
  split; [exact Hsafe |].
  apply (directory_errors_come_from_a_loader_or_a_conflict unit sample_payload_eqb
           sample_fromisoformat sample_nearest sample_float_of_string sample_int_of_string
           "logs" scenario_B _ Hsafe).
  vm_compute; reflexivity.
Defined.

(** Two files, one session each. *)
Lemma two_sessions_load_side_by_side :
  exists st,
    load_directory unit sample_payload_eqb sample_fromisoformat sample_nearest sample_float_of_string
      sample_int_of_string "logs"
      [("a.jsonl", jsonl_file scenario_A_lines); ("b.jsonl", jsonl_file other_session_lines)]
    = OK st
    /\ printed unit st = []
    /\ keys (jsonl_contents unit st) = ["U1_prototype_Task1"; "U2_prototype_Task1"].
Proof.
  pose (load := fun lines =>
                  match load_jsonl_file unit sample_payload_eqb sample_fromisoformat sample_nearest
                          "log.jsonl" lines with
                  | OK fc => fc
                  | Err _ => []
                  end).
  eexists; split.
  - apply (files_without_a_common_session_load_side_by_side unit sample_payload_eqb
             sample_fromisoformat sample_nearest sample_float_of_string sample_int_of_string "logs"
             [("a.jsonl", jsonl_file scenario_A_lines);
              ("b.jsonl", jsonl_file other_session_lines)]
             [load scenario_A_lines; load other_session_lines]).
    + apply Forall2_cons; [split; vm_compute; reflexivity |].
      apply Forall2_cons; [split; vm_compute; reflexivity | apply Forall2_nil].
    + vm_compute; repeat constructor; cbn; intuition discriminate.
  - split; vm_compute; reflexivity.
Defined.

(** The metadata table of one task. *)
Lemma metadata_table_on_samples :
  exists tasks,
    load_csv_file sample_float_of_string sample_int_of_string metadata_rows = OK tasks
    /\ NoDup (keys tasks)
    /\ (forall row, In row [["Task1"; "120.0"; "7"]] ->
                    (3 <= List.length row <= 3)%nat)
    /\ lookup "Task1" tasks
       = Some [("task_optimal_time_in_seconds", CFloat (120 # 1));
               ("task_maximum_score", CInt 7)].
Proof.
  pose (tasks := match load_csv_file sample_float_of_string sample_int_of_string
                         metadata_rows with
                 | OK tasks => tasks
                 | Err _ => []
                 end).
  assert (Hload : load_csv_file sample_float_of_string sample_int_of_string metadata_rows
                  = OK tasks) by (vm_compute; reflexivity).
  destruct (metadata_rows_are_stored_by_task_under_the_header_names sample_float_of_string
              sample_int_of_string _ _ tasks Hload) as (_ & Hnd & Hrows & _).
  exists tasks; split; [exact Hload | split; [exact Hnd | split; [exact Hrows |]]].
  vm_compute; reflexivity.
Defined.

(** A blank line after the first row of the table. *)
Lemma blank_metadata_row_on_samples :
  load_csv_file sample_float_of_string sample_int_of_string
    [ ["task_id"; "task_optimal_time_in_seconds"; "task_maximum_score"];
      ["Task1"; "120.0"; "7"];
      [];
      ["Task2"; "3.5"; "7"] ]
  = Err PyIndexError.
Proof.
  apply (short_or_long_metadata_row_raises_index_error sample_float_of_string
           sample_int_of_string
           ["task_id"; "task_optimal_time_in_seconds"; "task_maximum_score"]
           [["Task1"; "120.0"; "7"]] [["Task2"; "3.5"; "7"]] []
           [("Task1", [("task_optimal_time_in_seconds", CFloat (120 # 1));
                       ("task_maximum_score", CInt 7)])]).
  - vm_compute; reflexivity.
  - left; cbn; lia.
Defined.

(** The metadata of a directory with a Subject-Task file and the table. *)
Lemma directory_metadata_on_samples :
  exists st,
    load_directory unit sample_payload_eqb sample_fromisoformat sample_nearest sample_float_of_string
      sample_int_of_string "logs" summarized_directory = OK st
    /\ load_csv_file sample_float_of_string sample_int_of_string metadata_rows
       = OK (csv_metadata unit st).
Proof.
  pose (st := match load_directory unit sample_payload_eqb sample_fromisoformat sample_nearest
                      sample_float_of_string sample_int_of_string "logs"
                      summarized_directory with
              | OK st => st
              | Err _ => {| jsonl_contents := []; printed := []; csv_metadata := [] |}
              end).
  assert (Hload : load_directory unit sample_payload_eqb sample_fromisoformat sample_nearest
                    sample_float_of_string sample_int_of_string "logs"
                    summarized_directory = OK st) by (vm_compute; reflexivity).
  exists st; split; [exact Hload |].
  apply (directory_metadata_is_the_table_named_task_metadata unit sample_payload_eqb
           sample_fromisoformat sample_nearest sample_float_of_string sample_int_of_string "logs"
           summarized_directory st Hload).
  repeat constructor; cbn; intuition discriminate.
Defined.

(** The prototype entries of Task1 among the graded entries. *)
Lemma filter_on_samples :
  In ("U1" ++ "_" ++ "prototype" ++ "_" ++ "Task1", graded_entry (90 # 1) (30 # 1) (3 # 1))
     (filter_jsonl_input unit graded_entries None (Some "prototype") (Some "Task1"))
  /\ ~ In ("U1" ++ "_" ++ "baseline" ++ "_" ++ "Task1", graded_entry (200 # 1) (80 # 1) (2 # 1))
          (filter_jsonl_input unit graded_entries None (Some "prototype") (Some "Task1")).
Proof.
  split.
  - apply (filter_keeps_exactly_the_entries_asked_for unit graded_entries None
             (Some "prototype") (Some "Task1") "U1" "prototype" "Task1");
      try reflexivity; try discriminate.
    + intros t Ht; inversion Ht; reflexivity.
    + cbn; auto 10.
  - intros Hin.
    apply (filter_keeps_exactly_the_entries_asked_for unit graded_entries None
             (Some "prototype") (Some "Task1") "U1" "baseline" "Task1") in Hin;
      try reflexivity; try discriminate.
    + destruct Hin as (_ & _ & [Hc|Hc] & _); discriminate Hc.
    + intros t Ht; inversion Ht; reflexivity.
Defined.

(** Going through the graded entries, one at a time. *)
Ltac each_graded_entry Hin :=
  cbn in Hin;
  repeat (destruct Hin as [Hin|Hin]; [inversion Hin; subst; clear Hin |]);
  [.. | contradiction].


(** A session that ends when it starts loads, and the KM time reduction of
    its task divides by zero. *)
Lemma instant_session_divides_by_zero :
  exists st,
    load_directory unit sample_payload_eqb sample_fromisoformat sample_nearest
      sample_float_of_string sample_int_of_string "logs"
      [("a.jsonl", jsonl_file instant_lines)] = OK st
    /\ float_safe_entries unit (jsonl_contents unit st)
    /\ get_km_time_proportional_reduction unit (jsonl_contents unit st) "Task1"
       = Raises ZeroDivisionError
    /\ (ZeroDivisionError = NoPrototypeData "Task1"
        \/ ZeroDivisionError = NoBaselineData "Task1"
        \/ ZeroDivisionError = ZeroDivisionError).
Proof.
  pose (dir := [("a.jsonl", jsonl_file instant_lines)]).
  pose (st := match load_directory unit sample_payload_eqb sample_fromisoformat sample_nearest
                      sample_float_of_string sample_int_of_string "logs" dir with
              | OK st => st
              | Err _ => {| jsonl_contents := []; printed := []; csv_metadata := [] |}
              end).
  assert (Hload : load_directory unit sample_payload_eqb sample_fromisoformat sample_nearest
                    sample_float_of_string sample_int_of_string "logs" dir = OK st)
    by (vm_compute; reflexivity).
  assert (Hsafe : float_safe_entries unit (jsonl_contents unit st)).
  { intros k r Hk; apply lookup_In in Hk; vm_compute in Hk.
    destruct Hk as [Hk|[]]; inversion Hk; subst k r; clear Hk.
    split; eapply float_safe_at_float; reflexivity. }
  assert (Hmetric : get_km_time_proportional_reduction unit (jsonl_contents unit st) "Task1"
                    = Raises ZeroDivisionError) by (vm_compute; reflexivity).
  exists st; split; [exact Hload | split; [exact Hsafe | split; [exact Hmetric |]]].
  exact (time_metrics_on_a_loaded_directory_raise_no_key_or_type_error unit
           sample_payload_eqb sample_fromisoformat sample_nearest sample_float_of_string
           sample_int_of_string "logs" dir st "Task1" (VFloat 60) 60 ZeroDivisionError
           Hload Hsafe eq_refl I (or_introl Hmetric)).
Defined.


(** Of the four graded entries, the two graded 3 and 2 fail a passing score
    of 4 and the two graded 5 and 4 pass it. *)
Lemma binarized_on_samples :
  binarized unit graded_entries (5 # 1) (CFloat (4 # 1))
  = Returns (recast_all unit (5 # 1) (4 # 1) graded_entries)
  /\ map (fun kr => lookup "task_grade" (snd kr)) (recast_all unit (5 # 1) (4 # 1) graded_entries)
     = [ Some (FVal (VInt 0)); Some (FVal (VFloat (5 # 1)));
         Some (FVal (VInt 0)); Some (FVal (VFloat (5 # 1))) ]
  /\ get_binarized_proportional_task_failure_rate_reduction unit graded_entries "Task1"
       (5 # 1) (CFloat (4 # 1))
     = get_proportional_task_failure_rate_reduction unit
         (recast_all unit (5 # 1) (4 # 1) graded_entries) "Task1" (5 # 1).
Proof.
  destruct (binarized_reduction_is_the_reduction_on_the_recast_grades unit graded_entries
              "Task1" (5 # 1) (4 # 1)) as (Hcopy & _ & _ & Hreduction).
  - vm_compute; discriminate.
  - intros k r Hin; each_graded_entry Hin; do 2 eexists; split; reflexivity.
  - split; [exact Hcopy | split; [reflexivity | exact Hreduction]].
Defined.

(** With a passing score of zero the grades are not recast. *)
Lemma zero_passing_score_on_samples :
  get_binarized_proportional_task_failure_rate_reduction unit graded_entries "Task1" (5 # 1)
    (CFloat 0)
  = get_proportional_task_failure_rate_reduction unit graded_entries "Task1" (5 # 1).
Proof.
  apply (proj2 (zero_passing_score_leaves_the_grades_as_they_are unit graded_entries "Task1"
                  (5 # 1))); [reflexivity | discriminate].
Defined.


(** The summary of the directory with one entry and the table of one task. *)
Lemma summary_table_on_samples :
  exists rows header body,
    directory_summary unit sample_payload_eqb sample_fromisoformat sample_nearest sample_float_of_string
      sample_int_of_string "logs" summarized_directory false "out" true = Returns rows
    /\ rows = map (SName unit) header :: body
    /\ List.length body = 1%nat
    /\ (forall row, In row body -> List.length row = List.length header)
    /\ List.length header = 15%nat.
Proof.
  pose (st := match load_directory unit sample_payload_eqb sample_fromisoformat sample_nearest
                      sample_float_of_string sample_int_of_string "logs"
                      summarized_directory with
              | OK st => st
              | Err _ => {| jsonl_contents := []; printed := []; csv_metadata := [] |}
              end).
  assert (Hload : load_directory unit sample_payload_eqb sample_fromisoformat sample_nearest
                    sample_float_of_string sample_int_of_string "logs"
                    summarized_directory = OK st) by (vm_compute; reflexivity).
  pose (rows := match directory_summary unit sample_payload_eqb sample_fromisoformat sample_nearest
                        sample_float_of_string sample_int_of_string "logs"
                        summarized_directory false "out" true with
                | Returns rows => rows
                | Raises _ => []
                end).
  assert (Hrows : directory_summary unit sample_payload_eqb sample_fromisoformat sample_nearest
                    sample_float_of_string sample_int_of_string "logs"
                    summarized_directory false "out" true = Returns rows)
    by (vm_compute; reflexivity).
  destruct (proj1 (summary_is_a_table_with_a_row_for_every_entry unit sample_payload_eqb
                     sample_fromisoformat sample_nearest sample_float_of_string sample_int_of_string
                     "logs" summarized_directory false "out" true st Hload) rows Hrows)
    as (header & body & Heq & Hlen & Hall & _).
  exists rows, header, body.
  split; [exact Hrows | split; [exact Heq | split; [exact Hlen | split; [exact Hall |]]]].
  assert (Hhead : map (SName unit) header = hd [] rows) by (now rewrite Heq).
  apply (f_equal (@List.length _)) in Hhead; rewrite length_map in Hhead.
  rewrite Hhead; vm_compute; reflexivity.
Defined.

(** The entry of the directory names the task of the table. *)
Lemma summary_written_on_samples :
  exists rows,
    directory_summary unit sample_payload_eqb sample_fromisoformat sample_nearest sample_float_of_string
      sample_int_of_string "logs" summarized_directory false "out" true = Returns rows.
Proof.
  pose (st := match load_directory unit sample_payload_eqb sample_fromisoformat sample_nearest
                      sample_float_of_string sample_int_of_string "logs"
                      summarized_directory with
              | OK st => st
              | Err _ => {| jsonl_contents := []; printed := []; csv_metadata := [] |}
              end).
  assert (Hload : load_directory unit sample_payload_eqb sample_fromisoformat sample_nearest
                    sample_float_of_string sample_int_of_string "logs"
                    summarized_directory = OK st) by (vm_compute; reflexivity).
  apply (summary_is_written_when_every_entry_names_a_task_of_the_metadata unit
           sample_payload_eqb sample_fromisoformat sample_nearest sample_float_of_string
           sample_int_of_string "logs" summarized_directory "out" st "Task1"
           [("task_optimal_time_in_seconds", CFloat (120 # 1)); ("task_maximum_score", CInt 7)]
           [] Hload).
  - vm_compute; reflexivity.
  - vm_compute; discriminate.
  - intros k r Hin; vm_compute in Hin.
    destruct Hin as [Hin|[]]; inversion Hin; subst; clear Hin.
    exists "Task1", [("task_optimal_time_in_seconds", CFloat (120 # 1));
                     ("task_maximum_score", CInt 7)].
    split; [reflexivity | split; [vm_compute; reflexivity |]].
    intros c Hc; cbn in Hc; destruct Hc as [<-|[<-|[]]]; reflexivity.
Defined.


